(** * ALGO-Cluster_XAU_v3: cluster detector, direction decision, stop ratchet,
      risk circuit breaker and de-duplication cache

    Shallow embedding of the decision logic of the bot.

    Conventions of the embedding.
    - A [datetime] (UTC-aware) is the integer number of microseconds since the
      epoch, a [timedelta] a number of microseconds: [datetime] arithmetic and
      comparison are exact integer operations in Python.
    - A Python [float] that carries a price, an indicator or a P&L amount is
      an exact rational ([Q]); comparisons are the decidable ones of [Q].
    - A [set] of participant identifiers is a [gset string], a [dict] a
      [gmap].
    - Calls to the terminal (MetaTrader5) and to the clock are inputs of the
      functions that make them. *)

From Stdlib Require Import ZArith QArith Qround Qabs Lia Lqa.
From stdpp Require Import gmap strings list fin_maps fin_sets.

#[local] Set Warnings "-clear-no-such-hyp".

Local Open Scope Z_scope.

(** ** src/core/models.py *)

Module Models.

(** the [side] / [direction] strings, "buy" | "sell" *)
Inductive Side := buy | sell.

#[global] Instance Side_eq_dec : EqDecision Side.
Proof. solve_decision. Defined.

(** microseconds since the epoch, UTC *)
Abbreviation datetime := Z.
Abbreviation timedelta := Z.

Definition timedelta_seconds (s : Z) : timedelta := s * 1000000.
Definition timedelta_hours (h : Z) : timedelta := h * 3600 * 1000000.

Record SirixPositionEvent := {
  order_id : string;
  user_id  : string;
  side     : Side;
  lots     : Q;
  time     : datetime
}.

(** the [trade_mode] strings, "inverse" | "momentum" *)
Inductive TradeMode := inverse | momentum.

Record BotPositionInfo := {
  ticket           : Z;
  direction        : Side;
  entry_time       : datetime;
  entry_price      : Q;
  sl_price         : Q;
  tp_price         : option Q;
  initial_sl_price : Q;
  trade_mode       : TradeMode;
  breakeven_hit    : bool
}.

Record PendingOrderMeta := {
  created_at_utc  : datetime;
  trade_side      : Side;
  pending_price   : Q;
  market_price    : Q;
  meta_trade_mode : TradeMode
}.

Record StrategyConfig := {
  name  : string;
  magic : Z;
  t_seconds : Z;
  k_unique  : Z;
  hold_minutes  : Z;
  sl_distance   : Q;
  tp_R_multiple : Q;
  use_tp_exit   : bool;
  use_time_exit : bool;
  stop_mode      : string;
  atr_period     : Z;
  atr_init_mult  : Q;
  atr_trail_mult : Q;
  chan_lookback  : option Z;
  trail_start_R  : option Q;
  breakeven_trigger_R : option Q;
  limit_offset_dollars : Q;
  max_open_positions   : Z;
  risk_mode    : string;
  risk_percent : Q;
  fixed_lots   : Q;
  static_risk_base_balance : Q;
  direction_mode      : string;
  rsi_period          : Z;
  rsi_overbought      : Q;
  rsi_oversold        : Q;
  vwap_band_pct       : Q;
  hybrid_require_both : bool
}.

Definition timedelta_minutes (m : Z) : timedelta := m * 60 * 1000000.

End Models.
Export Models.

(** ** config/config.py *)

Module Config.
Definition CLUSTER_REFRACTORY_SECONDS : Z := 1.
Definition TRADE_COOLDOWN_SECONDS : Z := 120.
Definition SEEN_ORDERS_MAX_AGE_HOURS : Z := 24.
Definition USE_DAILY_LOSS_LIMITS : bool := true.
Definition DAILY_LOSS_LIMIT_TOTAL : Q := 1000%Q.
Definition DAILY_LOSS_LIMIT_PER_ENGINE : Q := 500%Q.
Definition COOLDOWN_HEARTBEAT_SECONDS : Z := 0.
Definition VERBOSE_HYBRID : bool := true.
Definition PENDING_ORDER_TIMEOUT_MIN : Z := 3.
End Config.

(** ** Python built-ins on floats, over [Q] *)

Module Py.

Definition Qltb (x y : Q) : bool := negb (Qle_bool y x).

(** [max(a, b)]: the first argument unless the second is greater *)
Definition max (a b : Q) : Q := if Qltb a b then b else a.

(** [min(a, b)]: the first argument unless the second is smaller *)
Definition min (a b : Q) : Q := if Qltb b a then b else a.

(** rounding to the nearest integer, ties to even *)
Definition round_half_even (x : Q) : Z :=
  let f := Qfloor x in
  match ((x - inject_Z f) ?= (1 # 2))%Q with
  | Lt => f
  | Gt => f + 1
  | Eq => if Z.even f then f else f + 1
  end.

(** [round(x, ndigits)] *)
Definition round (x : Q) (ndigits : nat) : Q :=
  let scale := inject_Z (10 ^ Z.of_nat ndigits) in
  (inject_Z (round_half_even (x * scale)) / scale)%Q.

(** exceptions caught by [except Exception] *)
Inductive exn := Exception (msg : string).

Definition Result (A : Type) : Type := exn + A.

(** [for k in keys: d.pop(k, None)] *)
Definition pop_all {A} (keys : list Z) (d : gmap Z A) : gmap Z A :=
  foldl (fun acc k => delete k acc) d keys.

(** [for k, v in list(d.items()): if cond(k, v): d.pop(k, None)] *)
Definition pop_where {A} (cond : Z → A → bool) (d : gmap Z A) : gmap Z A :=
  foldl (fun acc kv => if cond kv.1 kv.2 then delete kv.1 acc else acc)
        d (map_to_list d).

(** the same loop popping the key from a second dictionary as well *)
Definition pop_both_where {A B} (cond : Z → A → bool)
    (d : gmap Z A) (d' : gmap Z B) : gmap Z A * gmap Z B :=
  foldl (fun acc kv =>
           if cond kv.1 kv.2
           then (delete kv.1 acc.1, delete kv.1 acc.2) else acc)
        (d, d') (map_to_list d).

(** [list(d.keys())] *)
Definition keys {A} (d : gmap Z A) : list Z := (map_to_list d).*1.

End Py.

(** ** src/core/cluster_engine.py *)

Module ClusterEngine.

Record t := {
  window_seconds    : Z;
  k_unique          : Z;
  events            : list SirixPositionEvent;
  last_cluster_time : option datetime;
  last_cluster_side : option Side
}.

(** [ClusterEngine.__init__] *)
Definition init (window_seconds k_unique : Z) : t :=
  {| window_seconds := window_seconds; k_unique := k_unique;
     events := []; last_cluster_time := None; last_cluster_side := None |}.

Definition set_events (eng : t) (evs : list SirixPositionEvent) : t :=
  {| window_seconds := window_seconds eng; k_unique := k_unique eng;
     events := evs;
     last_cluster_time := last_cluster_time eng;
     last_cluster_side := last_cluster_side eng |}.

(** [while self.events and self.events[0].time < cutoff: popleft()] *)
Fixpoint trim (cutoff : datetime) (evs : list SirixPositionEvent)
  : list SirixPositionEvent :=
  match evs with
  | [] => []
  | ev :: rest => if time ev <? cutoff then trim cutoff rest else evs
  end.

(** step 3: the loop that fills [buy_users] and [sell_users] *)
Definition add_user (acc : gset string * gset string) (ev : SirixPositionEvent)
  : gset string * gset string :=
  match side ev with
  | buy  => ({[ user_id ev ]} ∪ acc.1, acc.2)
  | sell => (acc.1, {[ user_id ev ]} ∪ acc.2)
  end.

Definition count_users (evs : list SirixPositionEvent)
  : gset string * gset string :=
  foldl add_user (∅, ∅) evs.

(** step 4: [cluster_side] *)
Definition cluster_side (k : Z) (evs : list SirixPositionEvent) : option Side :=
  let users := count_users evs in
  if k <=? Z.of_nat (size users.1) then Some buy
  else if k <=? Z.of_nat (size users.2) then Some sell
  else None.

(** step 5: the refractory condition *)
Definition refractory (eng : t) (latest_time : datetime) (s : Side) : bool :=
  match last_cluster_time eng with
  | None => false
  | Some t0 =>
      bool_decide (last_cluster_side eng = Some s)
      && (latest_time - t0 <? timedelta_seconds Config.CLUSTER_REFRACTORY_SECONDS)
  end.

(** [add_events]: the returned side and the engine after the call *)
Definition add_events (eng : t) (new_events : list SirixPositionEvent)
  : option Side * t :=
  let appended := events eng ++ new_events in
  match last appended with
  | None => (None, set_events eng appended)
  | Some latest =>
      let latest_time := time latest in
      let cutoff := latest_time - timedelta_seconds (window_seconds eng) in
      let window := trim cutoff appended in
      match window with
      | [] => (None, set_events eng window)
      | _ :: _ =>
          match cluster_side (k_unique eng) window with
          | None => (None, set_events eng window)
          | Some s =>
              if refractory eng latest_time s
              then (None, set_events eng window)
              else (Some s,
                    {| window_seconds := window_seconds eng;
                       k_unique := k_unique eng;
                       events := window;
                       last_cluster_time := Some latest_time;
                       last_cluster_side := Some s |})
          end
      end
  end.

(** the engine after a sequence of calls, one per batch *)
Definition run (eng : t) (batches : list (list SirixPositionEvent)) : t :=
  foldl (fun e b => (add_events e b).2) eng batches.

(** the window bound: every event is no older than the last one's time
    minus the window length *)
Definition window_bounded (eng : t) : Prop :=
  ∀ latest ev, last (events eng) = Some latest → ev ∈ events eng →
    time latest - timedelta_seconds (window_seconds eng) <= time ev.


(** the participants on one side of a window, as a set *)
Definition users_on (s : Side) (evs : list SirixPositionEvent) : gset string :=
  list_to_set (user_id <$> filter (fun ev => side ev = s) evs).

End ClusterEngine.

(** ** src/core/models.py, [StrategyState] *)

Module State.

Record StrategyState := {
  config         : StrategyConfig;
  cluster_engine : ClusterEngine.t;
  open_positions : gmap Z BotPositionInfo;
  pending_orders : gmap Z datetime;
  pending_meta   : gmap Z PendingOrderMeta;
  cooldown_until_utc           : option datetime;
  _cooldown_active_last        : bool;
  _cooldown_last_heartbeat_utc : option datetime
}.

(** what [loader.load_strategies] builds for one entry of the YAML file *)
Definition init (cfg : StrategyConfig) : StrategyState :=
  {| config := cfg;
     cluster_engine := ClusterEngine.init (t_seconds cfg) (k_unique cfg);
     open_positions := ∅; pending_orders := ∅; pending_meta := ∅;
     cooldown_until_utc := None;
     _cooldown_active_last := false;
     _cooldown_last_heartbeat_utc := None |}.

End State.
Export State.

(** ** src/core/risk.py *)

Module Risk.

(** the [reason] string of [check_daily_loss_limits]: its tag and the
    values it formats *)
Inductive Reason :=
| no_reason
| ENGINE_DAILY_LOSS_LIMIT (engine_name : string) (pnl_today : Q)
| TOTAL_DAILY_LOSS_LIMIT (total_pnl_today : Q).

Section CircuitBreaker.

(** the three configuration constants read by the function *)
Variable USE_DAILY_LOSS_LIMITS : bool.
Variable DAILY_LOSS_LIMIT_TOTAL : Q.
Variable DAILY_LOSS_LIMIT_PER_ENGINE : Q.

(** the two queries to the terminal, by magic number *)
Variable realized_pnl_today : Z → Q.
Variable floating_pnl : Z → Q.

Definition engine_pnl (st : StrategyState) : Q :=
  (realized_pnl_today (magic (config st)) + floating_pnl (magic (config st)))%Q.

(** the [for st in strategies] loop: an early return, or the total *)
Fixpoint loss_loop (strategies : list StrategyState) (total_pnl : Q)
  : (bool * Reason) + Q :=
  match strategies with
  | [] => inr total_pnl
  | st :: rest =>
      let pnl := engine_pnl st in
      let total_pnl := (total_pnl + pnl)%Q in
      if Qle_bool pnl (- DAILY_LOSS_LIMIT_PER_ENGINE)
      then inl (true, ENGINE_DAILY_LOSS_LIMIT (name (config st)) pnl)
      else loss_loop rest total_pnl
  end.

Definition check_daily_loss_limits (strategies : list StrategyState)
  : bool * Reason :=
  if negb USE_DAILY_LOSS_LIMITS then (false, no_reason)
  else
    match loss_loop strategies 0%Q with
    | inl r => r
    | inr total_pnl =>
        if Qle_bool total_pnl (- DAILY_LOSS_LIMIT_TOTAL)
        then (true, TOTAL_DAILY_LOSS_LIMIT total_pnl)
        else (false, no_reason)
    end.

(** the sum of the engines' P&L *)
Definition total_pnl (strategies : list StrategyState) : Q :=
  foldr (fun st acc => (engine_pnl st + acc)%Q) 0%Q strategies.

End CircuitBreaker.

(** *** Lot sizing *)

(** the fields of [symbol_info] read by the lot sizing *)
Record VolumeInfo := {
  volume_step         : Q;
  volume_min          : Q;
  volume_max          : Q;
  trade_contract_size : Q
}.

Definition _round_lots (lots : Q) (symbol_info : VolumeInfo) : Q :=
  let step := Py.max (volume_step symbol_info) (1 # 100) in
  let rounded :=
    Py.round (inject_Z (Py.round_half_even (lots / step)) * step) 2 in
  Py.max (volume_min symbol_info) (Py.min rounded (volume_max symbol_info)).

(** [calc_lot_size]; [account_equity] is the equity of [mt5.account_info()],
    [None] when the terminal gives no account *)
Definition calc_lot_size (account_equity : option Q) (stop_distance_price : Q)
    (cfg : StrategyConfig) (symbol_info : VolumeInfo) : Q :=
  if String.eqb (risk_mode cfg) "fixed_lots"
  then _round_lots (fixed_lots cfg) symbol_info
  else
    let risk_dollars :=
      if String.eqb (risk_mode cfg) "static_pct"
      then Some (static_risk_base_balance cfg * risk_percent cfg)%Q
      else
        match account_equity with
        | None => None
        | Some equity => Some (equity * risk_percent cfg)%Q
        end in
    match risk_dollars with
    | None => _round_lots (volume_min symbol_info) symbol_info
    | Some risk_dollars =>
        let contract_size := trade_contract_size symbol_info in
        if Qle_bool stop_distance_price 0 || Qle_bool contract_size 0
        then _round_lots (volume_min symbol_info) symbol_info
        else
          _round_lots (risk_dollars / (stop_distance_price * contract_size))
            symbol_info
    end.

(** *** Daily P&L *)

(** a deal of the history and an open position, as far as they are read *)
Inductive DealEntry := DEAL_ENTRY_IN | DEAL_ENTRY_OUT | DEAL_ENTRY_INOUT | DEAL_ENTRY_OUT_BY.

Record Deal := {
  deal_magic  : Z;
  deal_entry  : DealEntry;
  deal_profit : Q
}.

Definition closing (d : Deal) : bool :=
  match deal_entry d with
  | DEAL_ENTRY_OUT | DEAL_ENTRY_OUT_BY => true
  | _ => false
  end.

(** [realized_pnl_today]; [deals] is what [history_deals_get] returns for
    the day, [None] on failure *)
Definition realized_pnl_today (deals : option (list Deal)) (magic : Z) : Q :=
  match deals with
  | None => 0%Q
  | Some deals =>
      foldl (fun acc d =>
               if (deal_magic d =? magic) && closing d
               then (acc + deal_profit d)%Q else acc)
            0%Q deals
  end.

(** [floating_pnl]; [poss] lists magic and profit of the open positions *)
Definition floating_pnl (poss : option (list (Z * Q))) (magic : Z) : Q :=
  match poss with
  | None => 0%Q
  | Some poss =>
      foldl (fun acc p => if p.1 =? magic then (acc + p.2)%Q else acc) 0%Q poss
  end.

End Risk.

(** ** src/mt5/execution.py *)

Module Execution.

(** the fields of [conn.SYMBOL_INFO] that are read *)
Record SymbolInfo := {
  point             : Q;
  digits            : nat;
  trade_stops_level : Z
}.

Inductive OrderType := ORDER_TYPE_BUY | ORDER_TYPE_SELL.

Definition round_price (sym : SymbolInfo) (x : Q) : Q :=
  Py.round x (digits sym).

Definition enforce_stop_level (sym : SymbolInfo) (order_type : OrderType)
    (price sl : Q) (tp : option Q) : Q * option Q :=
  let sl_level := trade_stops_level sym in
  let '(sl, tp) :=
    if 0 <? sl_level then
      let min_dist := (inject_Z sl_level * point sym)%Q in
      match order_type with
      | ORDER_TYPE_BUY =>
          (if Py.Qltb (price - sl) min_dist then (price - min_dist)%Q else sl,
           match tp with
           | Some t =>
               if Py.Qltb (t - price) min_dist
               then Some (price + min_dist)%Q else Some t
           | None => None
           end)
      | ORDER_TYPE_SELL =>
          (if Py.Qltb (sl - price) min_dist then (price + min_dist)%Q else sl,
           match tp with
           | Some t =>
               if Py.Qltb (price - t) min_dist
               then Some (price - min_dist)%Q else Some t
           | None => None
           end)
      end
    else (sl, tp) in
  (round_price sym sl, option_map (round_price sym) tp).

Definition calc_sl_tp (sym : SymbolInfo) (side : Side) (entry_price : Q)
    (cfg : StrategyConfig) (atr_val : option Q) : Q * option Q :=
  let sl_dist :=
    if String.eqb (stop_mode cfg) "fixed" then sl_distance cfg
    else
      match atr_val with
      | None => sl_distance cfg
      | Some atr => (atr_init_mult cfg * atr)%Q
      end in
  let sl :=
    match side with
    | buy => (entry_price - sl_dist)%Q
    | sell => (entry_price + sl_dist)%Q
    end in
  let tp :=
    if use_tp_exit cfg then
      let tp_dist := (tp_R_multiple cfg * sl_dist)%Q in
      Some (match side with
            | buy => (entry_price + tp_dist)%Q
            | sell => (entry_price - tp_dist)%Q
            end)
    else None in
  let order_type :=
    match side with buy => ORDER_TYPE_BUY | sell => ORDER_TYPE_SELL end in
  enforce_stop_level sym order_type entry_price sl tp.

(** the stop distance [calc_sl_tp] starts from *)
Definition configured_sl_dist (cfg : StrategyConfig) (atr_val : option Q) : Q :=
  if String.eqb (stop_mode cfg) "fixed" then sl_distance cfg
  else
    match atr_val with
    | None => sl_distance cfg
    | Some atr => (atr_init_mult cfg * atr)%Q
    end.

(** a distance from the price, widened to the broker's minimum distance
    when the symbol has a stop level *)
Definition widened (sym : SymbolInfo) (dist : Q) : Q :=
  if 0 <? trade_stops_level sym
  then Py.max dist (inject_Z (trade_stops_level sym) * point sym)%Q
  else dist.

(** [point] is one unit of the last of the [digits] decimals *)
Definition point_is_last_digit (sym : SymbolInfo) : Prop :=
  (point sym * inject_Z (10 ^ Z.of_nat (digits sym)) == 1)%Q.

(** *** Positions of the terminal *)

(** a position as [mt5.positions_get] reports it, as far as it is read *)
Record MT5Position := {
  pos_ticket     : Z;
  pos_magic      : Z;
  pos_type       : Side;
  pos_time       : Z;
  pos_price_open : Q;
  pos_sl         : Q;
  pos_tp         : Q
}.

Definition position_info (p : MT5Position) : BotPositionInfo :=
  {| ticket := pos_ticket p;
     direction := pos_type p;
     entry_time := timedelta_seconds (pos_time p);
     entry_price := pos_price_open p;
     sl_price := pos_sl p;
     tp_price := if Py.Qltb 0 (pos_tp p) then Some (pos_tp p) else None;
     initial_sl_price := pos_sl p;
     trade_mode := inverse;
     breakeven_hit := false |}.

(** [get_positions_for_strategy]; [poss] is [None] when the terminal
    returns nothing *)
Definition get_positions_for_strategy (poss : option (list MT5Position))
    (cfg : StrategyConfig) : gmap Z BotPositionInfo :=
  match poss with
  | None => ∅
  | Some poss =>
      foldl (fun result p =>
               if pos_magic p =? magic cfg
               then <[ pos_ticket p := position_info p ]> result
               else result)
            ∅ poss
  end.

Definition set_trade_mode (info : BotPositionInfo) (mode : TradeMode)
  : BotPositionInfo :=
  {| ticket := ticket info; direction := direction info;
     entry_time := entry_time info; entry_price := entry_price info;
     sl_price := sl_price info; tp_price := tp_price info;
     initial_sl_price := initial_sl_price info;
     trade_mode := mode; breakeven_hit := breakeven_hit info |}.

(** the new-fill pass for one live position: the trade mode of its pending
    order, when it has one and was not tracked before *)
Definition fill_info (prev : gmap Z BotPositionInfo)
    (metas : gmap Z PendingOrderMeta) (ticket : Z) (info : BotPositionInfo)
  : BotPositionInfo :=
  match prev !! ticket, metas !! ticket with
  | None, Some meta => set_trade_mode info (meta_trade_mode meta)
  | _, _ => info
  end.

(** the merge pass for one live position *)
Definition merge_info (prev : gmap Z BotPositionInfo) (ticket : Z)
    (cur : BotPositionInfo) : BotPositionInfo :=
  match prev !! ticket with
  | Some prev_info =>
      {| ticket := Models.ticket cur; direction := direction cur;
         entry_time := entry_time cur; entry_price := entry_price cur;
         sl_price := sl_price cur; tp_price := tp_price cur;
         initial_sl_price := initial_sl_price prev_info;
         trade_mode := trade_mode prev_info;
         breakeven_hit := breakeven_hit prev_info |}
  | None =>
      {| ticket := Models.ticket cur; direction := direction cur;
         entry_time := entry_time cur; entry_price := entry_price cur;
         sl_price := sl_price cur; tp_price := tp_price cur;
         initial_sl_price := sl_price cur;
         trade_mode := trade_mode cur;
         breakeven_hit := breakeven_hit cur |}
  end.

(** [events.clear()] and the two refractory fields set to [None] *)
Definition reset_cluster (eng : ClusterEngine.t) : ClusterEngine.t :=
  {| ClusterEngine.window_seconds := ClusterEngine.window_seconds eng;
     ClusterEngine.k_unique := ClusterEngine.k_unique eng;
     ClusterEngine.events := [];
     ClusterEngine.last_cluster_time := None;
     ClusterEngine.last_cluster_side := None |}.

(** [refresh_and_log_closes]; [now] is the clock reading taken for the
    cooldown in the last pass over the new fills *)
Definition refresh_and_log_closes (poss : option (list MT5Position))
    (now : datetime) (state : StrategyState) : StrategyState :=
  let cfg := config state in
  let prev := open_positions state in
  let curr := get_positions_for_strategy poss cfg in
  let new_tickets :=
    filter (fun ticket => prev !! ticket = None) (Py.keys curr) in
  let curr := map_imap (fun t info => Some (fill_info prev (pending_meta state) t info)) curr in
  let filled := negb (bool_decide (new_tickets = [])) in
  {| config := cfg;
     cluster_engine :=
       if filled then reset_cluster (cluster_engine state)
       else cluster_engine state;
     open_positions := map_imap (fun t cur => Some (merge_info prev t cur)) curr;
     pending_orders := Py.pop_all new_tickets (pending_orders state);
     pending_meta := Py.pop_all new_tickets (pending_meta state);
     cooldown_until_utc :=
       if filled
       then Some (now + timedelta_seconds Config.TRADE_COOLDOWN_SECONDS)
       else cooldown_until_utc state;
     _cooldown_active_last := _cooldown_active_last state;
     _cooldown_last_heartbeat_utc := _cooldown_last_heartbeat_utc state |}.

(** *** Placing the pending entry *)

Inductive PendingType := ORDER_TYPE_BUY_LIMIT | ORDER_TYPE_SELL_LIMIT.

(** the request sent for a pending order: the fields computed by
    [place_pending_entry] *)
Record Request := {
  req_volume : Q;
  req_type   : PendingType;
  req_price  : Q;
  req_sl     : Q;
  req_tp     : Q;
  req_magic  : Z
}.

Definition TRADE_RETCODE_DONE : Z := 10009.

(** what [place_pending_entry] reads from the terminal: the tick (bid and
    ask), the last M1 close for the fallback, the ATR (fetch and computation,
    which may raise), the account equity, the symbol, the answer to the
    request (return code and order ticket, [None] for no answer) and the clock *)
Record PlaceEnv := {
  symbol_info_tick : option (Q * Q);
  last_m1_close    : Py.Result Q;
  fetch_atr        : Py.Result Q;
  account_equity   : option Q;
  symbol           : SymbolInfo;
  volumes          : Risk.VolumeInfo;
  order_send       : Request → option (Z * Z);
  placed_at        : datetime
}.

(** the bid and ask used: the tick when both are positive, else the last
    close for both; [None] when the fallback raises *)
Definition quote (env : PlaceEnv) : option (Q * Q) :=
  let fallback :=
    match last_m1_close env with
    | inr last_close => Some (last_close, last_close)
    | inl _ => None
    end in
  match symbol_info_tick env with
  | None => fallback
  | Some (bid, ask) =>
      if Qle_bool bid 0 || Qle_bool ask 0 then fallback else Some (bid, ask)
  end.

Definition uses_atr (cfg : StrategyConfig) : bool :=
  String.eqb (stop_mode cfg) "atr_static"
  || String.eqb (stop_mode cfg) "atr_trailing"
  || String.eqb (stop_mode cfg) "chandelier".

Definition place_pending_entry (env : PlaceEnv) (trade_side : Side)
    (cfg : StrategyConfig) (offset_dollars : Q) (trade_mode : TradeMode)
  : option (Z * PendingOrderMeta) :=
  match quote env with
  | None => None
  | Some (bid, ask) =>
      let sym := symbol env in
      let market_price := ((bid + ask) / 2)%Q in
      let entry_price :=
        match trade_side with
        | buy => round_price sym (bid - offset_dollars)
        | sell => round_price sym (ask + offset_dollars)
        end in
      let order_type :=
        match trade_side with
        | buy => ORDER_TYPE_BUY_LIMIT
        | sell => ORDER_TYPE_SELL_LIMIT
        end in
      let atr_val :=
        if uses_atr cfg then
          match fetch_atr env with
          | inr atr => Some atr
          | inl _ => None
          end
        else None in
      let '(sl_price, tp_price) := calc_sl_tp sym trade_side entry_price cfg atr_val in
      let sl_distance := Qabs (entry_price - sl_price) in
      let lots :=
        Risk.calc_lot_size (account_equity env) sl_distance cfg (volumes env) in
      if Qle_bool lots 0 then None
      else
        let base_type :=
          match trade_side with buy => ORDER_TYPE_BUY | sell => ORDER_TYPE_SELL end in
        let '(sl_price, tp_price) :=
          enforce_stop_level sym base_type entry_price sl_price tp_price in
        let req :=
          {| req_volume := lots; req_type := order_type;
             req_price := entry_price; req_sl := sl_price;
             req_tp := match tp_price with Some tp => tp | None => 0%Q end;
             req_magic := magic cfg |} in
        match order_send env req with
        | None => None
        | Some (retcode, order) =>
            if negb (retcode =? TRADE_RETCODE_DONE) then None
            else
              Some (order,
                    {| created_at_utc := placed_at env;
                       trade_side := trade_side;
                       pending_price := entry_price;
                       market_price := market_price;
                       meta_trade_mode := trade_mode |})
        end
  end.

End Execution.
Export Execution.

(** ** src/strategies/chandelier.py *)

Module Chandelier.

Definition _inverse_side (s : Side) : Side :=
  match s with buy => sell | sell => buy end.

Definition _in_cooldown (state : StrategyState) (now : datetime) : bool :=
  match cooldown_until_utc state with
  | None => false
  | Some until => now <? until
  end.

Definition set_cooldown_log (state : StrategyState) (active : bool)
    (hb : option datetime) : StrategyState :=
  {| config := config state; cluster_engine := cluster_engine state;
     open_positions := open_positions state;
     pending_orders := pending_orders state;
     pending_meta := pending_meta state;
     cooldown_until_utc := cooldown_until_utc state;
     _cooldown_active_last := active;
     _cooldown_last_heartbeat_utc := hb |}.

(** [_log_cooldown]: whether the cooldown is active, and the state with the
    bookkeeping of the log lines *)
Definition _log_cooldown (state : StrategyState) (now : datetime)
  : bool * StrategyState :=
  let active := _in_cooldown state now in
  let last := _cooldown_active_last state in
  let hb := _cooldown_last_heartbeat_utc state in
  let hb := if active && negb last then Some now else hb in
  let hb := if negb active && last then None else hb in
  let hb :=
    if active && (0 <? Config.COOLDOWN_HEARTBEAT_SECONDS) then
      match hb with
      | None => Some now
      | Some last_hb =>
          if timedelta_seconds Config.COOLDOWN_HEARTBEAT_SECONDS <=? now - last_hb
          then Some now else hb
      end
    else hb in
  (active, set_cooldown_log state active hb).

(** *** Direction decision *)

(** the values logged by [log_strategy] in [decide_direction] *)
Inductive LogMsg :=
| HYBRID_indicator_fetch_failed (e : Py.exn)
| HYBRID_decision (cluster : Side) (rsi vwap price : Q)
    (rsi_cond vwap_cond : bool) (mode : TradeMode) (trade : Side).

Record LogRecord := { level : string; msg : LogMsg }.

(** a computation that may raise, with the lines it has logged *)
Definition M (A : Type) : Type := Py.Result A * list LogRecord.

Definition ret {A} (x : A) : M A := (inr x, []).
Definition raise {A} (e : Py.exn) : M A := (inl e, []).
Definition lift {A} (r : Py.Result A) : M A := (r, []).
Definition bind {A B} (m : M A) (k : A → M B) : M B :=
  match m with
  | (inl e, l) => (inl e, l)
  | (inr x, l) => let '(r, l') := k x in (r, l ++ l')
  end.
Definition log_strategy (lvl : string) (m : LogMsg) : M unit :=
  (inr tt, [ {| level := lvl; msg := m |} ]).

(** [try: body  except Exception as e: handler e] *)
Definition try_except {A} (body : M A) (handler : Py.exn → M A) : M A :=
  match body with
  | (inl e, l) => let '(r, l') := handler e in (r, l ++ l')
  | (inr x, l) => (inr x, l)
  end.

Notation "'let*' x := m 'in' k" := (bind m (fun x => k))
  (at level 10, x pattern, m at level 100, k at level 200).

(** the M1 bars of the terminal and the indicators computed from them
    (src/core/indicators.py); each may raise *)
Record IndicatorFeed (DataFrame : Type) := {
  fetch_m1_rates : Z → Py.Result DataFrame;
  compute_rsi    : DataFrame → Z → Py.Result Q;
  compute_vwap   : DataFrame → Py.Result Q;
  last_close     : DataFrame → Py.Result Q
}.
Arguments fetch_m1_rates {DataFrame}.
Arguments compute_rsi {DataFrame}.
Arguments compute_vwap {DataFrame}.
Arguments last_close {DataFrame}.

(** the body of the [try] block of [decide_direction] *)
Definition hybrid_indicators {DF} (feed : IndicatorFeed DF)
    (cfg : StrategyConfig) : M (Q * Q * Q) :=
  let bars_needed := Z.max (rsi_period cfg + 5) 300 in
  let* df := lift (fetch_m1_rates feed bars_needed) in
  let* rsi := lift (compute_rsi feed df (rsi_period cfg)) in
  let* vwap := lift (compute_vwap feed df) in
  let* current_px := lift (last_close feed df) in
  ret (rsi, vwap, current_px).

(** the two momentum conditions, by cluster side *)
Definition rsi_cond (cluster_side : Side) (cfg : StrategyConfig) (rsi : Q) : bool :=
  match cluster_side with
  | sell => Py.Qltb (rsi_overbought cfg) rsi
  | buy  => Py.Qltb rsi (rsi_oversold cfg)
  end.

Definition vwap_cond (cluster_side : Side) (cfg : StrategyConfig)
    (vwap current_px : Q) : bool :=
  match cluster_side with
  | sell => Py.Qltb (vwap * (1 + vwap_band_pct cfg)) current_px
  | buy  => Py.Qltb current_px (vwap * (1 - vwap_band_pct cfg))
  end.

(** the part of [decide_direction] after the [try] block *)
Definition hybrid_decide (cluster_side : Side) (cfg : StrategyConfig)
    (ind : Q * Q * Q) : M (Side * TradeMode) :=
  let '(rsi, vwap, current_px) := ind in
  let rc := rsi_cond cluster_side cfg rsi in
  let vc := vwap_cond cluster_side cfg vwap current_px in
  let is_momentum := if hybrid_require_both cfg then rc && vc else rc || vc in
  let mode := if is_momentum then momentum else inverse in
  let trade := if is_momentum then cluster_side else _inverse_side cluster_side in
  let* _ := (if Config.VERBOSE_HYBRID
             then log_strategy "INFO"
                    (HYBRID_decision cluster_side rsi vwap current_px rc vc mode trade)
             else ret tt) in
  ret (trade, mode).

Definition decide_direction {DF} (feed : IndicatorFeed DF)
    (cluster_side : Side) (cfg : StrategyConfig) : M (Side * TradeMode) :=
  if String.eqb (direction_mode cfg) "inverse"
  then ret (_inverse_side cluster_side, inverse)
  else if String.eqb (direction_mode cfg) "momentum"
  then ret (cluster_side, momentum)
  else
    let* r :=
      try_except
        (let* ind := hybrid_indicators feed cfg in ret (Some ind))
        (fun e =>
           let* _ := log_strategy "WARN" (HYBRID_indicator_fetch_failed e) in
           ret None) in
    match r with
    | None => ret (_inverse_side cluster_side, inverse)
    | Some ind => hybrid_decide cluster_side cfg ind
    end.

(** *** Entry step *)

(** what [entry_step] reads from outside the state: the session filter
    (src/core/filters.py), the indicator feed, and the outcome of
    [place_pending_entry] (src/mt5/execution.py), [None] on failure *)
Record EntryEnv (DF : Type) := {
  within_session      : bool;
  feed                : IndicatorFeed DF;
  place_pending_entry : Side → TradeMode → option (Z * PendingOrderMeta)
}.
Arguments within_session {DF}.
Arguments feed {DF}.
Arguments place_pending_entry {DF}.

Definition set_cluster_engine (state : StrategyState) (eng : ClusterEngine.t)
  : StrategyState :=
  {| config := config state; cluster_engine := eng;
     open_positions := open_positions state;
     pending_orders := pending_orders state;
     pending_meta := pending_meta state;
     cooldown_until_utc := cooldown_until_utc state;
     _cooldown_active_last := _cooldown_active_last state;
     _cooldown_last_heartbeat_utc := _cooldown_last_heartbeat_utc state |}.

Definition record_pending (state : StrategyState) (ticket : Z)
    (meta : PendingOrderMeta) (now : datetime) : StrategyState :=
  {| config := config state; cluster_engine := cluster_engine state;
     open_positions := open_positions state;
     pending_orders := <[ ticket := created_at_utc meta ]> (pending_orders state);
     pending_meta := <[ ticket := meta ]> (pending_meta state);
     cooldown_until_utc :=
       Some (now + timedelta_seconds Config.TRADE_COOLDOWN_SECONDS);
     _cooldown_active_last := _cooldown_active_last state;
     _cooldown_last_heartbeat_utc := _cooldown_last_heartbeat_utc state |}.

(** gates 1 and 2 *)
Definition at_capacity (state : StrategyState) : bool :=
  max_open_positions (config state)
    <=? Z.of_nat (size (open_positions state)) + Z.of_nat (size (pending_orders state)).

Definition has_pending (state : StrategyState) : bool :=
  0 <? Z.of_nat (size (pending_orders state)).

Definition entry_step {DF} (env : EntryEnv DF) (state : StrategyState)
    (new_events : list SirixPositionEvent) (now : datetime) : StrategyState :=
  let cfg := config state in
  (* Gate 1 *)
  if at_capacity state then state
  (* Gate 2 *)
  else if has_pending state then state
  else
    (* Gate 3 *)
    let '(active, state) := _log_cooldown state now in
    if active then state
    (* Gate 4 *)
    else if negb (within_session env) then state
    else
      (* Gate 5 *)
      let '(cluster_side, eng) :=
        ClusterEngine.add_events (cluster_engine state) new_events in
      let state := set_cluster_engine state eng in
      match cluster_side with
      | None => state
      | Some cluster_side =>
          (* Gate 6 *)
          match decide_direction (feed env) cluster_side cfg with
          | (inl _, _) => state (* an exception would leave the step here *)
          | (inr (trade_side, trade_mode), _) =>
              (* Gate 7 *)
              match place_pending_entry env trade_side trade_mode with
              | Some (ticket, meta) => record_pending state ticket meta now
              | None => state
              end
          end
      end.

(** the four gates that precede cluster detection all let the tick through *)
Definition gates_open {DF} (env : EntryEnv DF) (state : StrategyState)
    (now : datetime) : bool :=
  negb (at_capacity state) && negb (has_pending state)
  && negb (_in_cooldown state now) && within_session env.

(** *** Trailing stops *)

(** what [manage_trailing_stops] computes from the fetched M1 bars *)
Record M1Bars := {
  atr_val      : Q;
  highest_high : Q;
  lowest_low   : Q;
  last_bar_ts  : datetime;
  current_px   : Q
}.

(** the terminal as seen by one call: the bars ([None] when the fetch
    raises), the symbol, and whether a ticket is still a live position of
    this engine *)
Record TrailEnv := {
  rates         : option M1Bars;
  SYMBOL_INFO   : SymbolInfo;
  position_live : Z → bool
}.

Definition set_sl (info : BotPositionInfo) (sl : Q) (be : bool) : BotPositionInfo :=
  {| ticket := ticket info; direction := direction info;
     entry_time := entry_time info; entry_price := entry_price info;
     sl_price := sl; tp_price := tp_price info;
     initial_sl_price := initial_sl_price info;
     trade_mode := trade_mode info; breakeven_hit := be |}.

(** step 3 of the loop body *)
Definition breakeven (cfg : StrategyConfig) (sym : SymbolInfo) (open_R : Q)
    (info : BotPositionInfo) : BotPositionInfo :=
  match breakeven_trigger_R cfg with
  | None => info
  | Some trigger =>
      if negb (breakeven_hit info) && Qle_bool trigger open_R then
        let be_sl := Py.round (entry_price info) (digits sym) in
        let improved :=
          match direction info with
          | buy  => Py.Qltb (sl_price info) be_sl
          | sell => Py.Qltb be_sl (sl_price info)
          end in
        if improved then set_sl info be_sl true else info
      else info
  end.

(** steps 4 to 7 of the loop body *)
Definition chandelier_trail (cfg : StrategyConfig) (sym : SymbolInfo)
    (bars : M1Bars) (open_R : Q) (info : BotPositionInfo) : BotPositionInfo :=
  let gated :=
    match trail_start_R cfg with
    | Some start => Py.Qltb open_R start
    | None => false
    end in
  if gated then info
  else
    let new_sl :=
      match direction info with
      | buy  => Py.max (sl_price info)
                  (highest_high bars - atr_trail_mult cfg * atr_val bars)%Q
      | sell => Py.min (sl_price info)
                  (lowest_low bars + atr_trail_mult cfg * atr_val bars)%Q
      end in
    let ot :=
      match direction info with
      | buy => ORDER_TYPE_BUY | sell => ORDER_TYPE_SELL
      end in
    let new_sl :=
      (enforce_stop_level sym ot (current_px bars) new_sl (tp_price info)).1 in
    let unsafe :=
      match direction info with
      | buy  => Qle_bool (current_px bars) new_sl
                || Py.Qltb (current_px bars - new_sl) (3 * point sym)
      | sell => Qle_bool new_sl (current_px bars)
                || Py.Qltb (new_sl - current_px bars) (3 * point sym)
      end in
    if unsafe then info
    else if Py.Qltb (2 * point sym) (Qabs (new_sl - sl_price info))
    then set_sl info new_sl (breakeven_hit info)
    else info.

(** the loop body for a position that is still live *)
Definition trail_position (cfg : StrategyConfig) (sym : SymbolInfo)
    (bars : M1Bars) (info : BotPositionInfo) : BotPositionInfo :=
  if last_bar_ts bars <=? entry_time info then info
  else
    let sl_dist := Qabs (entry_price info - initial_sl_price info) in
    if Qle_bool sl_dist 0 then info
    else
      let open_R :=
        match direction info with
        | buy  => ((current_px bars - entry_price info) / sl_dist)%Q
        | sell => ((entry_price info - current_px bars) / sl_dist)%Q
        end in
      chandelier_trail cfg sym bars open_R (breakeven cfg sym open_R info).

Definition set_open_positions (state : StrategyState)
    (ps : gmap Z BotPositionInfo) : StrategyState :=
  {| config := config state; cluster_engine := cluster_engine state;
     open_positions := ps;
     pending_orders := pending_orders state;
     pending_meta := pending_meta state;
     cooldown_until_utc := cooldown_until_utc state;
     _cooldown_active_last := _cooldown_active_last state;
     _cooldown_last_heartbeat_utc := _cooldown_last_heartbeat_utc state |}.

(** [manage_trailing_stops]; the [modify_sl_tp] requests it sends return
    nothing and are not part of the state *)
Definition manage_trailing_stops (env : TrailEnv) (state : StrategyState)
  : StrategyState :=
  let cfg := config state in
  if negb (String.eqb (stop_mode cfg) "chandelier")
     || bool_decide (open_positions state = ∅)
  then state
  else
    match rates env with
    | None => state
    | Some bars =>
        set_open_positions state
          (map_imap
             (fun ticket info =>
                if position_live env ticket
                then Some (trail_position cfg (SYMBOL_INFO env) bars info)
                else None)
             (open_positions state))
    end.

(** one call per tick, each with the terminal as it is then *)
Definition trailing_ticks (envs : list TrailEnv) (state : StrategyState)
  : StrategyState :=
  foldl (fun st env => manage_trailing_stops env st) state envs.

(** *** Pending orders and time exits *)

Definition set_pending (state : StrategyState) (orders : gmap Z datetime)
    (metas : gmap Z PendingOrderMeta) : StrategyState :=
  {| config := config state; cluster_engine := cluster_engine state;
     open_positions := open_positions state;
     pending_orders := orders;
     pending_meta := metas;
     cooldown_until_utc := cooldown_until_utc state;
     _cooldown_active_last := _cooldown_active_last state;
     _cooldown_last_heartbeat_utc := _cooldown_last_heartbeat_utc state |}.

(** the tickets of the terminal's pending orders that carry the magic
    number; [mt5_orders] lists ticket and magic of each order *)
Definition active_tickets (mt5_orders : option (list (Z * Z))) (magic : Z)
  : gset Z :=
  match mt5_orders with
  | None => ∅
  | Some orders =>
      list_to_set (filter (fun o => o.2 = magic) orders).*1
  end.

(** the order has reached its time to live; the age in minutes is compared
    exactly *)
Definition ttl_reached (now created_at : datetime) : bool :=
  negb (now - created_at <? timedelta_minutes Config.PENDING_ORDER_TIMEOUT_MIN).

(** [manage_pending_orders]; the cancel requests of the second pass do not
    touch the state, whatever their outcome *)
Definition manage_pending_orders (mt5_orders : option (list (Z * Z)))
    (now : datetime) (state : StrategyState) : StrategyState :=
  if bool_decide (pending_orders state = ∅) then state
  else
    let active := active_tickets mt5_orders (magic (config state)) in
    (* pass 1 *)
    let pass1 :=
      Py.pop_both_where (fun ticket _ => bool_decide (ticket ∉ active))
        (pending_orders state) (pending_meta state) in
    if bool_decide (pass1.1 = ∅) then set_pending state pass1.1 pass1.2
    else
      (* pass 2 *)
      let pass2 :=
        Py.pop_both_where (fun _ created_at => ttl_reached now created_at)
          pass1.1 pass1.2 in
      set_pending state pass2.1 pass2.2.

(** the position has been held for [hold_minutes] or longer *)
Definition held_long_enough (cfg : StrategyConfig) (now : datetime)
    (info : BotPositionInfo) : bool :=
  timedelta_minutes (hold_minutes cfg) <=? now - entry_time info.

(** [manage_time_exits]; the position is dropped from the state whether or
    not [close_position] succeeds *)
Definition manage_time_exits (now : datetime) (state : StrategyState)
  : StrategyState :=
  let cfg := config state in
  if negb (use_time_exit cfg) || (hold_minutes cfg <=? 0) then state
  else
    set_open_positions state
      (Py.pop_where (fun _ info => held_long_enough cfg now info)
         (open_positions state)).

(** [a] is at least as favourable a stop as [b] for a position of
    direction [d]: not lower for a long, not higher for a short *)
Definition no_worse (d : Side) (a b : Q) : Prop :=
  match d with
  | buy  => (b <= a)%Q
  | sell => (a <= b)%Q
  end.

(** the position [p'] is [p] with a stop that is no worse *)
Definition ratchets (p p' : BotPositionInfo) : Prop :=
  direction p' = direction p
  ∧ no_worse (direction p) (sl_price p') (sl_price p).

(** the terminal reports no minimum stop distance, and [point] is one unit
    of the last of the [digits] decimals *)
Definition no_stop_level (sym : SymbolInfo) : Prop :=
  trade_stops_level sym <= 0
  ∧ (point sym * inject_Z (10 ^ Z.of_nat (digits sym)) == 1)%Q.

End Chandelier.

(** ** src/sirix/api.py, [SeenOrdersCache] *)

Module SeenOrdersCache.

Record t := {
  _max_age : timedelta;
  _store   : gmap string datetime
}.

Definition init (max_age_hours : Z) : t :=
  {| _max_age := timedelta_hours max_age_hours; _store := ∅ |}.

Definition set_store (c : t) (s : gmap string datetime) : t :=
  {| _max_age := _max_age c; _store := s |}.

(** [_prune], at clock reading [now] *)
Definition _prune (now : datetime) (c : t) : t :=
  let cutoff := now - _max_age c in
  set_store c (filter (fun kv => ¬ (kv.2 < cutoff)) (_store c)).

(** [contains]: the answer and the cache after the call *)
Definition contains (now : datetime) (order_id : string) (c : t) : bool * t :=
  let c := _prune now c in
  (bool_decide (is_Some (_store c !! order_id)), c).

(** [add]; the clock is read once by [_prune] and once for the timestamp *)
Definition add (now_prune now_seen : datetime) (order_id : string) (c : t) : t :=
  let c := _prune now_prune c in
  match _store c !! order_id with
  | Some _ => c
  | None => set_store c (<[ order_id := now_seen ]> (_store c))
  end.

(** [bootstrap] *)
Definition bootstrap (ts : datetime) (order_ids : list string) (c : t) : t :=
  set_store c (foldl (fun s oid => <[ oid := ts ]> s) (_store c) order_ids).

(** the accesses made through [contains] and [add] *)
Inductive access :=
| Contains (now : datetime) (order_id : string)
| Add (now_prune now_seen : datetime) (order_id : string).

Definition access_time (a : access) : datetime :=
  match a with
  | Contains now _ => now
  | Add now_prune _ _ => now_prune
  end.

Definition step (c : t) (a : access) : t :=
  match a with
  | Contains now oid => (contains now oid c).2
  | Add now_prune now_seen oid => add now_prune now_seen oid c
  end.

Definition run (c : t) (accesses : list access) : t := foldl step c accesses.

End SeenOrdersCache.

(** ** src/core/filters.py *)

Module Filters.

(** an "HH:MM" constant, split and converted *)
Record HHMM := { hh : Z; mm : Z }.

(** the time of day, in microseconds after midnight *)
Definition time_of_day (t : HHMM) : timedelta :=
  timedelta_seconds ((hh t * 60 + mm t) * 60).

Definition one_day : timedelta := timedelta_hours 24.

(** [within_session]; [now] is the local time of day in microseconds after
    midnight, and [start], [end] are midnight plus the two constants, on the
    day of [now] *)
Definition within_session (USE_SESSION_FILTER : bool)
    (SESSION_START_HHMM SESSION_END_HHMM : HHMM) (now : timedelta) : bool :=
  if negb USE_SESSION_FILTER then true
  else
    let start := time_of_day SESSION_START_HHMM in
    let end_ := time_of_day SESSION_END_HHMM in
    let end_ := if end_ <=? start then end_ + one_day else end_ in
    (start <=? now) && (now <=? end_).

(** an entry of no_trade_zones.json: the two parsed bounds, or the exception
    raised on the way, and what [z.get("reason", "no_trade_zone")] gives
    ([None] for a JSON null) *)
Record Zone := {
  bounds : Py.Result (datetime * datetime);
  reason : option string
}.

Fixpoint check_no_trade_zone (now : datetime) (zones : list Zone)
  : bool * option string :=
  match zones with
  | [] => (false, None)
  | z :: rest =>
      match bounds z with
      | inr (start, end_) =>
          if (start <=? now) && (now <=? end_)
          then (true, reason z)
          else check_no_trade_zone now rest
      | inl _ => check_no_trade_zone now rest
      end
  end.

(** a zone that parses and contains [now] *)
Definition zone_active (now : datetime) (z : Zone) : Prop :=
  ∃ start end_, bounds z = inr (start, end_) ∧ start <= now <= end_.

End Filters.

(** ** src/sirix/api.py, side inference and event building *)

Module SirixApi.

(** a number of the JSON record is truthy when present and not zero *)
Definition truthy (x : option Q) : bool :=
  match x with
  | Some v => negb (Qeq_bool v 0)
  | None => false
  end.

Definition _infer_side (action_type : option Z) (open_rate sl tp : option Q)
  : option Side :=
  let geometry :=
    match open_rate, sl, tp with
    | Some o, Some s, Some t =>
        if truthy open_rate && truthy sl && truthy tp
           && Py.Qltb 0 s && Py.Qltb 0 t
        then
          if Py.Qltb s o && Py.Qltb o t then Some buy
          else if Py.Qltb t o && Py.Qltb o s then Some sell
          else None
        else None
    | _, _, _ => None
    end in
  match geometry with
  | Some side => Some side
  | None =>
      match action_type with
      | Some 0 => Some buy
      | Some 1 | Some 2 => Some sell
      | _ => None
      end
  end.

(** a position record of the response, after the conversions applied to its
    fields: [str] of the identifiers, [_parse_utc] of the open time and
    [float] of the lots, the last two with the exception they may raise *)
Record RawPosition := {
  InstrumentName : option string;
  OrderID    : string;
  ActionType : option Z;
  OpenRate   : option Q;
  StopLoss   : option Q;
  TakeProfit : option Q;
  OpenTime   : Py.Result datetime;
  UserID     : string;
  AmountLots : Py.Result Q
}.

Definition SIRIX_INSTRUMENT : string := "XAUUSD".

(** the cache with the clock it reads: [clock n] is the [n]-th reading of
    [datetime.now] made through the cache during the call *)
Definition Seen : Type := SeenOrdersCache.t * nat.

Definition seen_contains (clock : nat → datetime) (order_id : string)
    (s : Seen) : bool * Seen :=
  let '(b, c) := SeenOrdersCache.contains (clock s.2) order_id s.1 in
  (b, (c, S s.2)).

Definition seen_add (clock : nat → datetime) (order_id : string) (s : Seen)
  : Seen :=
  (SeenOrdersCache.add (clock s.2) (clock (S s.2)) order_id s.1, S (S s.2)).

(** the body of the loop of [build_new_events] for one record: the event it
    appends, if any, and the cache after it *)
Definition build_event (clock : nat → datetime) (min_open_time : option datetime)
    (pos : RawPosition) (s : Seen) : option SirixPositionEvent * Seen :=
  if negb (bool_decide (InstrumentName pos = Some SIRIX_INSTRUMENT)) then (None, s)
  else
    let order_id := OrderID pos in
    if String.eqb order_id "" then (None, s)
    else
      let '(seen, s) := seen_contains clock order_id s in
      if seen then (None, s)
      else
        match _infer_side (ActionType pos) (OpenRate pos) (StopLoss pos)
                (TakeProfit pos) with
        | None => (None, s)
        | Some side =>
            match OpenTime pos with
            | inl _ => (None, s)
            | inr open_time =>
                if match min_open_time with
                   | Some m => open_time <? m
                   | None => false
                   end
                then (None, seen_add clock order_id s)
                else
                  match AmountLots pos with
                  | inl _ => (None, s)
                  | inr lots =>
                      (Some {| order_id := order_id; user_id := UserID pos;
                               side := side; lots := lots; time := open_time |},
                       seen_add clock order_id s)
                  end
            end
        end.

Fixpoint build_new_events_from (clock : nat → datetime)
    (min_open_time : option datetime) (raw_positions : list RawPosition)
    (s : Seen) : list SirixPositionEvent * Seen :=
  match raw_positions with
  | [] => ([], s)
  | pos :: rest =>
      let '(ev, s) := build_event clock min_open_time pos s in
      let '(events, s) := build_new_events_from clock min_open_time rest s in
      (match ev with Some ev => ev :: events | None => events end, s)
  end.

(** [build_new_events]: the events and the cache after the call *)
Definition build_new_events (clock : nat → datetime)
    (raw_positions : list RawPosition) (cache : SeenOrdersCache.t)
    (min_open_time : option datetime)
  : list SirixPositionEvent * SeenOrdersCache.t :=
  let '(events, s) :=
    build_new_events_from clock min_open_time raw_positions (cache, 0%nat) in
  (events, s.1).

(** all the clock readings lie within [max_age] of each other and of the
    timestamps that are compared with them *)
Definition short_call (clock : nat → datetime) (max_age : timedelta) : Prop :=
  ∀ i j, clock i - clock j <= max_age.

(** the stop, the open rate and the target are present and ordered as for a
    long position, or as for a short one *)
Definition geometry_buy (open_rate sl tp : option Q) : Prop :=
  ∃ o s t, open_rate = Some o ∧ sl = Some s ∧ tp = Some t
           ∧ (0 < s ∧ s < o ∧ o < t)%Q.

Definition geometry_sell (open_rate sl tp : option Q) : Prop :=
  ∃ o s t, open_rate = Some o ∧ sl = Some s ∧ tp = Some t
           ∧ (0 < t ∧ t < o ∧ o < s)%Q.

(** the side given by the [ActionType] code alone *)
Definition by_action_type (action_type : option Z) : option Side :=
  match action_type with
  | Some 0 => Some buy
  | Some 1 | Some 2 => Some sell
  | _ => None
  end.

(** the timestamp [t0] is not older than [max_age] at any clock reading of
    the call *)
Definition within_age (clock : nat → datetime) (max_age : timedelta)
    (t0 : datetime) : Prop :=
  ∀ n, clock n - t0 <= max_age.

End SirixApi.

(** ** src/main.py, step 4 of [run_loop] *)

Module Main.

(** [for st in strategies: entry_step(st, new_events, now)]; each engine
    meets the terminal on its own *)
Definition entry_steps {DF} (env : Z → Chandelier.EntryEnv DF)
    (strategies : list StrategyState)
    (new_events : list SirixPositionEvent) (now : datetime)
  : list StrategyState :=
  (fun st => Chandelier.entry_step (env (magic (config st))) st new_events now)
    <$> strategies.

(** the body of the loop of [flatten_all] for one engine *)
Definition flatten_engine (st : StrategyState) : StrategyState :=
  let tickets := Py.keys (pending_orders st) in
  {| config := config st;
     cluster_engine := Execution.reset_cluster (cluster_engine st);
     open_positions :=
       Py.pop_all (Py.keys (open_positions st)) (open_positions st);
     pending_orders := Py.pop_all tickets (pending_orders st);
     pending_meta := Py.pop_all tickets (pending_meta st);
     cooldown_until_utc := cooldown_until_utc st;
     _cooldown_active_last := _cooldown_active_last st;
     _cooldown_last_heartbeat_utc := _cooldown_last_heartbeat_utc st |}.

Definition flatten_all (strategies : list StrategyState) : list StrategyState :=
  flatten_engine <$> strategies.

(** the calls that [run_loop] makes on the state of one engine, each with
    what it reads from outside *)
Inductive Call (DF : Type) :=
| Refresh (poss : option (list Execution.MT5Position)) (now : datetime)
| ManagePending (mt5_orders : option (list (Z * Z))) (now : datetime)
| Entry (env : Chandelier.EntryEnv DF) (new_events : list SirixPositionEvent)
    (now : datetime)
| Trailing (env : Chandelier.TrailEnv)
| TimeExits (now : datetime)
| Flatten.
Arguments Refresh {DF}.
Arguments ManagePending {DF}.
Arguments Entry {DF}.
Arguments Trailing {DF}.
Arguments TimeExits {DF}.
Arguments Flatten {DF}.

Definition call {DF} (st : StrategyState) (c : Call DF) : StrategyState :=
  match c with
  | Refresh poss now => Execution.refresh_and_log_closes poss now st
  | ManagePending orders now => Chandelier.manage_pending_orders orders now st
  | Entry env new_events now => Chandelier.entry_step env st new_events now
  | Trailing env => Chandelier.manage_trailing_stops env st
  | TimeExits now => Chandelier.manage_time_exits now st
  | Flatten => flatten_engine st
  end.

Definition calls {DF} (st : StrategyState) (cs : list (Call DF)) : StrategyState :=
  foldl call st cs.

(** the local records of pending orders agree, and there is at most one *)
Definition pending_consistent (st : StrategyState) : Prop :=
  dom (pending_meta st) = dom (pending_orders st)
  ∧ (size (pending_orders st) <= 1)%nat.

(** the ticket is an open position of the engine after each of the calls *)
Fixpoint tracked_along {DF} (ticket : Z) (st : StrategyState)
    (cs : list (Call DF)) : Prop :=
  match cs with
  | [] => True
  | c :: rest =>
      is_Some (open_positions (call st c) !! ticket)
      ∧ tracked_along ticket (call st c) rest
  end.

(** *** One iteration of [run_loop] *)

(** the variables of the loop: the no-trade-zone flag, the engines and the
    cache of seen orders *)
Record LoopState := {
  ntz_active : bool;
  strategies : list StrategyState;
  seen       : SeenOrdersCache.t
}.

(** what one iteration reads from outside; what an engine reads is given by
    its magic number *)
Record TickEnv (DF : Type) := {
  connected     : bool;
  tick_now      : datetime;
  positions_of  : Z → option (list Execution.MT5Position);
  fill_clock    : Z → datetime;
  orders_of     : Z → option (list (Z * Z));
  pending_clock : Z → datetime;
  zones         : list Filters.Zone;
  realized      : Z → Q;
  floating      : Z → Q;
  raw_positions : list SirixApi.RawPosition;
  cache_clock   : nat → datetime;
  entry_env     : Z → Chandelier.EntryEnv DF;
  trail_env     : Z → Chandelier.TrailEnv;
  exit_clock    : Z → datetime
}.
Arguments connected {DF}.
Arguments tick_now {DF}.
Arguments positions_of {DF}.
Arguments fill_clock {DF}.
Arguments orders_of {DF}.
Arguments pending_clock {DF}.
Arguments zones {DF}.
Arguments realized {DF}.
Arguments floating {DF}.
Arguments raw_positions {DF}.
Arguments cache_clock {DF}.
Arguments entry_env {DF}.
Arguments trail_env {DF}.
Arguments exit_clock {DF}.

Inductive Outcome := Continue | Break.

(** step 0b: positions synchronised and pending orders managed *)
Definition sync {DF} (env : TickEnv DF) (sts : list StrategyState)
  : list StrategyState :=
  (fun st =>
     let m := magic (config st) in
     Chandelier.manage_pending_orders (orders_of env m) (pending_clock env m)
       (Execution.refresh_and_log_closes (positions_of env m) (fill_clock env m) st))
    <$> sts.

(** step 2, on the synchronised engines *)
Definition breach {DF} (env : TickEnv DF) (sts : list StrategyState) : bool :=
  (Risk.check_daily_loss_limits Config.USE_DAILY_LOSS_LIMITS
     Config.DAILY_LOSS_LIMIT_TOTAL Config.DAILY_LOSS_LIMIT_PER_ENGINE
     (realized env) (floating env) sts).1.

(** step 1 *)
Definition in_zone {DF} (env : TickEnv DF) : bool :=
  (Filters.check_no_trade_zone (tick_now env) (zones env)).1.

(** step 5 *)
Definition manage_positions {DF} (env : TickEnv DF) (sts : list StrategyState)
  : list StrategyState :=
  (fun st =>
     let m := magic (config st) in
     Chandelier.manage_time_exits (exit_clock env m)
       (Chandelier.manage_trailing_stops (trail_env env m) st))
    <$> sts.

(** the body of the [while] loop; the heartbeat, the snapshot and the
    sleeps are left out *)
Definition iteration {DF} (env : TickEnv DF) (ls : LoopState)
  : Outcome * LoopState :=
  if negb (connected env) then (Continue, ls)
  else
    let sts := sync env (strategies ls) in
    if in_zone env then
      (Continue,
       {| ntz_active := true;
          strategies := if ntz_active ls then sts else flatten_all sts;
          seen := seen ls |})
    else if breach env sts then
      (Break,
       {| ntz_active := false; strategies := flatten_all sts; seen := seen ls |})
    else
      let '(new_events, cache) :=
        SirixApi.build_new_events (cache_clock env) (raw_positions env)
          (seen ls) None in
      let sts := entry_steps (entry_env env) sts new_events (tick_now env) in
      (Continue,
       {| ntz_active := false;
          strategies := manage_positions env sts;
          seen := cache |}).

(** no position, no pending order, and a detector that is reset *)
Definition flat (st : StrategyState) : Prop :=
  open_positions st = ∅ ∧ pending_orders st = ∅
  ∧ ClusterEngine.events (cluster_engine st) = []
  ∧ ClusterEngine.last_cluster_time (cluster_engine st) = None
  ∧ ClusterEngine.last_cluster_side (cluster_engine st) = None.

End Main.

(** ** Concrete inputs used in the examples below *)

Module Scenario.

Definition event (o u : string) (s : Side) (seconds : Z) : SirixPositionEvent :=
  {| order_id := o; user_id := u; side := s; lots := 1%Q;
     time := timedelta_seconds seconds |}.

(** a detector with a 10 s window and threshold 3 *)
Definition detector : ClusterEngine.t := ClusterEngine.init 10 3.

(** three buyers within 5 s, delivered in open-time order *)
Definition ordered_batches : list (list SirixPositionEvent) :=
  [ [ event "o1" "alice" buy 0; event "o2" "bob" buy 2 ];
    [ event "o3" "carol" buy 5 ] ].

(** one batch in which an old event follows a recent one *)
Definition late_event : SirixPositionEvent := event "o2" "bob" buy 0.
Definition newest_event : SirixPositionEvent := event "o3" "carol" buy 100.
Definition unordered_batches : list (list SirixPositionEvent) :=
  [ [ event "o1" "alice" buy 100; late_event; newest_event ] ].

(** a hybrid engine with the default thresholds of the loader *)
Definition hybrid_config : StrategyConfig :=
  {| name := "XAU_T10_K3"; magic := 9001;
     t_seconds := 10; k_unique := 3;
     hold_minutes := 30; sl_distance := 5; tp_R_multiple := 2;
     use_tp_exit := false; use_time_exit := true;
     stop_mode := "chandelier"; atr_period := 14;
     atr_init_mult := 2; atr_trail_mult := 3;
     chan_lookback := Some 30;
     trail_start_R := Some 1%Q; breakeven_trigger_R := None;
     limit_offset_dollars := 1 # 2; max_open_positions := 2;
     risk_mode := "fixed_lots"; risk_percent := 1 # 100;
     fixed_lots := 1 # 10; static_risk_base_balance := 10000;
     direction_mode := "hybrid"; rsi_period := 14;
     rsi_overbought := 65; rsi_oversold := 35;
     vwap_band_pct := 1 # 1000; hybrid_require_both := true |}.

(** a terminal whose bars give RSI 70, VWAP 2000 and a last close of 2010 *)
Definition overbought_feed : Chandelier.IndicatorFeed unit :=
  {| Chandelier.fetch_m1_rates := fun _ => inr tt;
     Chandelier.compute_rsi := fun _ _ => inr 70%Q;
     Chandelier.compute_vwap := fun _ => inr 2000%Q;
     Chandelier.last_close := fun _ => inr 2010%Q |}.

(** two engines: the first has lost 520 today, the second has gained 10 *)
Definition engine_a : StrategyState := State.init hybrid_config.
Definition engine_b : StrategyState :=
  State.init
    {| name := "XAU_T30_K5"; magic := 9002;
       t_seconds := 30; k_unique := 5;
       hold_minutes := 30; sl_distance := 5; tp_R_multiple := 2;
       use_tp_exit := false; use_time_exit := true;
       stop_mode := "chandelier"; atr_period := 14;
       atr_init_mult := 2; atr_trail_mult := 3;
       chan_lookback := Some 30;
       trail_start_R := Some 1%Q; breakeven_trigger_R := None;
       limit_offset_dollars := 1 # 2; max_open_positions := 2;
       risk_mode := "fixed_lots"; risk_percent := 1 # 100;
       fixed_lots := 1 # 10; static_risk_base_balance := 10000;
       direction_mode := "inverse"; rsi_period := 14;
       rsi_overbought := 65; rsi_oversold := 35;
       vwap_band_pct := 1 # 1000; hybrid_require_both := true |}.
Definition realized_today (magic : Z) : Q :=
  if magic =? 9001 then (-400)%Q else 10%Q.
Definition floating_now (magic : Z) : Q :=
  if magic =? 9001 then (-120)%Q else 0%Q.


Definition quiet_env : Chandelier.EntryEnv unit :=
  {| Chandelier.within_session := true;
     Chandelier.feed := overbought_feed;
     Chandelier.place_pending_entry := fun _ _ => None |}.

Definition fresh_event : SirixPositionEvent := event "o9" "zed" sell 50.

(** the cache of the main loop after order "o1" was first seen at hour 1 *)
Definition hour (h : Z) : datetime := timedelta_hours h.
Definition cache_with_o1 : SeenOrdersCache.t :=
  SeenOrdersCache.add (hour 1) (hour 1) "o1"
    (SeenOrdersCache.init Config.SEEN_ORDERS_MAX_AGE_HOURS).

(** a symbol quoted to two digits whose broker asks stops to be at least
    100 points (1.00) from the price *)
Definition gold : SymbolInfo :=
  {| point := 1 # 100; digits := 2; trade_stops_level := 100 |}.

(** a long position of the first engine: entry 95, initial stop 90 *)
Definition long_position : BotPositionInfo :=
  {| ticket := 7; direction := buy;
     entry_time := timedelta_seconds 0;
     entry_price := 95; sl_price := 90; tp_price := None;
     initial_sl_price := 90; trade_mode := inverse; breakeven_hit := false |}.

Definition long_engine : StrategyState :=
  {| config := hybrid_config;
     cluster_engine := detector;
     open_positions := {[ 7 := long_position ]};
     pending_orders := ∅; pending_meta := ∅;
     cooldown_until_utc := None;
     _cooldown_active_last := false;
     _cooldown_last_heartbeat_utc := None |}.

(** two later bars: the price stands at 103 (the high of the lookback),
    then falls back to 100.50; ATR is 1 on both *)
Definition bar_at_high : Chandelier.TrailEnv :=
  {| Chandelier.rates :=
       Some {| Chandelier.atr_val := 1; Chandelier.highest_high := 103;
               Chandelier.lowest_low := 94;
               Chandelier.last_bar_ts := timedelta_seconds 600;
               Chandelier.current_px := 103 |};
     Chandelier.SYMBOL_INFO := gold;
     Chandelier.position_live := fun _ => true |}.

Definition bar_after_pullback : Chandelier.TrailEnv :=
  {| Chandelier.rates :=
       Some {| Chandelier.atr_val := 1; Chandelier.highest_high := 103;
               Chandelier.lowest_low := 94;
               Chandelier.last_bar_ts := timedelta_seconds 660;
               Chandelier.current_px := 201 # 2 |};
     Chandelier.SYMBOL_INFO := gold;
     Chandelier.position_live := fun _ => true |}.

(** the same symbol at a broker that imposes no minimum stop distance *)
Definition gold_free : SymbolInfo :=
  {| point := 1 # 100; digits := 2; trade_stops_level := 0 |}.

Definition free_ticks : list Chandelier.TrailEnv :=
  [ {| Chandelier.rates := Chandelier.rates bar_at_high;
       Chandelier.SYMBOL_INFO := gold_free;
       Chandelier.position_live := fun _ => true |};
    {| Chandelier.rates := Chandelier.rates bar_after_pullback;
       Chandelier.SYMBOL_INFO := gold_free;
       Chandelier.position_live := fun _ => true |} ].

(** the volume limits of the symbol: lots from 0.01 to 100 in steps of 0.01,
    100 ounces a lot *)
Definition gold_volumes : Risk.VolumeInfo :=
  {| Risk.volume_step := 1 # 100; Risk.volume_min := 1 # 100;
     Risk.volume_max := 100; Risk.trade_contract_size := 100 |}.

(** the first engine when it risks 1 % of the equity on each trade *)
Definition percent_config : StrategyConfig :=
  {| name := "XAU_T10_K3"; magic := 9001;
     t_seconds := 10; k_unique := 3;
     hold_minutes := 30; sl_distance := 5; tp_R_multiple := 2;
     use_tp_exit := true; use_time_exit := true;
     stop_mode := "chandelier"; atr_period := 14;
     atr_init_mult := 2; atr_trail_mult := 3;
     chan_lookback := Some 30;
     trail_start_R := Some 1%Q; breakeven_trigger_R := Some (1 # 2);
     limit_offset_dollars := 1 # 2; max_open_positions := 2;
     risk_mode := "dynamic_pct"; risk_percent := 1 # 100;
     fixed_lots := 1 # 10; static_risk_base_balance := 10000;
     direction_mode := "hybrid"; rsi_period := 14;
     rsi_overbought := 65; rsi_oversold := 35;
     vwap_band_pct := 1 # 1000; hybrid_require_both := true |}.

(** a session from 22:00 to 06:00 *)
Definition night_start : Filters.HHMM := {| Filters.hh := 22; Filters.mm := 0 |}.
Definition night_end : Filters.HHMM := {| Filters.hh := 6; Filters.mm := 0 |}.

(** three buyers within 5 s in one batch, and a fourth order by one of them *)
Definition three_buyers : list SirixPositionEvent :=
  [ event "o1" "alice" buy 0; event "o2" "bob" buy 2; event "o3" "carol" buy 5 ].
Definition second_order : SirixPositionEvent := event "o4" "bob" buy 6.

(** a response of the API that lists order "o5" twice and order "o1" again *)
Definition raw_position (o u : string) (action : Z) (seconds : Z)
  : SirixApi.RawPosition :=
  {| SirixApi.InstrumentName := Some "XAUUSD";
     SirixApi.OrderID := o;
     SirixApi.ActionType := Some action;
     SirixApi.OpenRate := Some 2000%Q;
     SirixApi.StopLoss := None;
     SirixApi.TakeProfit := None;
     SirixApi.OpenTime := inr (hour 2 + timedelta_seconds seconds);
     SirixApi.UserID := u;
     SirixApi.AmountLots := inr 1%Q |}.
Definition raw_feed : list SirixApi.RawPosition :=
  [ raw_position "o5" "dave" 0 1; raw_position "o1" "alice" 0 0;
    raw_position "o5" "dave" 0 1; raw_position "o6" "erin" 1 2 ].

(** a clock that starts at hour 2 and advances by a microsecond a reading,
    for at most a millisecond *)
Definition tick_clock (n : nat) : datetime := hour 2 + Z.min (Z.of_nat n) 1000.

(** an entry step whose order is accepted with ticket 555 *)
Definition placed_meta (s : Side) (mode : TradeMode) : PendingOrderMeta :=
  {| created_at_utc := hour 2; trade_side := s;
     pending_price := 2001; market_price := 2000;
     meta_trade_mode := mode |}.
Definition placing_env : Chandelier.EntryEnv unit :=
  {| Chandelier.within_session := true;
     Chandelier.feed := overbought_feed;
     Chandelier.place_pending_entry :=
       fun s mode => Some (555, placed_meta s mode) |}.

(** the long position as the terminal reports it *)
Definition long_mt5 : Execution.MT5Position :=
  {| Execution.pos_ticket := 7; Execution.pos_magic := 9001;
     Execution.pos_type := buy; Execution.pos_time := 0;
     Execution.pos_price_open := 95; Execution.pos_sl := 90;
     Execution.pos_tp := 0 |}.

(** the calls of two iterations on the engine that holds the position *)
Definition two_iterations : list (Main.Call unit) :=
  [ Main.Refresh (Some [long_mt5]) (timedelta_seconds 600);
    Main.ManagePending (Some []) (timedelta_seconds 600);
    Main.Entry quiet_env [fresh_event] (timedelta_seconds 600);
    Main.Trailing bar_at_high;
    Main.TimeExits (timedelta_seconds 600);
    Main.Refresh (Some [long_mt5]) (timedelta_seconds 660);
    Main.ManagePending (Some []) (timedelta_seconds 660);
    Main.Entry quiet_env [] (timedelta_seconds 660);
    Main.Trailing bar_after_pullback;
    Main.TimeExits (timedelta_seconds 660) ].

(** the terminal when a sell limit is placed: bid 2000.00, ask 2000.20, ATR 2,
    equity 10000; the request is accepted with ticket 555 *)
Definition sell_env : Execution.PlaceEnv :=
  {| Execution.symbol_info_tick := Some (2000%Q, 20002 # 10);
     Execution.last_m1_close := inr 2000%Q;
     Execution.fetch_atr := inr 2%Q;
     Execution.account_equity := Some 10000%Q;
     Execution.symbol := gold;
     Execution.volumes := gold_volumes;
     Execution.order_send := fun _ => Some (Execution.TRADE_RETCODE_DONE, 555);
     Execution.placed_at := hour 2 |}.

(** what the engine records of that order: a sell limit half a dollar above
    the ask *)
Definition sell_meta : PendingOrderMeta :=
  {| created_at_utc := hour 2; trade_side := sell;
     pending_price := round_price gold ((20002 # 10) + (1 # 2));
     market_price := (2000 + (20002 # 10)) / 2;
     meta_trade_mode := inverse |}.

(** an iteration at hour 2, inside a no-trade zone from hour 1 to hour 3 *)
Definition news_zone : Filters.Zone :=
  {| Filters.bounds := inr (hour 1, hour 3); Filters.reason := Some "FOMC" |}.
Definition news_tick : Main.TickEnv unit :=
  {| Main.connected := true;
     Main.tick_now := hour 2;
     Main.positions_of := fun m => if m =? 9001 then Some [long_mt5] else Some [];
     Main.fill_clock := fun _ => hour 2;
     Main.orders_of := fun _ => Some [];
     Main.pending_clock := fun _ => hour 2;
     Main.zones := [news_zone];
     Main.realized := realized_today;
     Main.floating := floating_now;
     Main.raw_positions := raw_feed;
     Main.cache_clock := tick_clock;
     Main.entry_env := fun _ => quiet_env;
     Main.trail_env := fun _ => bar_at_high;
     Main.exit_clock := fun _ => hour 2 |}.
Definition running : Main.LoopState :=
  {| Main.ntz_active := false;
     Main.strategies := [long_engine; engine_b];
     Main.seen := cache_with_o1 |}.

(** an event with its open time given to the microsecond *)
Definition event_at (o u : string) (s : Side) (t : datetime)
  : SirixPositionEvent :=
  {| order_id := o; user_id := u; side := s; lots := 1%Q; time := t |}.

(** three sellers at second 5, the open time of the third of [three_buyers] *)
Definition sellers_at_5 : list SirixPositionEvent :=
  [ event "o4" "dave" sell 5; event "o5" "erin" sell 5;
    event "o6" "frank" sell 5 ].

(** three buyers over 10 s, and three sellers half a second after the last
    of them *)
Definition spread_buyers : list SirixPositionEvent :=
  [ event "o1" "alice" buy 0; event "o2" "bob" buy 5; event "o3" "carol" buy 10 ].
Definition quick_sellers : list SirixPositionEvent :=
  [ event_at "o4" "dave" sell 10500000; event_at "o5" "erin" sell 10500000;
    event_at "o6" "frank" sell 10500000 ].

(** three sellers and then three buyers within 5 s *)
Definition mixed_batch : list SirixPositionEvent :=
  [ event "o1" "dave" sell 0; event "o2" "erin" sell 1;
    event "o3" "frank" sell 2; event "o4" "alice" buy 3;
    event "o5" "bob" buy 4; event "o6" "carol" buy 5 ].

(** two buyers, short of the threshold *)
Definition two_buyers : list SirixPositionEvent :=
  [ event "o1" "alice" buy 0; event "o2" "bob" buy 2 ].

(** a terminal that returns no bars, and one whose history is too short for
    the RSI *)
Definition no_bars : Py.exn := Py.Exception "no M1 data".
Definition failing_feed : Chandelier.IndicatorFeed unit :=
  {| Chandelier.fetch_m1_rates := fun _ => inl no_bars;
     Chandelier.compute_rsi := fun _ _ => inr 50%Q;
     Chandelier.compute_vwap := fun _ => inr 2000%Q;
     Chandelier.last_close := fun _ => inr 2000%Q |}.

End Scenario.

(** * Properties *)

(** ** The cluster detector *)

Section ClusterEngineFacts.

Import ClusterEngine.

Implicit Types (evs : list SirixPositionEvent) (eng : t).

Lemma trim_suffix cutoff evs : trim cutoff evs `suffix_of` evs.
Proof.
  induction evs as [|e rest IH]; simpl; [done|].
  destruct (time e <? cutoff); [by apply suffix_cons_r | done].
Qed.

Lemma trim_head cutoff evs e rest :
  trim cutoff evs = e :: rest → cutoff <= time e.
Proof.
  induction evs as [|e0 rest0 IH]; simpl; [done|].
  destruct (Z.ltb_spec (time e0) cutoff); [done|].
  intros [= <- <-]. lia.
Qed.

Lemma trim_fixed cutoff e rest :
  cutoff <= time e → trim cutoff (e :: rest) = e :: rest.
Proof. simpl. intros H. destruct (Z.ltb_spec (time e) cutoff); [lia | done]. Qed.

Lemma trim_idem cutoff evs : trim cutoff (trim cutoff evs) = trim cutoff evs.
Proof.
  destruct (trim cutoff evs) as [|e rest] eqn:E; [done|].
  apply trim_fixed. by eapply trim_head.
Qed.

Lemma last_suffix (l1 l2 : list SirixPositionEvent) :
  l1 `suffix_of` l2 → l1 ≠ [] → last l1 = last l2.
Proof.
  intros [k ->] Hne. rewrite last_app.
  destruct (last l1) eqn:E; [done|]. by apply last_None in E.
Qed.





(** the deque after a call: the batch appended once, then trimmed *)
Lemma add_events_events eng batch :
  events (add_events eng batch).2 =
    match last (events eng ++ batch) with
    | None => []
    | Some latest =>
        trim (time latest - timedelta_seconds (window_seconds eng))
             (events eng ++ batch)
    end.
Proof.
  unfold add_events.
  destruct (last (events eng ++ batch)) as [latest|] eqn:El; simpl.
  - destruct (trim _ _) as [|e rest] eqn:Et; [done|].
    destruct (cluster_side _ _); [|done].
    by destruct (refractory _ _ _).
  - by apply last_None in El.
Qed.


Lemma add_events_suffix eng batch :
  events (add_events eng batch).2 `suffix_of` events eng ++ batch.
Proof.
  rewrite add_events_events.
  destruct (last _); [apply trim_suffix | apply suffix_nil].
Qed.





End ClusterEngineFacts.

Section ClusterEngineClaims.

Import ClusterEngine.

Implicit Types (evs : list SirixPositionEvent) (eng : t).

Lemma count_users_from acc evs :
  foldl add_user acc evs = (users_on buy evs ∪ acc.1, users_on sell evs ∪ acc.2).
Proof.
  revert acc. induction evs as [|e rest IH]; intros [b s]; simpl.
  - unfold users_on. simpl. f_equal; set_solver.
  - rewrite IH. unfold users_on, add_user.
    rewrite !filter_cons. destruct (side e); simpl;
      repeat case_decide; try done; simpl; f_equal; set_solver.
Qed.

Lemma count_users_spec evs :
  count_users evs = (users_on buy evs, users_on sell evs).
Proof.
  unfold count_users. rewrite count_users_from. simpl. f_equal; set_solver.
Qed.

(** a participant already counted on a side does not raise that side's count *)
Lemma users_on_duplicate s evs e :
  side e = s → user_id e ∈ users_on s evs →
  size (users_on s (evs ++ [e])) = size (users_on s evs).
Proof.
  intros Hs Hin. f_equal. unfold users_on in *.
  rewrite filter_app, fmap_app, list_to_set_app_L.
  rewrite filter_cons, decide_True by done. simpl. set_solver.
Qed.


(** step 4 on a list of events: [buy] exactly when the number of distinct
    participants on the buy side reaches the threshold, [sell] exactly when
    the buy side does not and the sell side does *)
Lemma cluster_side_unique_count k evs :
  let nb := Z.of_nat (size (users_on buy evs)) in
  let ns := Z.of_nat (size (users_on sell evs)) in
  (is_Some (cluster_side k evs) ↔ k <= nb ∨ k <= ns)
  ∧ (cluster_side k evs = Some buy ↔ k <= nb)
  ∧ (cluster_side k evs = Some sell ↔ ¬ k <= nb ∧ k <= ns)
  ∧ (k <= nb ∧ k <= ns → cluster_side k evs = Some buy).
Proof.
  intros nb ns. unfold cluster_side. rewrite count_users_spec. simpl.
  fold nb ns.
  destruct (Z.leb_spec k nb) as [Hb|Hb], (Z.leb_spec k ns) as [Hs|Hs];
    repeat split; intros; try done; try lia; try (by eexists);
    try (by destruct H as [? ?]); try (destruct H; lia).
Qed.

End ClusterEngineClaims.

Section ClusterEngineRefractory.

Import ClusterEngine.

Implicit Types (evs : list SirixPositionEvent) (eng : t).

#[local] Arguments trim : simpl never.

(** the refractory condition of step 5, spelled out *)
Lemma refractory_spec eng latest_time s :
  refractory eng latest_time s = true
  ↔ ∃ t0, last_cluster_time eng = Some t0 ∧ last_cluster_side eng = Some s
          ∧ latest_time - t0
            < timedelta_seconds Config.CLUSTER_REFRACTORY_SECONDS.
Proof.
  unfold refractory. destruct (last_cluster_time eng) as [t0|].
  - rewrite andb_true_iff, bool_decide_eq_true, Z.ltb_lt. split.
    + intros [H1 H2]. by exists t0.
    + intros (t1 & [= <-] & H1 & H2). done.
  - split; [done | by intros (t0 & H & _)].
Qed.

(** C4: in every evaluation of [add_events] whose trimmed window is not
    empty, the window kept is the appended deque trimmed at the latest open
    time minus [window_seconds], and the result is decided by the numbers of
    distinct participants on the two sides of that window: [buy] is returned
    exactly when the buy count reaches [k_unique], [sell] exactly when the buy
    count does not and the sell count does, each unless the refractory check
    holds that side back; nothing is returned exactly when neither count
    reaches [k_unique] or the selected side is held back.  So a side is
    selected exactly when one of the counts reaches [k_unique], and it is
    [buy] when both do. *)
Theorem add_events_unique_count eng batch latest :
  last (events eng ++ batch) = Some latest →
  let window :=
    trim (time latest - timedelta_seconds (window_seconds eng))
      (events eng ++ batch) in
  let nb := Z.of_nat (size (users_on buy window)) in
  let ns := Z.of_nat (size (users_on sell window)) in
  let k := k_unique eng in
  let r := (add_events eng batch).1 in
  let held_back s :=
    ∃ t0, last_cluster_time eng = Some t0 ∧ last_cluster_side eng = Some s
          ∧ time latest - t0
            < timedelta_seconds Config.CLUSTER_REFRACTORY_SECONDS in
  window ≠ [] →
  events (add_events eng batch).2 = window
  ∧ (r = Some buy ↔ k <= nb ∧ ¬ held_back buy)
  ∧ (r = Some sell ↔ ¬ k <= nb ∧ k <= ns ∧ ¬ held_back sell)
  ∧ (r = None ↔ (¬ k <= nb ∧ ¬ k <= ns)
                ∨ (k <= nb ∧ held_back buy)
                ∨ (¬ k <= nb ∧ k <= ns ∧ held_back sell)).
Proof.
  intros Hl window nb ns k r held_back Hne.
  assert (∀ s, refractory eng (time latest) s = true ↔ held_back s) as Hr
    by (intros s; apply refractory_spec).
  destruct (cluster_side_unique_count k window) as (_ & Hb & Hs & _).
  cbv zeta in Hb, Hs. fold nb ns in Hb, Hs.
  subst r. unfold add_events. rewrite Hl. cbv zeta. fold window. fold k.
  destruct window as [|e rest] eqn:Ew; [done|]. rewrite <- Ew in *.
  destruct (cluster_side k window) as [[|]|] eqn:Ec.
  - apply proj1 in Hb. specialize (Hb eq_refl).
    destruct (refractory eng (time latest) buy) eqn:Er; cbn [fst snd events].
    + apply Hr in Er. split; [by rewrite Ew|]. split; [split; [done|tauto]|].
      split; [split; [done|lia]|]. split; [tauto | done].
    + assert (¬ held_back buy) as Hn by (rewrite <- Hr, Er; done).
      split; [by rewrite Ew|]. split; [tauto|].
      split; [split; [done|lia]|]. split; [done | tauto].
  - apply proj1 in Hs. destruct (Hs eq_refl) as [Hnb Hns].
    destruct (refractory eng (time latest) sell) eqn:Er; cbn [fst snd events].
    + apply Hr in Er. split; [by rewrite Ew|]. split; [split; [done|tauto]|].
      split; [split; [done|tauto]|]. split; [tauto | done].
    + assert (¬ held_back sell) as Hn by (rewrite <- Hr, Er; done).
      split; [by rewrite Ew|]. split; [split; [done|tauto]|].
      split; [tauto|]. split; [done | tauto].
  - assert (¬ k <= nb) as Hnb by (intros H; apply Hb in H; done).
    assert (¬ k <= ns) as Hns
      by (intros H; destruct Hs as [_ Hs]; by specialize (Hs (conj Hnb H))).
    cbn [fst snd events set_events].
    split; [by rewrite Ew|]. split; [split; [done|tauto]|].
    split; [split; [done|tauto]|]. split; [tauto | done].
Qed.

(** C5 (amended): [add_events] returns the side of the last emitted cluster
    only when the latest event is at least the refractory period after that
    emission.  The side selected from the trimmed window, [buy] when the buy
    count reaches [k_unique] and [sell] only when it does not and the sell
    count does, is always returned when it differs from the last emitted side;
    [sell] is never returned while the buy count reaches [k_unique], and the
    selected side is held back when it is the last emitted one and the latest
    event is within the refractory period.  [last_cluster_time] and
    [last_cluster_side] change only on a call that returns a side, to the
    latest event time and that side. *)
Theorem add_events_refractory eng batch :
  let r := (add_events eng batch).1 in
  let eng' := (add_events eng batch).2 in
  let k := k_unique eng in
  let refractory_period := timedelta_seconds Config.CLUSTER_REFRACTORY_SECONDS in
  (∀ s t0 latest, r = Some s →
     last (events eng ++ batch) = Some latest →
     last_cluster_side eng = Some s → last_cluster_time eng = Some t0 →
     refractory_period <= time latest - t0)
  ∧ (∀ latest, last (events eng ++ batch) = Some latest →
       let window :=
         trim (time latest - timedelta_seconds (window_seconds eng))
           (events eng ++ batch) in
       let nb := Z.of_nat (size (users_on buy window)) in
       let ns := Z.of_nat (size (users_on sell window)) in
       window ≠ [] →
       events eng' = window
       ∧ (k <= nb → last_cluster_side eng ≠ Some buy → r = Some buy)
       ∧ (¬ k <= nb → k <= ns → last_cluster_side eng ≠ Some sell →
          r = Some sell)
       ∧ (k <= nb → r ≠ Some sell)
       ∧ (∀ t0, k <= nb →
            last_cluster_side eng = Some buy → last_cluster_time eng = Some t0 →
            time latest - t0 < refractory_period → r = None)
       ∧ (∀ t0, ¬ k <= nb → k <= ns →
            last_cluster_side eng = Some sell → last_cluster_time eng = Some t0 →
            time latest - t0 < refractory_period → r = None))
  ∧ (r = None →
       last_cluster_time eng' = last_cluster_time eng
       ∧ last_cluster_side eng' = last_cluster_side eng)
  ∧ (∀ s, r = Some s →
       last_cluster_side eng' = Some s
       ∧ ∃ latest, last (events eng ++ batch) = Some latest
                   ∧ last_cluster_time eng' = Some (time latest)).
Proof.
  cbv zeta. unfold add_events.
  destruct (last (events eng ++ batch)) as [latest|] eqn:El; cbv zeta.
  2:{ cbn [fst snd]. repeat split; intros; done. }
  set (window := trim _ _).
  destruct (cluster_side_unique_count (k_unique eng) window) as (_ & Hb & Hs & _).
  cbv zeta in Hb, Hs.
  destruct window as [|e rest] eqn:Ew.
  { cbn [fst snd]. repeat split; intros; simplify_eq; done. }
  rewrite <- Ew in *.
  assert (window ≠ []) as Hne by (by rewrite Ew).
  destruct (cluster_side (k_unique eng) window) as [s|] eqn:Ec.
  2:{ cbn [fst snd set_events last_cluster_time last_cluster_side events].
      split; [intros; done|]. split; [|split; [done | intros; done]].
      intros l [= <-] _. split; [by rewrite Ew|].
      split; [intros H; apply Hb in H; done|].
      split; [intros H1 H2; destruct Hs as [_ Hs];
              by specialize (Hs (conj H1 H2))|].
      split; [done|]. split; intros; done. }
  destruct (refractory eng (time latest) s) eqn:Er;
    cbn [fst snd set_events last_cluster_time last_cluster_side events].
  - apply refractory_spec in Er as (t1 & Ht1 & Hs1 & Hlt).
    split; [intros; done|]. split; [|split; [done | intros; done]].
    intros l [= <-] _. split; [by rewrite Ew|].
    split.
    { intros H Hn. apply Hb in H. congruence. }
    split.
    { intros H1 H2 Hn. destruct Hs as [_ Hs].
      specialize (Hs (conj H1 H2)). congruence. }
    split; [done|]. split; intros; done.
  - assert (¬ ∃ t0, last_cluster_time eng = Some t0
                    ∧ last_cluster_side eng = Some s
                    ∧ time latest - t0
                      < timedelta_seconds Config.CLUSTER_REFRACTORY_SECONDS)
      as Hfree by (rewrite <- refractory_spec, Er; done).
    split.
    { intros s' t0 l [= <-] [= <-] H1 H2.
      destruct (Z.le_gt_cases
                  (timedelta_seconds Config.CLUSTER_REFRACTORY_SECONDS)
                  (time latest - t0)) as [H|H]; [done|].
      exfalso. apply Hfree. by exists t0. }
    split; [|split; [done | intros s' [= <-]; split; [done | by eexists]]].
    intros l [= <-] _. split; [by rewrite Ew|].
    split.
    { intros H _. apply Hb in H. congruence. }
    split.
    { intros H1 H2 _. destruct Hs as [_ Hs].
      specialize (Hs (conj H1 H2)). congruence. }
    split.
    { intros H. apply Hb in H. congruence. }
    split.
    { intros t0 H H1 H2 H3. exfalso. apply Hfree. exists t0.
      apply Hb in H. split; [done|]. split; [congruence | done]. }
    intros t0 H1 H2 H3 H4 H5. exfalso. apply Hfree. exists t0.
    destruct Hs as [_ Hs]. specialize (Hs (conj H1 H2)).
    split; [done|]. split; [congruence | done].
Qed.

Lemma refractory_set_events eng evs latest_time s :
  refractory (set_events eng evs) latest_time s = refractory eng latest_time s.
Proof. reflexivity. Qed.

(** C8: on an empty window an empty batch returns no side and leaves the
    engine as it is; and from any engine, a second call with an empty batch
    leaves the engine the first such call produced. *)
Theorem add_events_empty_batch eng :
  (events eng = [] → add_events eng [] = (None, eng))
  ∧ (add_events (add_events eng []).2 []).2 = (add_events eng []).2.
Proof.
  split.
  - intros H. unfold add_events. rewrite H. simpl.
    destruct eng; simpl in *; by subst.
  - destruct eng as [w k evs lt ls].
    unfold add_events at 2 3. simpl. rewrite app_nil_r.
    destruct (last evs) as [latest|] eqn:El; simpl.
    2:{ apply last_None in El. by subst. }
    set (c := time latest - timedelta_seconds w).
    destruct (trim c evs) as [|e rest] eqn:Et; simpl; [done|].
    assert (last (e :: rest) = Some latest) as Hl.
    { rewrite <- El, <- Et. apply last_suffix; [apply trim_suffix|].
      by rewrite Et. }
    assert (trim c (e :: rest) = e :: rest) as Hfix.
    { apply trim_fixed. by eapply trim_head. }
    destruct (cluster_side k (e :: rest)) as [s|] eqn:Ec; simpl.
    + destruct (refractory _ (time latest) s) eqn:Er; simpl;
        unfold add_events; simpl events; rewrite app_nil_r, Hl;
        simpl; fold c; rewrite Hfix; simpl; rewrite Ec.
      * rewrite refractory_set_events, Er. reflexivity.
      * match goal with |- context [if ?b then _ else _] => destruct b end;
          reflexivity.
    + unfold add_events; simpl events; rewrite app_nil_r, Hl;
        simpl; fold c; rewrite Hfix; simpl; rewrite Ec; reflexivity.
Qed.

End ClusterEngineRefractory.

Section ClusterEngineExamples.

Import ClusterEngine Scenario.



(** C3 fails on the code: a batch that lists an event opened at second 0
    between two events opened at second 100 is appended as it comes; the trim
    stops at the first event, which is recent, so the event of second 0 stays
    in the 10 s window, 100 s older than the latest event.  It is then counted:
    with it the window holds three distinct buyers and [buy] is returned,
    without it the same call returns nothing. *)
Theorem add_events_keeps_stale_event :
  let r := add_events detector
             [event "o1" "alice" buy 100; late_event; newest_event] in
  events r.2 = [event "o1" "alice" buy 100; late_event; newest_event]
  ∧ last (events r.2) = Some newest_event
  ∧ late_event ∈ events r.2
  ∧ time late_event
    < time newest_event - timedelta_seconds (window_seconds r.2)
  ∧ ¬ window_bounded r.2
  ∧ r.1 = Some buy
  ∧ (add_events detector [event "o1" "alice" buy 100; newest_event]).1 = None.
Proof.
  cbv zeta.
  assert (events (add_events detector
                    [event "o1" "alice" buy 100; late_event; newest_event]).2
          = [event "o1" "alice" buy 100; late_event; newest_event]) as Hw
    by (vm_compute; reflexivity).
  assert (late_event
          ∈ [event "o1" "alice" buy 100; late_event; newest_event]) as Hin
    by (apply list_elem_of_further, list_elem_of_here).
  split; [exact Hw|].
  rewrite Hw. split; [reflexivity|]. split; [exact Hin|].
  split; [vm_compute; reflexivity|].
  split; [|split; vm_compute; reflexivity].
  intros H. specialize (H newest_event late_event).
  rewrite Hw in H. specialize (H eq_refl Hin).
  vm_compute in H. congruence.
Qed.

(** three sellers and three buyers in one window: [buy] is returned *)
Lemma add_events_unique_count_witness :
  (add_events detector mixed_batch).1 = Some buy.
Proof.
  assert (last (events detector ++ mixed_batch)
          = Some (event "o6" "carol" buy 5)) as Hl by reflexivity.
  destruct (add_events_unique_count detector mixed_batch _ Hl)
    as (_ & Hbuy & _).
  - vm_compute. discriminate.
  - apply Hbuy. split.
    + vm_compute. discriminate.
    + intros (t0 & H & _). discriminate H.
Defined.

(** three sellers half a second after a [buy] signal, when the first buyer
    has left the window: [sell] is returned at once *)
Lemma add_events_refractory_witness :
  (add_events (add_events detector spread_buyers).2 quick_sellers).1 = Some sell.
Proof.
  destruct (add_events_refractory (add_events detector spread_buyers).2
              quick_sellers) as (_ & H & _).
  destruct (H (event_at "o6" "frank" sell 10500000) eq_refl)
    as (_ & _ & Hsell & _).
  - vm_compute. discriminate.
  - apply Hsell.
    + vm_compute. intros Hle. apply Hle. reflexivity.
    + vm_compute. discriminate.
    + vm_compute. discriminate.
Defined.

(** C5, as stated, fails: after a [buy] signal at second 5, three sellers
    arrive at second 5.  The sell count reaches [k_unique] and [sell] is not
    the last emitted side, but the buy count also reaches [k_unique], so step 4
    selects [buy], which the refractory check holds back: the call returns
    nothing and the refractory state stays as it was. *)
Lemma add_events_refractory_masks_sell :
  let eng := (add_events detector three_buyers).2 in
  let r := add_events eng sellers_at_5 in
  (add_events detector three_buyers).1 = Some buy
  ∧ last_cluster_side eng = Some buy
  ∧ k_unique eng <= Z.of_nat (size (users_on sell (events r.2)))
  ∧ k_unique eng <= Z.of_nat (size (users_on buy (events r.2)))
  ∧ r.1 = None
  ∧ last_cluster_side r.2 = Some buy.
Proof.
  cbv zeta. repeat split; vm_compute; congruence.
Qed.

(** the scenario of the specification: the third distinct buyer signals
    [buy] once, a fourth buyer right after does not signal again *)
Example three_buyers_signal_once :
  let r1 := add_events detector (concat ordered_batches) in
  let r2 := add_events r1.2 [event "o4" "dave" buy 5] in
  (add_events detector [event "o1" "alice" buy 0; event "o2" "bob" buy 2]).1 = None
  ∧ r1.1 = Some buy ∧ r2.1 = None.
Proof. vm_compute. auto. Qed.

End ClusterEngineExamples.

(** ** Comparisons of the float model *)

Section PyFacts.

Lemma Qltb_lt x y : Py.Qltb x y = true ↔ (x < y)%Q.
Proof.
  unfold Py.Qltb. rewrite negb_true_iff.
  split.
  - intros H. apply Qnot_le_lt. intros Hle.
    apply Qle_bool_iff in Hle. congruence.
  - intros H. destruct (Qle_bool y x) eqn:E; [|done].
    apply Qle_bool_iff in E. by apply Qlt_not_le in H.
Qed.

Lemma Qltb_ge x y : Py.Qltb x y = false ↔ (y <= x)%Q.
Proof.
  unfold Py.Qltb. rewrite negb_false_iff. apply Qle_bool_iff.
Qed.

Lemma Qle_bool_false x y : Qle_bool x y = false ↔ (y < x)%Q.
Proof.
  split.
  - intros H. apply Qnot_le_lt. intros Hle.
    apply Qle_bool_iff in Hle. congruence.
  - intros H. destruct (Qle_bool x y) eqn:E; [|done].
    apply Qle_bool_iff in E. by apply Qlt_not_le in H.
Qed.

End PyFacts.

(** ** The risk circuit breaker *)

Section RiskClaims.

Import Risk.

Variables (LIMIT_TOTAL LIMIT_PER_ENGINE : Q).
Variables (realized_pnl_today floating_pnl : Z → Q).

Abbreviation pnl := (engine_pnl realized_pnl_today floating_pnl).
Abbreviation loop := (loss_loop LIMIT_PER_ENGINE realized_pnl_today floating_pnl).
Abbreviation total := (total_pnl realized_pnl_today floating_pnl).





End RiskClaims.

Section RiskExamples.

Import Risk Scenario.


(** the per-engine limit of 500 trips on the first engine *)
Example engine_limit_breach :
  check_daily_loss_limits
    Config.USE_DAILY_LOSS_LIMITS Config.DAILY_LOSS_LIMIT_TOTAL
    Config.DAILY_LOSS_LIMIT_PER_ENGINE realized_today floating_now
    [engine_b; engine_a]
  = (true, ENGINE_DAILY_LOSS_LIMIT "XAU_T10_K3" (-400 + -120)%Q).
Proof. reflexivity. Qed.

End RiskExamples.

(** ** The direction decision *)

Section DirectionClaims.

Import Chandelier.

Context {DF : Type}.

Implicit Types (feed : IndicatorFeed DF) (cfg : StrategyConfig) (cs : Side).





(** C7: [decide_direction] returns a result in every mode and with every
    feed, never an exception; and in hybrid mode (any mode other than the two
    fixed ones), when the fetch of the bars, the RSI, the VWAP or the reading
    of the last close raises [e], the result is the opposite of the cluster
    side with mode inverse, and one WARN line recording [e] is logged. *)
Theorem decide_direction_indicator_failure feed cs cfg :
  (∃ r logs, decide_direction feed cs cfg = (inr r, logs))
  ∧ (∀ e,
       direction_mode cfg ≠ "inverse" → direction_mode cfg ≠ "momentum" →
       let bars_needed := Z.max (rsi_period cfg + 5) 300 in
       fetch_m1_rates feed bars_needed = inl e
       ∨ (∃ df, fetch_m1_rates feed bars_needed = inr df
                ∧ (compute_rsi feed df (rsi_period cfg) = inl e
                   ∨ (∃ rsi, compute_rsi feed df (rsi_period cfg) = inr rsi
                             ∧ (compute_vwap feed df = inl e
                                ∨ (∃ vwap, compute_vwap feed df = inr vwap
                                           ∧ last_close feed df = inl e))))) →
       decide_direction feed cs cfg =
         (inr (_inverse_side cs, inverse),
          [ {| level := "WARN"; msg := HYBRID_indicator_fetch_failed e |} ])).
Proof.
  split.
  - unfold decide_direction.
    destruct (String.eqb _ "inverse"); [by eexists _, _|].
    destruct (String.eqb _ "momentum"); [by eexists _, _|].
    destruct (hybrid_indicators feed cfg) as [[e|[[rsi vwap] px]] l]; simpl.
    + by eexists _, _.
    + destruct Config.VERBOSE_HYBRID; by eexists _, _.
  - intros e Hi Hm bars_needed Hfail. unfold decide_direction.
    apply String.eqb_neq in Hi, Hm. rewrite Hi, Hm.
    assert (hybrid_indicators feed cfg = (inl e, [])) as ->.
    { unfold hybrid_indicators, bind, lift, ret. fold bars_needed.
      destruct Hfail as [->|(df & -> & [->|(rsi & -> & [->|(vwap & -> & ->)])])];
        reflexivity. }
    reflexivity.
Qed.

End DirectionClaims.

Section DirectionExamples.

Import Chandelier Scenario.


(** a terminal without bars: the buy cluster is faded and the failure logged *)
Lemma decide_direction_indicator_failure_witness :
  decide_direction failing_feed buy hybrid_config
  = (inr (sell, inverse),
     [ {| level := "WARN"; msg := HYBRID_indicator_fetch_failed no_bars |} ]).
Proof.
  apply (proj2 (decide_direction_indicator_failure failing_feed buy
                  hybrid_config) no_bars).
  - discriminate.
  - discriminate.
  - left. reflexivity.
Defined.

(** a history too short for the RSI is handled in the same way *)
Example decide_direction_short_history :
  decide_direction
    {| fetch_m1_rates := fun _ => inr tt;
       compute_rsi := fun _ _ => inl (Py.Exception "not enough bars");
       compute_vwap := fun _ => inr 2000%Q;
       last_close := fun _ => inr 2000%Q |}
    sell hybrid_config
  = (inr (buy, inverse),
     [ {| level := "WARN";
          msg := HYBRID_indicator_fetch_failed
                   (Py.Exception "not enough bars") |} ]).
Proof. reflexivity. Qed.

(** the end-to-end scenario of the specification: a buy cluster with a
    neutral oscillator is faded *)
Example neutral_rsi_fades_buy_cluster :
  (decide_direction
     {| fetch_m1_rates := fun _ => inr tt;
        compute_rsi := fun _ _ => inr 50%Q;
        compute_vwap := fun _ => inr 2000%Q;
        last_close := fun _ => inr 2000%Q |}
     buy hybrid_config).1 = inr (sell, inverse).
Proof. reflexivity. Qed.

End DirectionExamples.

(** ** The entry step and the batch of a tick *)

Section EntryClaims.

Import ClusterEngine Chandelier.

Context {DF : Type}.

Implicit Types (env : EntryEnv DF) (st : StrategyState).




End EntryClaims.

Section EntryExamples.

Import ClusterEngine Chandelier Scenario.


End EntryExamples.

(** ** The de-duplication cache *)

Section SeenOrdersCacheClaims.

Import SeenOrdersCache.

Implicit Types (c : t) (oid : string) (now : datetime).

Lemma prune_lookup_Some now c oid t0 :
  _store (_prune now c) !! oid = Some t0
  ↔ _store c !! oid = Some t0 ∧ now - t0 <= _max_age c.
Proof.
  unfold _prune. simpl. rewrite map_lookup_filter_Some. simpl.
  split; intros [H1 H2]; (split; [done|lia]).
Qed.

Lemma prune_lookup_None now c oid t0 :
  _store c !! oid = Some t0 → _max_age c < now - t0 →
  _store (_prune now c) !! oid = None.
Proof.
  intros Hs Hold. destruct (_store (_prune now c) !! oid) as [t1|] eqn:E; [|done].
  apply prune_lookup_Some in E as [E Hle]. rewrite Hs in E. simplify_eq. lia.
Qed.

Lemma prune_max_age now c : _max_age (_prune now c) = _max_age c.
Proof. reflexivity. Qed.

Lemma add_max_age now now' oid c : _max_age (add now now' oid c) = _max_age c.
Proof. unfold add. by destruct (_store (_prune now c) !! oid). Qed.

Lemma step_max_age c a : _max_age (step c a) = _max_age c.
Proof. destruct a; [reflexivity | apply add_max_age]. Qed.

(** an identifier that is absent after the prune is stored with the time
    of the call *)
Lemma add_fresh now now' oid c :
  _store (_prune now c) !! oid = None →
  _store (add now now' oid c) !! oid = Some now'.
Proof.
  intros H. unfold add. rewrite H. simpl. apply lookup_insert_eq.
Qed.

(** an entry that is present and not yet expired survives [add], for its
    own identifier and for any other, with its timestamp *)
Lemma add_keeps now now' oid' c oid t0 :
  _store c !! oid = Some t0 → now - t0 <= _max_age c →
  _store (add now now' oid' c) !! oid = Some t0.
Proof.
  intros Hs Hage.
  assert (_store (_prune now c) !! oid = Some t0) as Hp
    by by apply prune_lookup_Some.
  unfold add. destruct (decide (oid' = oid)) as [->|Hne].
  - by rewrite Hp.
  - destruct (_store (_prune now c) !! oid') as [t1|]; [done|].
    simpl. by rewrite lookup_insert_ne.
Qed.

Lemma step_keeps c a oid t0 :
  _store c !! oid = Some t0 → access_time a - t0 <= _max_age c →
  _store (step c a) !! oid = Some t0.
Proof.
  destruct a as [now oid'|now now' oid']; simpl; intros Hs Hage.
  - by apply prune_lookup_Some.
  - by apply add_keeps.
Qed.

Lemma run_keeps c accesses oid t0 :
  _store c !! oid = Some t0 →
  Forall (fun a => access_time a - t0 <= _max_age c) accesses →
  _store (run c accesses) !! oid = Some t0 ∧ _max_age (run c accesses) = _max_age c.
Proof.
  intros Hs Hall. revert c Hs Hall.
  induction accesses as [|a rest IH]; intros c Hs Hall; [done|].
  apply Forall_cons in Hall as [Ha Hrest]. simpl.
  destruct (IH (step c a)) as [H1 H2].
  - by apply step_keeps.
  - by rewrite step_max_age.
  - split; [done|]. by rewrite H2, step_max_age.
Qed.

(** C10: an identifier first stored at [t0] is reported as seen by
    [contains] at every time within [max_age] of [t0], whatever accesses were
    made in between, and keeps the timestamp [t0] also when it is added
    again; once it is older than [max_age], the next [contains] reports it
    unseen and drops it, and the next [add] stores it anew with the time of
    that call. *)
Theorem seen_orders_cache_expiry c oid t0 :
  _store c !! oid = Some t0 →
  (∀ accesses now,
     Forall (fun a => access_time a - t0 <= _max_age c) accesses →
     now - t0 <= _max_age c →
     (contains now oid (run c accesses)).1 = true
     ∧ _store (contains now oid (run c accesses)).2 !! oid = Some t0)
  ∧ (∀ now now', now - t0 <= _max_age c →
       _store (add now now' oid c) !! oid = Some t0)
  ∧ (∀ now, _max_age c < now - t0 →
       (contains now oid c).1 = false
       ∧ _store (contains now oid c).2 !! oid = None
       ∧ ∀ now', _store (add now now' oid c) !! oid = Some now').
Proof.
  intros Hs. split; [|split].
  - intros accesses now Hall Hnow.
    destruct (run_keeps c accesses oid t0 Hs Hall) as [Hk Hm].
    assert (_store (_prune now (run c accesses)) !! oid = Some t0) as Hp.
    { apply prune_lookup_Some. split; [done|]. by rewrite Hm. }
    unfold contains. cbn [fst snd]. split; [|done].
    apply bool_decide_eq_true. by rewrite Hp.
  - intros now now' Hnow. by apply add_keeps.
  - intros now Hold.
    pose proof (prune_lookup_None now c oid t0 Hs Hold) as Hp.
    unfold contains, add. cbn [fst snd]. rewrite Hp. split; [|split; [done|]].
    + apply bool_decide_eq_false. by intros [? ?].
    + intros now'. simpl. apply lookup_insert_eq.
Qed.

End SeenOrdersCacheClaims.

Section SeenOrdersCacheExamples.

Import SeenOrdersCache Scenario.

(** "o1", first seen at hour 1, is still seen at hour 24 after another order
    was added at hour 3 and "o1" itself was added again at hour 5 *)
Lemma seen_orders_cache_expiry_witness :
  (contains (hour 24) "o1"
     (run cache_with_o1 [Add (hour 3) (hour 3) "o2"; Add (hour 5) (hour 5) "o1"])).1
  = true.
Proof.
  refine (proj1 (proj1 (seen_orders_cache_expiry cache_with_o1 "o1" (hour 1) _)
                   [Add (hour 3) (hour 3) "o2"; Add (hour 5) (hour 5) "o1"]
                   (hour 24) _ _)).
  - reflexivity.
  - repeat constructor; vm_compute; congruence.
  - vm_compute; congruence.
Defined.

(** at hour 26 the entry has expired: "o1" is unseen, and adding it stores
    the new time *)
Example seen_orders_cache_readmits :
  (contains (hour 26) "o1" cache_with_o1).1 = false
  ∧ _store (add (hour 26) (hour 26) "o1" cache_with_o1) !! "o1" = Some (hour 26).
Proof. vm_compute. auto. Qed.

End SeenOrdersCacheExamples.

(** ** Rounding of prices *)

Section RoundingFacts.

Lemma round_half_even_error y :
  (- (1 # 2) <= inject_Z (Py.round_half_even y) - y
   ∧ inject_Z (Py.round_half_even y) - y <= 1 # 2)%Q.
Proof.
  unfold Py.round_half_even.
  pose proof (Qfloor_le y) as Hlo. pose proof (Qlt_floor y) as Hhi.
  rewrite inject_Z_plus in Hhi. change (inject_Z 1) with 1%Q in Hhi.
  destruct (Qcompare_spec (y - inject_Z (Qfloor y)) (1 # 2)) as [He|Hl|Hg].
  - destruct (Z.even (Qfloor y)).
    + split; lra.
    + rewrite inject_Z_plus. change (inject_Z 1) with 1%Q. split; lra.
  - split; lra.
  - rewrite inject_Z_plus. change (inject_Z 1) with 1%Q. split; lra.
Qed.

Lemma scale_pos (d : nat) : (0 < inject_Z (10 ^ Z.of_nat d))%Q.
Proof.
  change 0%Q with (inject_Z 0). rewrite <- Zlt_Qlt.
  apply Z.pow_pos_nonneg; lia.
Qed.

(** [round(x, d)] is within half a unit of the last place of [x] *)
Lemma round_error x d p :
  (p * inject_Z (10 ^ Z.of_nat d) == 1)%Q →
  (0 < p ∧ x - p * (1 # 2) <= Py.round x d ∧ Py.round x d <= x + p * (1 # 2))%Q.
Proof.
  intros Hp. unfold Py.round.
  pose proof (scale_pos d) as Hs.
  set (s := inject_Z (10 ^ Z.of_nat d)) in *.
  destruct (round_half_even_error (x * s)) as [Hlo Hhi].
  set (R := inject_Z (Py.round_half_even (x * s))) in *.
  assert (/ s == p)%Q as Hinv.
  { rewrite <- (Qmult_1_l (/ s)), <- Hp, <- Qmult_assoc, Qmult_inv_r, Qmult_1_r;
      [reflexivity | lra]. }
  assert (0 < p)%Q as Hpos.
  { rewrite <- Hinv. by apply Qinv_lt_0_compat. }
  assert (R / s - x == (R - x * s) * p)%Q as Heq.
  { unfold Qdiv. rewrite Hinv.
    transitivity (R * p - x * (p * s))%Q; [rewrite Hp|]; ring. }
  split; [done|].
  assert (- (1 # 2) * p <= (R - x * s) * p)%Q as H1
    by (apply Qmult_le_compat_r; lra).
  assert ((R - x * s) * p <= (1 # 2) * p)%Q as H2
    by (apply Qmult_le_compat_r; lra).
  split; lra.
Qed.

End RoundingFacts.

(** ** The stop ratchet when the broker imposes no stop level *)

Section TrailingStopFacts.

Import Chandelier.

Implicit Types (cfg : StrategyConfig) (sym : SymbolInfo) (bars : M1Bars)
  (info : BotPositionInfo).

Lemma max_ge a b : (a <= Py.max a b)%Q.
Proof.
  unfold Py.max. destruct (Py.Qltb a b) eqn:E; [|lra].
  apply Qltb_lt in E. lra.
Qed.

Lemma min_le a b : (Py.min a b <= a)%Q.
Proof.
  unfold Py.min. destruct (Py.Qltb b a) eqn:E; [|lra].
  apply Qltb_lt in E. lra.
Qed.

Lemma ratchets_refl info : ratchets info info.
Proof. split; [done|]. unfold no_worse. destruct (direction info); lra. Qed.

Lemma ratchets_trans p1 p2 p3 : ratchets p1 p2 → ratchets p2 p3 → ratchets p1 p3.
Proof.
  intros [Hd1 H1] [Hd2 H2]. split; [congruence|].
  rewrite Hd1 in H2. unfold no_worse in *. destruct (direction p1); lra.
Qed.

Lemma breakeven_ratchets cfg sym open_R info :
  ratchets info (breakeven cfg sym open_R info).
Proof.
  unfold breakeven.
  destruct (breakeven_trigger_R cfg) as [trigger|]; [|apply ratchets_refl].
  destruct (negb (breakeven_hit info) && Qle_bool trigger open_R);
    [|apply ratchets_refl].
  destruct (direction info) eqn:Ed;
    match goal with |- context [if ?b then _ else _] => destruct b eqn:E end;
    try apply ratchets_refl;
    apply Qltb_lt in E; (split; [done|]); unfold no_worse; rewrite Ed; simpl; lra.
Qed.

Lemma chandelier_trail_ratchets cfg sym bars open_R info :
  no_stop_level sym →
  ratchets info (chandelier_trail cfg sym bars open_R info).
Proof.
  intros [Hlevel Hpoint]. unfold chandelier_trail.
  destruct (match trail_start_R cfg with Some _ => _ | None => _ end);
    [apply ratchets_refl|].
  unfold enforce_stop_level.
  destruct (Z.ltb_spec 0 (trade_stops_level sym)) as [?|_]; [lia|].
  cbn [fst]. unfold round_price.
  destruct (direction info) eqn:Ed.
  - set (target := Py.max _ _).
    destruct (_ || _); [apply ratchets_refl|].
    destruct (Py.Qltb _ _) eqn:E; [|apply ratchets_refl].
    apply Qltb_lt in E. split; [done|]. unfold no_worse. rewrite Ed. simpl.
    destruct (round_error target (digits sym) (point sym) Hpoint) as (Hp & Hlo & _).
    pose proof (max_ge (sl_price info)
                  (highest_high bars - atr_trail_mult cfg * atr_val bars)) as Hm.
    fold target in Hm.
    destruct (Qlt_le_dec (Py.round target (digits sym)) (sl_price info)) as [Hlt|Hge];
      [|done].
    rewrite Qabs_neg in E by lra. lra.
  - set (target := Py.min _ _).
    destruct (_ || _); [apply ratchets_refl|].
    destruct (Py.Qltb _ _) eqn:E; [|apply ratchets_refl].
    apply Qltb_lt in E. split; [done|]. unfold no_worse. rewrite Ed. simpl.
    destruct (round_error target (digits sym) (point sym) Hpoint) as (Hp & _ & Hhi).
    pose proof (min_le (sl_price info)
                  (lowest_low bars + atr_trail_mult cfg * atr_val bars)) as Hm.
    fold target in Hm.
    destruct (Qlt_le_dec (sl_price info) (Py.round target (digits sym))) as [Hlt|Hge];
      [|done].
    rewrite Qabs_pos in E by lra. lra.
Qed.

Lemma trail_position_ratchets cfg sym bars info :
  no_stop_level sym →
  ratchets info (trail_position cfg sym bars info).
Proof.
  intros Hsym. unfold trail_position.
  destruct (last_bar_ts bars <=? entry_time info); [apply ratchets_refl|].
  destruct (Qle_bool _ 0); [apply ratchets_refl|].
  eapply ratchets_trans; [apply breakeven_ratchets|].
  by apply chandelier_trail_ratchets.
Qed.

Lemma manage_trailing_stops_ratchets env st ticket p' :
  no_stop_level (SYMBOL_INFO env) →
  open_positions (manage_trailing_stops env st) !! ticket = Some p' →
  ∃ p, open_positions st !! ticket = Some p ∧ ratchets p p'.
Proof.
  intros Hsym. unfold manage_trailing_stops.
  destruct (_ || _); [intros H; exists p'; split; [done|apply ratchets_refl]|].
  destruct (rates env) as [bars|];
    [|intros H; exists p'; split; [done|apply ratchets_refl]].
  simpl. rewrite map_lookup_imap.
  destruct (open_positions st !! ticket) as [p|]; simpl; [|done].
  destruct (position_live env ticket); [|done].
  intros [= <-]. exists p. split; [done|]. by apply trail_position_ratchets.
Qed.

(** without a broker stop level, across any sequence of calls of
    [manage_trailing_stops] the stored stop of a position that is still open
    never regresses: it does not decrease for a long position and does not
    increase for a short one. *)
Theorem trailing_ticks_ratchet envs st ticket p' :
  Forall (fun env => no_stop_level (SYMBOL_INFO env)) envs →
  open_positions (trailing_ticks envs st) !! ticket = Some p' →
  ∃ p, open_positions st !! ticket = Some p
       ∧ direction p' = direction p
       ∧ no_worse (direction p) (sl_price p') (sl_price p).
Proof.
  intros Hall. revert st.
  induction Hall as [|env envs Henv _ IH]; intros st; simpl.
  - intros H. exists p'. split; [done|]. apply ratchets_refl.
  - intros H. destruct (IH _ H) as (p1 & H1 & Hr1).
    destruct (manage_trailing_stops_ratchets _ _ _ _ Henv H1) as (p & Hp & Hr).
    exists p. split; [done|]. by apply (ratchets_trans p p1 p').
Qed.

End TrailingStopFacts.

(** ** The trailing stop *)

Section TrailingStopExamples.

Import Chandelier Scenario.

(** C1 fails on the code: the first call trails the stop of the long
    position from 90 up to 100 (high 103 less 3 ATR); on the next call the
    price is 100.50, the candidate is again 100 and [max] keeps 100, but
    [enforce_stop_level] then moves the stop to the price less the broker's
    minimum distance, 99.50, and that value is stored: the stop of a long
    position has decreased. *)
Theorem manage_trailing_stops_lowers_long_stop :
  let st1 := manage_trailing_stops bar_at_high long_engine in
  let st2 := manage_trailing_stops bar_after_pullback st1 in
  ∃ p1 p2,
    open_positions st1 !! 7 = Some p1
    ∧ open_positions st2 !! 7 = Some p2
    ∧ direction p2 = buy
    ∧ (sl_price p1 == 100)%Q
    ∧ (sl_price p2 == 199 # 2)%Q
    ∧ ¬ no_worse (direction p2) (sl_price p2) (sl_price p1).
Proof.
  eexists _, _. split; [vm_compute; reflexivity|].
  split; [vm_compute; reflexivity|].
  split; [reflexivity|].
  split; [reflexivity|].
  split; [reflexivity|].
  vm_compute. intros H. by apply H.
Qed.

End TrailingStopExamples.

Section TrailingStopWithoutStopLevel.

Import Chandelier Scenario.

Lemma free_ticks_no_stop_level :
  Forall (fun env => no_stop_level (SYMBOL_INFO env)) free_ticks.
Proof. repeat constructor; vm_compute; congruence. Defined.

Lemma trailing_ticks_ratchet_witness :
  ∃ p, open_positions long_engine !! 7 = Some p
       ∧ direction (set_sl long_position (10000 # 100) false) = direction p
       ∧ no_worse (direction p)
           (sl_price (set_sl long_position (10000 # 100) false)) (sl_price p).
Proof.
  apply (trailing_ticks_ratchet free_ticks long_engine 7
           (set_sl long_position (10000 # 100) false) free_ticks_no_stop_level).
  vm_compute. reflexivity.
Defined.

End TrailingStopWithoutStopLevel.

(** * Further properties of the code *)

(** ** Lot sizing *)

Section LotSizing.

Import Risk.

Implicit Types (info : VolumeInfo) (cfg : StrategyConfig).

Lemma min_le_r a b : (Py.min a b <= b)%Q.
Proof.
  unfold Py.min. destruct (Py.Qltb b a) eqn:E; [lra|].
  by apply Qltb_ge in E.
Qed.

Lemma max_ge_r a b : (b <= Py.max a b)%Q.
Proof.
  unfold Py.max. destruct (Py.Qltb a b) eqn:E; [lra|].
  by apply Qltb_ge in E.
Qed.

Lemma max_cases a b : (Py.max a b == a ∨ Py.max a b == b)%Q.
Proof. unfold Py.max. destruct (Py.Qltb a b); [right|left]; reflexivity. Qed.

Lemma min_cases a b : (Py.min a b == a ∨ Py.min a b == b)%Q.
Proof. unfold Py.min. destruct (Py.Qltb b a); [right|left]; reflexivity. Qed.

Lemma round_lots_within lots info :
  (volume_min info <= volume_max info)%Q →
  (volume_min info <= _round_lots lots info
   ∧ _round_lots lots info <= volume_max info)%Q.
Proof.
  intros Hmm. unfold _round_lots.
  set (rounded := Py.round _ 2).
  split; [apply max_ge|].
  pose proof (min_le_r rounded (volume_max info)).
  destruct (max_cases (volume_min info) (Py.min rounded (volume_max info))) as [->| ->];
    lra.
Qed.

Lemma calc_lot_size_range equity stop cfg info :
  (volume_min info <= volume_max info)%Q →
  (volume_min info <= calc_lot_size equity stop cfg info
   ∧ calc_lot_size equity stop cfg info <= volume_max info)%Q.
Proof.
  intros Hmm. unfold calc_lot_size.
  destruct (String.eqb (risk_mode cfg) "fixed_lots"); [by apply round_lots_within|].
  destruct (if String.eqb (risk_mode cfg) "static_pct" then _ else _);
    [|by apply round_lots_within].
  destruct (_ || _); by apply round_lots_within.
Qed.

(** whatever the risk mode, the equity, the stop distance and the contract
    size, the lot size lies between the symbol's minimum and maximum volume *)
Theorem calc_lot_size_within_volume_limits equity stop cfg info :
  (volume_min info <= volume_max info)%Q →
  (volume_min info <= calc_lot_size equity stop cfg info
   ∧ calc_lot_size equity stop cfg info <= volume_max info)%Q.
Proof. apply calc_lot_size_range. Qed.

(** the effective step is at least one hundredth of a lot *)
Lemma step_pos info : (0 < Py.max (volume_step info) (1 # 100))%Q.
Proof. pose proof (max_ge_r (volume_step info) (1 # 100)). lra. Qed.

(** a request inside the volume limits is met to within half a step and
    half a hundredth of a lot *)
Theorem round_lots_error lots info :
  (volume_min info <= lots)%Q → (lots <= volume_max info)%Q →
  let step := Py.max (volume_step info) (1 # 100) in
  (Qabs (_round_lots lots info - lots) <= step * (1 # 2) + (1 # 200))%Q.
Proof.
  intros Hlo Hhi step. unfold _round_lots. fold step.
  pose proof (step_pos info) as Hstep. fold step in Hstep.
  destruct (round_half_even_error (lots / step)) as [H1 H2].
  set (n := inject_Z (Py.round_half_even (lots / step))) in *.
  assert (lots / step * step == lots)%Q as Hdiv.
  { unfold Qdiv. rewrite <- Qmult_assoc, (Qmult_comm (/ step)), Qmult_inv_r; lra. }
  assert (- (1 # 2) * step <= (n - lots / step) * step)%Q as H3
    by (apply Qmult_le_compat_r; lra).
  assert ((n - lots / step) * step <= (1 # 2) * step)%Q as H4
    by (apply Qmult_le_compat_r; lra).
  assert ((n - lots / step) * step == n * step - lots)%Q as H5.
  { rewrite <- Hdiv at 2. ring. }
  destruct (round_error (n * step) 2 (1 # 100)) as (_ & H6 & H7); [reflexivity|].
  set (rounded := Py.round (n * step) 2) in *.
  apply Qabs_Qle_condition.
  destruct (max_cases (volume_min info) (Py.min rounded (volume_max info))) as [E|E];
    rewrite E.
  - pose proof (max_ge_r (volume_min info) (Py.min rounded (volume_max info))) as Hm.
    rewrite E in Hm.
    destruct (min_cases rounded (volume_max info)) as [E'|E']; rewrite E' in Hm;
      split; lra.
  - pose proof (max_ge (volume_min info) (Py.min rounded (volume_max info))) as Hm.
    rewrite E in Hm.
    pose proof (min_le rounded (volume_max info)) as Hm'.
    destruct (min_cases rounded (volume_max info)) as [E'|E']; rewrite E';
      split; lra.
Qed.

End LotSizing.

(** ** Side inference *)

Section SideInference.

Import SirixApi.

Lemma infer_side_present a o s t :
  _infer_side a (Some o) (Some s) (Some t) =
    if Py.Qltb 0 s && Py.Qltb s o && Py.Qltb o t then Some buy
    else if Py.Qltb 0 t && Py.Qltb t o && Py.Qltb o s then Some sell
    else by_action_type a.
Proof.
  unfold _infer_side, truthy, by_action_type.
  destruct (Qeq_bool o 0) eqn:Eo, (Qeq_bool s 0) eqn:Es, (Qeq_bool t 0) eqn:Et;
    try apply Qeq_bool_iff in Eo; try apply Qeq_bool_iff in Es;
    try apply Qeq_bool_iff in Et;
    destruct (Py.Qltb 0 s) eqn:E1, (Py.Qltb 0 t) eqn:E2,
      (Py.Qltb s o) eqn:E3, (Py.Qltb o t) eqn:E4,
      (Py.Qltb t o) eqn:E5, (Py.Qltb o s) eqn:E6; simpl; try reflexivity;
    repeat match goal with
      | H : Py.Qltb _ _ = true |- _ => apply Qltb_lt in H
      | H : Py.Qltb _ _ = false |- _ => apply Qltb_ge in H
      end; exfalso; lra.
Qed.

(** the geometry of stop and target decides the side before the action
    code is looked at: a stop below and a target above the open rate give
    buy, the reverse gives sell, whatever [ActionType] says; only without
    such a geometry does the code decide (0 buy, 1 or 2 sell, else none) *)
Theorem infer_side_geometry_first a open_rate sl tp :
  (geometry_buy open_rate sl tp → _infer_side a open_rate sl tp = Some buy)
  ∧ (geometry_sell open_rate sl tp → _infer_side a open_rate sl tp = Some sell)
  ∧ (¬ geometry_buy open_rate sl tp → ¬ geometry_sell open_rate sl tp →
     _infer_side a open_rate sl tp = by_action_type a).
Proof.
  split; [|split].
  - intros (o & s & t & -> & -> & -> & H1 & H2 & H3).
    rewrite infer_side_present.
    apply Qltb_lt in H1, H2, H3. by rewrite H1, H2, H3.
  - intros (o & s & t & -> & -> & -> & H1 & H2 & H3).
    rewrite infer_side_present.
    destruct (Py.Qltb 0 s && Py.Qltb s o && Py.Qltb o t) eqn:E.
    + apply andb_true_iff in E as [E E3]. apply andb_true_iff in E as [E1 E2].
      apply Qltb_lt in E2, E3. lra.
    + apply Qltb_lt in H1, H2, H3. by rewrite H1, H2, H3.
  - intros Hb Hs.
    destruct open_rate as [o|], sl as [s|], tp as [t|]; try reflexivity;
      try (by destruct o); try (by destruct o, s).
    rewrite infer_side_present.
    destruct (Py.Qltb 0 s && Py.Qltb s o && Py.Qltb o t) eqn:E.
    { exfalso. apply Hb. exists o, s, t.
      apply andb_true_iff in E as [E E3]. apply andb_true_iff in E as [E1 E2].
      apply Qltb_lt in E1, E2, E3. by repeat split. }
    destruct (Py.Qltb 0 t && Py.Qltb t o && Py.Qltb o s) eqn:E'; [|done].
    exfalso. apply Hs. exists o, s, t.
    apply andb_true_iff in E' as [E' E3]. apply andb_true_iff in E' as [E1 E2].
    apply Qltb_lt in E1, E2, E3. by repeat split.
Qed.

End SideInference.

(** ** Session filter and no-trade zones *)

Section FilterFacts.

Import Filters.

(** with the filter on and a session that ends at or before the time of day
    it starts (an overnight session), the session is open from the start
    time until midnight only: the hours between midnight and the end time
    are outside it *)
Theorem within_session_overnight start end_ now :
  0 <= time_of_day end_ → time_of_day end_ <= time_of_day start →
  0 <= now < one_day →
  within_session true start end_ now = true ↔ time_of_day start <= now.
Proof.
  intros Hend Hover Hnow. unfold within_session. simpl.
  destruct (Z.leb_spec (time_of_day end_) (time_of_day start)) as [_|?]; [|lia].
  rewrite andb_true_iff, !Z.leb_le. lia.
Qed.

Lemma classic_zone now z : zone_active now z ∨ ¬ zone_active now z.
Proof.
  unfold zone_active. destruct (bounds z) as [e|[start end_]].
  - right. by intros (? & ? & ? & _).
  - destruct (decide (start <= now <= end_)) as [H|H].
    + left. by exists start, end_.
    + right. intros (? & ? & [= <- <-] & ?). done.
Qed.

Lemma check_no_trade_zone_skip now z rest :
  ¬ zone_active now z →
  check_no_trade_zone now (z :: rest) = check_no_trade_zone now rest.
Proof.
  intros Hn. simpl. destruct (bounds z) as [e|[start end_]] eqn:E; [done|].
  destruct ((start <=? now) && (now <=? end_)) eqn:Eb; [|done].
  exfalso. apply Hn. exists start, end_. split; [done|].
  apply andb_true_iff in Eb as [H1 H2]. apply Z.leb_le in H1, H2. lia.
Qed.

Lemma check_no_trade_zone_hit now z rest :
  zone_active now z → check_no_trade_zone now (z :: rest) = (true, reason z).
Proof.
  intros (start & end_ & E & H1 & H2). simpl. rewrite E.
  apply Z.leb_le in H1, H2. by rewrite H1, H2.
Qed.

(** [check_no_trade_zone] reports a zone exactly when some entry that parses
    contains the time; the reason is that of the first such entry; entries
    that do not parse are passed over, and without a zone the reason is
    [None] *)
Theorem check_no_trade_zone_first_match now zones :
  ((check_no_trade_zone now zones).1 = true
   ↔ ∃ z, z ∈ zones ∧ zone_active now z)
  ∧ ((check_no_trade_zone now zones).1 = false
     → check_no_trade_zone now zones = (false, None))
  ∧ (∀ pre z post,
       zones = pre ++ z :: post → zone_active now z →
       (∀ z', z' ∈ pre → ¬ zone_active now z') →
       check_no_trade_zone now zones = (true, reason z)).
Proof.
  split; [|split].
  - induction zones as [|z rest IH].
    + simpl. split; [done|]. intros (z & Hz & _). by apply elem_of_nil in Hz.
    + destruct (classic_zone now z) as [Ha|Hn].
      * rewrite (check_no_trade_zone_hit _ _ _ Ha). simpl.
        split; [|done]. intros _. exists z. split; [apply list_elem_of_here|done].
      * rewrite (check_no_trade_zone_skip _ _ _ Hn), IH. split.
        -- intros (z' & Hin & Ha). exists z'. split; [by apply list_elem_of_further|done].
        -- intros (z' & Hin & Ha). apply elem_of_cons in Hin as [->|Hin]; [done|].
           by exists z'.
  - induction zones as [|z rest IH]; [done|].
    destruct (classic_zone now z) as [Ha|Hn].
    + by rewrite (check_no_trade_zone_hit _ _ _ Ha).
    + by rewrite (check_no_trade_zone_skip _ _ _ Hn).
  - intros pre z post -> Ha Hpre.
    induction pre as [|z0 pre IH]; simpl app.
    + by apply check_no_trade_zone_hit.
    + rewrite check_no_trade_zone_skip.
      * apply IH. intros z' Hz'. apply Hpre. by apply list_elem_of_further.
      * apply Hpre. apply list_elem_of_here.
Qed.

End FilterFacts.

(** ** Initial stop and target *)

Section InitialStop.

Implicit Types (sym : SymbolInfo) (cfg : StrategyConfig).

Ltac q_cases :=
  repeat match goal with
    | |- context [Py.Qltb ?x ?y] =>
        let E := fresh "E" in
        destruct (Py.Qltb x y) eqn:E;
        [apply Qltb_lt in E | apply Qltb_ge in E]
    end.

Lemma round_price_near sym x y :
  point_is_last_digit sym → (x == y)%Q →
  (Qabs (round_price sym x - y) <= point sym * (1 # 2))%Q.
Proof.
  intros Hp Hxy. unfold round_price.
  destruct (round_error x (digits sym) (point sym) Hp) as (_ & Hlo & Hhi).
  apply Qabs_Qle_condition. split; lra.
Qed.

(** the initial stop lies at the configured distance from the entry price
    (the fixed distance, or ATR times [atr_init_mult]), widened to the
    broker's minimum distance when there is a stop level, on the losing
    side, to within half a point of rounding; the target, when enabled, lies
    likewise at [tp_R_multiple] times the configured distance on the other
    side *)
Theorem calc_sl_tp_distances sym side entry cfg atr :
  point_is_last_digit sym →
  let d := configured_sl_dist cfg atr in
  let r := calc_sl_tp sym side entry cfg atr in
  let half := (point sym * (1 # 2))%Q in
  match side with
  | buy  => (Qabs (r.1 - (entry - widened sym d)) <= half)%Q
  | sell => (Qabs (r.1 - (entry + widened sym d)) <= half)%Q
  end
  ∧ (use_tp_exit cfg = false → r.2 = None)
  ∧ (use_tp_exit cfg = true →
     ∃ tp, r.2 = Some tp ∧
       match side with
       | buy  => (Qabs (tp - (entry + widened sym (tp_R_multiple cfg * d))) <= half)%Q
       | sell => (Qabs (tp - (entry - widened sym (tp_R_multiple cfg * d))) <= half)%Q
       end).
Proof.
  intros Hp d r half. subst r. unfold calc_sl_tp.
  fold (configured_sl_dist cfg atr). fold d.
  unfold enforce_stop_level, widened, Py.max.
  destruct (0 <? trade_stops_level sym); destruct side; cbn [fst snd];
    (split; [|split]).
  all: try (intros Htp; rewrite Htp).
  all: q_cases; try (exfalso; lra).
  all: cbn [option_map]; try reflexivity;
    try (eexists; split; [reflexivity|]).
  all: apply round_price_near; try done; ring.
Qed.

End InitialStop.

(** ** More on the cluster detector *)

Section ClusterEngineMore.

Import ClusterEngine.

Implicit Types (evs : list SirixPositionEvent) (eng : t).

(** a side is only ever signalled over a non-empty window in which that
    side's distinct participants reach [k_unique]; and [sell] only when the
    buy side does not reach it *)
Theorem add_events_signal_sound eng batch s :
  (add_events eng batch).1 = Some s →
  let window := events (add_events eng batch).2 in
  window ≠ []
  ∧ k_unique eng <= Z.of_nat (size (users_on s window))
  ∧ (s = sell → Z.of_nat (size (users_on buy window)) < k_unique eng).
Proof.
  unfold add_events.
  destruct (last (events eng ++ batch)) as [latest|]; [|done].
  simpl. destruct (trim _ _) as [|e rest] eqn:Et; [done|].
  destruct (cluster_side _ _) as [s'|] eqn:Ec; [|done].
  destruct (refractory _ _ _); [done|].
  simpl. intros [= ->]. split; [done|].
  unfold cluster_side in Ec. rewrite count_users_spec in Ec. simpl in Ec.
  destruct (Z.leb_spec (k_unique eng) (Z.of_nat (size (users_on buy (e :: rest)))));
    [injection Ec as <-; split; [lia|done]|].
  destruct (Z.leb_spec (k_unique eng) (Z.of_nat (size (users_on sell (e :: rest)))));
    [injection Ec as <-; split; [lia|done] | done].
Qed.

Lemma trim_keeps_last cutoff evs latest :
  last evs = Some latest → cutoff <= time latest →
  last (trim cutoff evs) = Some latest.
Proof.
  induction evs as [|e rest IH]; [done|]. intros Hl Hc. simpl.
  destruct (Z.ltb_spec (time e) cutoff) as [Hlt|_]; [|done].
  destruct rest as [|e' rest'].
  - simpl in Hl. injection Hl as ->. lia.
  - apply IH; [|done]. by rewrite last_cons_cons in Hl.
Qed.

(** the window after a call is a tail of the old window followed by the
    batch: nothing is reordered and nothing is dropped from the middle; and
    with a non-negative [window_seconds] the last event appended is always
    kept *)
Theorem add_events_keeps_tail eng batch :
  events (add_events eng batch).2 `suffix_of` events eng ++ batch
  ∧ (0 <= window_seconds eng →
     last (events (add_events eng batch).2) = last (events eng ++ batch)).
Proof.
  split; [apply add_events_suffix|].
  intros Hw. rewrite add_events_events.
  destruct (last (events eng ++ batch)) as [latest|] eqn:El; [|done].
  apply trim_keeps_last; [done|]. unfold timedelta_seconds. lia.
Qed.

Lemma users_on_app s evs1 evs2 :
  users_on s (evs1 ++ evs2) = users_on s evs1 ∪ users_on s evs2.
Proof.
  unfold users_on. by rewrite filter_app, fmap_app, list_to_set_app_L.
Qed.

Lemma users_on_suffix s evs1 evs2 :
  evs1 `suffix_of` evs2 → users_on s evs1 ⊆ users_on s evs2.
Proof. intros [pre ->]. rewrite users_on_app. set_solver. Qed.

Lemma users_on_repeat s evs e :
  user_id e ∈ users_on (side e) evs →
  users_on s (evs ++ [e]) = users_on s evs.
Proof.
  intros Hin. rewrite users_on_app. unfold users_on at 2.
  rewrite filter_cons. destruct (decide (side e = s)) as [<-|Hne]; simpl.
  - set_solver.
  - set_solver.
Qed.

(** a further order of a participant who is already in the window on that
    side is appended and the window trimmed at its open time minus
    [window_seconds]; it never raises a unique-participant count of the
    window, which the trim can only lower; so it never completes a cluster:
    when neither count over the window before the call reaches [k_unique], the
    call returns nothing and leaves the refractory state as it is *)
Theorem add_events_repeat_order eng e :
  user_id e ∈ users_on (side e) (events eng) →
  let r := add_events eng [e] in
  let k := k_unique eng in
  events r.2
  = trim (time e - timedelta_seconds (window_seconds eng)) (events eng ++ [e])
  ∧ (size (users_on buy (events r.2)) <= size (users_on buy (events eng)))%nat
  ∧ (size (users_on sell (events r.2)) <= size (users_on sell (events eng)))%nat
  ∧ (Z.of_nat (size (users_on buy (events eng))) < k →
     Z.of_nat (size (users_on sell (events eng))) < k →
     r.1 = None
     ∧ last_cluster_time r.2 = last_cluster_time eng
     ∧ last_cluster_side r.2 = last_cluster_side eng).
Proof.
  intros Hin. cbv zeta.
  assert (∀ s, size (users_on s (events (add_events eng [e]).2))
               <= size (users_on s (events eng)))%nat as Hle.
  { intros s. apply subseteq_size.
    rewrite <- (users_on_repeat s (events eng) e Hin).
    apply users_on_suffix, add_events_suffix. }
  split; [by rewrite add_events_events, last_snoc|].
  split; [apply Hle|]. split; [apply Hle|].
  intros Hb Hs.
  pose proof (Hle buy) as Hlb. pose proof (Hle sell) as Hls.
  revert Hlb Hls. unfold add_events.
  destruct (last (events eng ++ [e])) as [latest|]; [|done]. cbv zeta.
  set (window := trim _ _).
  destruct window as [|e0 rest] eqn:Ew; [done|]. rewrite <- Ew.
  destruct (cluster_side_unique_count (k_unique eng) window) as (Hsel & _).
  cbv zeta in Hsel.
  destruct (cluster_side (k_unique eng) window) as [s|] eqn:Ec; [|done].
  cbn [fst snd events set_events].
  destruct (refractory eng (time latest) s);
    cbn [fst snd events set_events]; intros Hlb Hls;
    (assert (k_unique eng <= Z.of_nat (size (users_on buy window))
             ∨ k_unique eng <= Z.of_nat (size (users_on sell window))) as [H|H]
       by (apply Hsel; by eexists)); lia.
Qed.

End ClusterEngineMore.

(** ** Event building and de-duplication *)

Section EventBuilding.

Import SeenOrdersCache SirixApi.

Variable clock : nat → datetime.

Implicit Types (s : Seen) (c : SeenOrdersCache.t) (oid : string)
  (pos : RawPosition) (raw : list RawPosition).

Lemma seen_contains_keeps oid' s oid t0 :
  _store s.1 !! oid = Some t0 → within_age clock (_max_age s.1) t0 →
  _store (seen_contains clock oid' s).2.1 !! oid = Some t0
  ∧ _max_age (seen_contains clock oid' s).2.1 = _max_age s.1.
Proof.
  intros Hs Hage. unfold seen_contains, contains. simpl.
  split; [|done]. apply prune_lookup_Some. split; [done | apply Hage].
Qed.

Lemma seen_add_keeps oid' s oid t0 :
  _store s.1 !! oid = Some t0 → within_age clock (_max_age s.1) t0 →
  _store (seen_add clock oid' s).1 !! oid = Some t0
  ∧ _max_age (seen_add clock oid' s).1 = _max_age s.1.
Proof.
  intros Hs Hage. unfold seen_add. simpl.
  split; [apply add_keeps; [done | apply Hage] | apply add_max_age].
Qed.

Lemma seen_contains_max_age oid s :
  _max_age (seen_contains clock oid s).2.1 = _max_age s.1.
Proof. reflexivity. Qed.

Lemma seen_add_max_age oid s : _max_age (seen_add clock oid s).1 = _max_age s.1.
Proof. apply add_max_age. Qed.

(** after [contains] has answered no, [add] stores the identifier with a
    reading of the clock *)
Lemma seen_add_after_miss oid s :
  (seen_contains clock oid s).1 = false →
  ∃ k, _store (seen_add clock oid (seen_contains clock oid s).2).1 !! oid
       = Some (clock k).
Proof.
  unfold seen_contains, seen_add, contains. simpl. intros Hmiss.
  apply bool_decide_eq_false in Hmiss.
  eexists. apply add_fresh.
  destruct (_store (_prune (clock (S s.2)) (_prune (clock s.2) s.1)) !! oid)
    as [t1|] eqn:E; [|done].
  apply prune_lookup_Some in E as [E _]. exfalso. apply Hmiss. by eexists.
Qed.

Lemma seen_contains_hit oid s t0 :
  _store s.1 !! oid = Some t0 → within_age clock (_max_age s.1) t0 →
  (seen_contains clock oid s).1 = true.
Proof.
  intros Hs Hage. unfold seen_contains, contains. simpl.
  apply bool_decide_eq_true. exists t0.
  apply prune_lookup_Some. split; [done | apply Hage].
Qed.

#[local] Arguments seen_contains : simpl never.
#[local] Arguments seen_add : simpl never.

(** what one record can do to an entry that stays within age, and what an
    appended event says about the record and the cache *)
Lemma build_event_spec m pos s :
  let r := build_event clock m pos s in
  _max_age r.2.1 = _max_age s.1
  ∧ (∀ oid t0, _store s.1 !! oid = Some t0 →
       within_age clock (_max_age s.1) t0 →
       _store r.2.1 !! oid = Some t0
       ∧ ∀ ev, r.1 = Some ev → order_id ev ≠ oid)
  ∧ (∀ ev, r.1 = Some ev →
       InstrumentName pos = Some SIRIX_INSTRUMENT
       ∧ OrderID pos = order_id ev ∧ order_id ev ≠ ""
       ∧ UserID pos = user_id ev
       ∧ _infer_side (ActionType pos) (OpenRate pos) (StopLoss pos)
           (TakeProfit pos) = Some (side ev)
       ∧ OpenTime pos = inr (time ev)
       ∧ AmountLots pos = inr (lots ev)
       ∧ (∀ m0, m = Some m0 → m0 <= time ev)
       ∧ ∃ k, _store r.2.1 !! order_id ev = Some (clock k)).
Proof.
  cbv zeta. unfold build_event.
  destruct (bool_decide (InstrumentName pos = Some SIRIX_INSTRUMENT)) eqn:Ei;
    cbn [negb]; [|by repeat split].
  apply bool_decide_eq_true in Ei.
  destruct (String.eqb_spec (OrderID pos) "") as [Ee|Ene]; [by repeat split|].
  pose proof (seen_add_after_miss (OrderID pos) s) as Hmiss.
  pose proof (seen_contains_hit (OrderID pos) s) as Hhit.
  pose proof (λ oid t0, seen_contains_keeps (OrderID pos) s oid t0) as Hkeep.
  pose proof (seen_contains_max_age (OrderID pos) s) as Hage1.
  destruct (seen_contains clock (OrderID pos) s) as [seen s1]. cbn [fst snd] in *.
  destruct seen; [split; [done|]; split; [|done]; intros oid t0 H1 H2;
                  split; [by apply Hkeep | done]|].
  specialize (Hmiss eq_refl).
  assert (∀ oid t0, _store s.1 !! oid = Some t0 →
            within_age clock (_max_age s.1) t0 → OrderID pos ≠ oid) as Hne.
  { intros oid t0 H1 H2 <-. by specialize (Hhit _ H1 H2). }
  pose proof (λ oid t0 H1 H2,
    seen_add_keeps (OrderID pos) s1 oid t0 H1 H2) as Hkeep2.
  pose proof (seen_add_max_age (OrderID pos) s1) as Hage2.
  assert (∀ oid t0, _store s.1 !! oid = Some t0 →
            within_age clock (_max_age s.1) t0 →
            _store (seen_add clock (OrderID pos) s1).1 !! oid = Some t0) as Hk.
  { intros oid t0 H1 H2. destruct (Hkeep oid t0 H1 H2) as [H3 H4].
    apply Hkeep2; [done|]. by rewrite Hage1. }
  destruct (_infer_side _ _ _ _) as [sd|] eqn:Es;
    [|split; [done|]; split; [|done]; intros oid t0 H1 H2;
      split; [by apply Hkeep | done]].
  destruct (OpenTime pos) as [e|open_time] eqn:Eo;
    [split; [done|]; split; [|done]; intros oid t0 H1 H2;
      split; [by apply Hkeep | done]|].
  destruct (match m with Some m0 => open_time <? m0 | None => false end) eqn:Em.
  { cbn [fst snd]. split; [by rewrite Hage2|]. split; [|done].
    intros oid t0 H1 H2. split; [by apply Hk | done]. }
  destruct (AmountLots pos) as [e|l] eqn:El;
    [split; [done|]; split; [|done]; intros oid t0 H1 H2;
      split; [by apply Hkeep | done]|].
  cbn [fst snd]. split; [by rewrite Hage2|]. split.
  - intros oid t0 H1 H2. split; [by apply Hk|].
    intros ev [= <-]. simpl. by eapply Hne.
  - intros ev [= <-]. simpl. repeat split; try done.
    intros m0 ->. apply Z.ltb_ge in Em. lia.
Qed.

Lemma build_from_cons m pos rest s :
  build_new_events_from clock m (pos :: rest) s =
    let r1 := build_event clock m pos s in
    let r2 := build_new_events_from clock m rest r1.2 in
    (match r1.1 with Some ev => ev :: r2.1 | None => r2.1 end, r2.2).
Proof.
  simpl. destruct (build_event clock m pos s) as [ev s1]. simpl.
  by destruct (build_new_events_from clock m rest s1).
Qed.

Lemma build_from_keeps m raw s :
  _max_age (build_new_events_from clock m raw s).2.1 = _max_age s.1
  ∧ (∀ oid t0, _store s.1 !! oid = Some t0 →
       within_age clock (_max_age s.1) t0 →
       _store (build_new_events_from clock m raw s).2.1 !! oid = Some t0
       ∧ oid ∉ order_id <$> (build_new_events_from clock m raw s).1).
Proof.
  revert s. induction raw as [|pos rest IH]; intros s.
  - simpl. split; [done|]. intros oid t0 H1 H2. split; [done|].
    apply not_elem_of_nil.
  - rewrite build_from_cons. cbv zeta. cbn [fst snd].
    destruct (build_event_spec m pos s) as (Hage & Hkeep & _).
    destruct (IH (build_event clock m pos s).2) as [Hage' Hkeep'].
    split; [by rewrite Hage', Hage|].
    intros oid t0 H1 H2. destruct (Hkeep oid t0 H1 H2) as [H3 H4].
    destruct (Hkeep' oid t0 H3) as [H5 H6]; [by rewrite Hage|].
    split; [done|].
    destruct (build_event clock m pos s).1 as [ev|] eqn:E; [|done].
    rewrite fmap_cons. apply not_elem_of_cons. split; [|done].
    intros ->. by apply (H4 ev).
Qed.

Lemma build_from_dedup m raw s :
  short_call clock (_max_age s.1) →
  NoDup (order_id <$> (build_new_events_from clock m raw s).1)
  ∧ (∀ ev, ev ∈ (build_new_events_from clock m raw s).1 →
       ∃ k, _store (build_new_events_from clock m raw s).2.1 !! order_id ev
            = Some (clock k)).
Proof.
  revert s. induction raw as [|pos rest IH]; intros s Hshort.
  - simpl. split; [apply NoDup_nil_2|]. intros ev H. by apply elem_of_nil in H.
  - rewrite build_from_cons. cbv zeta. cbn [fst snd].
    destruct (build_event_spec m pos s) as (Hage & _ & Hev).
    destruct (IH (build_event clock m pos s).2) as [Hnd Hin];
      [by rewrite Hage|].
    destruct (build_from_keeps m rest (build_event clock m pos s).2)
      as [_ Hkeep].
    destruct (build_event clock m pos s).1 as [ev|] eqn:E; [|done].
    destruct (Hev ev eq_refl) as (_ & _ & _ & _ & _ & _ & _ & _ & k & Hk).
    destruct (Hkeep _ _ Hk) as [H1 H2].
    { rewrite Hage. intros n. apply Hshort. }
    split.
    + rewrite fmap_cons. by apply NoDup_cons_2.
    + intros ev' Hin'. apply elem_of_cons in Hin' as [->|Hin']; [by exists k|].
      by apply Hin.
Qed.

Lemma build_from_origin m raw s ev :
  ev ∈ (build_new_events_from clock m raw s).1 →
  ∃ pos, pos ∈ raw
    ∧ InstrumentName pos = Some SIRIX_INSTRUMENT
    ∧ OrderID pos = order_id ev ∧ order_id ev ≠ ""
    ∧ UserID pos = user_id ev
    ∧ _infer_side (ActionType pos) (OpenRate pos) (StopLoss pos)
        (TakeProfit pos) = Some (side ev)
    ∧ OpenTime pos = inr (time ev)
    ∧ AmountLots pos = inr (lots ev)
    ∧ (∀ m0, m = Some m0 → m0 <= time ev).
Proof.
  revert s. induction raw as [|pos rest IH]; intros s.
  - simpl. intros H. by apply elem_of_nil in H.
  - rewrite build_from_cons. cbv zeta. cbn [fst snd].
    destruct (build_event_spec m pos s) as (_ & _ & Hev).
    destruct (build_event clock m pos s).1 as [ev0|] eqn:E.
    + intros Hin. apply elem_of_cons in Hin as [->|Hin].
      * destruct (Hev ev0 eq_refl) as (H1 & H2 & H3 & H4 & H5 & H6 & H7 & H8 & _).
        exists pos. split; [apply list_elem_of_here|]. by repeat split.
      * destruct (IH _ Hin) as (pos' & Hp & H). exists pos'.
        split; [by apply list_elem_of_further | done].
    + intros Hin. destruct (IH _ Hin) as (pos' & Hp & H). exists pos'.
      split; [by apply list_elem_of_further | done].
Qed.

Lemma build_from_order m raw s :
  (order_id <$> (build_new_events_from clock m raw s).1)
    `sublist_of` (OrderID <$> raw).
Proof.
  revert s. induction raw as [|pos rest IH]; intros s; [done|].
  rewrite build_from_cons. cbv zeta. cbn [fst snd].
  destruct (build_event_spec m pos s) as (_ & _ & Hev).
  destruct (build_event clock m pos s).1 as [ev0|] eqn:E.
  - destruct (Hev ev0 eq_refl) as (_ & H2 & _).
    rewrite !fmap_cons, H2. apply sublist_skip, IH.
  - rewrite fmap_cons. apply sublist_cons, IH.
Qed.

Lemma build_new_events_unfold raw c m :
  build_new_events clock raw c m
  = ((build_new_events_from clock m raw (c, 0%nat)).1,
     (build_new_events_from clock m raw (c, 0%nat)).2.1).
Proof.
  unfold build_new_events.
  by destruct (build_new_events_from clock m raw (c, 0%nat)) as [evs [c' n]].
Qed.

(** within one call that lasts less than [max_age], no order identifier is
    returned twice, and every returned identifier is in the cache afterwards,
    stamped with a clock reading of the call *)
Theorem build_new_events_dedup raw c m :
  short_call clock (_max_age c) →
  NoDup (order_id <$> (build_new_events clock raw c m).1)
  ∧ (∀ ev, ev ∈ (build_new_events clock raw c m).1 →
       ∃ k, _store (build_new_events clock raw c m).2 !! order_id ev
            = Some (clock k)).
Proof.
  intros Hshort. rewrite build_new_events_unfold. cbn [fst snd].
  by apply (build_from_dedup m raw (c, 0%nat)).
Qed.

(** an identifier that is in the cache and stays within [max_age] during the
    call is not returned, and keeps its first-seen timestamp *)
Theorem build_new_events_skips_seen raw c m oid t0 :
  _store c !! oid = Some t0 →
  within_age clock (_max_age c) t0 →
  (oid ∉ order_id <$> (build_new_events clock raw c m).1)
  ∧ _store (build_new_events clock raw c m).2 !! oid = Some t0.
Proof.
  intros Hs Hage. rewrite build_new_events_unfold. cbn [fst snd].
  destruct (build_from_keeps m raw (c, 0%nat)) as [_ Hkeep].
  destruct (Hkeep oid t0 Hs Hage). by split.
Qed.

(** every returned event stems from a record of the traded instrument with
    a non-empty order identifier, carries that record's identifier, user,
    inferred side, parsed open time and lots, and is not older than
    [min_open_time] when one is given; the events keep the order of the
    records *)
Theorem build_new_events_origin raw c m :
  (∀ ev, ev ∈ (build_new_events clock raw c m).1 →
     ∃ pos, pos ∈ raw
       ∧ InstrumentName pos = Some SIRIX_INSTRUMENT
       ∧ OrderID pos = order_id ev ∧ order_id ev ≠ ""
       ∧ UserID pos = user_id ev
       ∧ _infer_side (ActionType pos) (OpenRate pos) (StopLoss pos)
           (TakeProfit pos) = Some (side ev)
       ∧ OpenTime pos = inr (time ev)
       ∧ AmountLots pos = inr (lots ev)
       ∧ (∀ m0, m = Some m0 → m0 <= time ev))
  ∧ (order_id <$> (build_new_events clock raw c m).1)
      `sublist_of` (OrderID <$> raw).
Proof.
  rewrite build_new_events_unfold. cbn [fst snd]. split.
  - intros ev. apply build_from_origin.
  - apply build_from_order.
Qed.

Lemma bootstrap_lookup ts ids c oid :
  oid ∈ ids → _store (bootstrap ts ids c) !! oid = Some ts.
Proof.
  unfold bootstrap. simpl. generalize (_store c).
  induction ids as [|i rest IH] using rev_ind; intros st Hin.
  - by apply elem_of_nil in Hin.
  - rewrite foldl_snoc. apply elem_of_app in Hin as [Hin|Hin].
    + destruct (decide (i = oid)) as [->|Hne]; [apply lookup_insert_eq|].
      rewrite lookup_insert_ne by done. by apply IH.
    + apply list_elem_of_singleton in Hin as ->. apply lookup_insert_eq.
Qed.

(** the orders that are open when the bot starts are never turned into
    events: an identifier given to [bootstrap] is not returned by
    [build_new_events] as long as the bootstrap is not older than [max_age] *)
Theorem bootstrap_orders_ignored ts ids raw c m oid :
  oid ∈ ids →
  within_age clock (_max_age c) ts →
  oid ∉ (order_id <$> (build_new_events clock raw (bootstrap ts ids c) m).1).
Proof.
  intros Hin Hage. rewrite build_new_events_unfold. cbn [fst snd].
  destruct (build_from_keeps m raw (bootstrap ts ids c, 0%nat)) as [_ Hkeep].
  by destruct (Hkeep oid ts (bootstrap_lookup ts ids c oid Hin) Hage).
Qed.

End EventBuilding.

(** ** Loops that pop from a dictionary *)

Section DictLoops.

Context {A B : Type}.

Implicit Types (d : gmap Z A) (cond : Z → A → bool).

Lemma pop_all_lookup {C} (ks : list Z) (m : gmap Z C) k :
  Py.pop_all ks m !! k = if decide (k ∈ ks) then None else m !! k.
Proof.
  unfold Py.pop_all. revert m. induction ks as [|a ks IH]; intros m.
  - destruct (decide (k ∈ [])) as [Hin|_]; [by apply elem_of_nil in Hin | done].
  - cbn [foldl]. rewrite IH. destruct (decide (k ∈ ks)) as [Hin|Hnin].
    + rewrite decide_True; [done | by apply list_elem_of_further].
    + destruct (decide (a = k)) as [->|Hne].
      * rewrite decide_True by apply list_elem_of_here. apply lookup_delete_eq.
      * rewrite decide_False.
        -- by apply lookup_delete_ne.
        -- intros Hin. apply elem_of_cons in Hin as [?|?]; congruence.
Qed.

Lemma pop_where_pop_all cond (items : list (Z * A)) d :
  foldl (fun acc kv => if cond kv.1 kv.2 then delete kv.1 acc else acc) d items
  = Py.pop_all (filter (fun kv => cond kv.1 kv.2 = true) items).*1 d.
Proof.
  revert d. induction items as [|[k v] items IH]; intros d; [done|].
  simpl. rewrite IH, filter_cons. simpl.
  destruct (cond k v); [rewrite decide_True by done | rewrite decide_False by done];
    reflexivity.
Qed.

Lemma pop_both_pop_all cond (items : list (Z * A)) d (d' : gmap Z B) :
  foldl (fun acc kv =>
           if cond kv.1 kv.2
           then (delete kv.1 acc.1, delete kv.1 acc.2) else acc)
        (d, d') items
  = (Py.pop_all (filter (fun kv => cond kv.1 kv.2 = true) items).*1 d,
     Py.pop_all (filter (fun kv => cond kv.1 kv.2 = true) items).*1 d').
Proof.
  revert d d'. induction items as [|[k v] items IH]; intros d d'; [done|].
  simpl. rewrite filter_cons. simpl.
  destruct (cond k v); [rewrite decide_True by done | rewrite decide_False by done];
    by rewrite IH.
Qed.

Lemma popped_key cond d k :
  k ∈ (filter (fun kv => cond kv.1 kv.2 = true) (map_to_list d)).*1
  ↔ ∃ v, d !! k = Some v ∧ cond k v = true.
Proof.
  rewrite list_elem_of_fmap. split.
  - intros ([k' v] & -> & Hin). apply list_elem_of_filter in Hin as [Hc Hin].
    apply elem_of_map_to_list in Hin. by exists v.
  - intros (v & Hv & Hc). exists (k, v). split; [done|].
    apply list_elem_of_filter. split; [done|]. by apply elem_of_map_to_list.
Qed.

(** the loop removes exactly the entries that meet the condition *)
Lemma pop_where_lookup cond d k :
  Py.pop_where cond d !! k =
    match d !! k with
    | Some v => if cond k v then None else Some v
    | None => None
    end.
Proof.
  unfold Py.pop_where. rewrite pop_where_pop_all, pop_all_lookup.
  destruct (decide _) as [Hin|Hnin].
  - apply popped_key in Hin as (v & -> & ->). done.
  - destruct (d !! k) as [v|] eqn:E; [|done].
    destruct (cond k v) eqn:Ec; [|done].
    exfalso. apply Hnin, popped_key. by exists v.
Qed.

Lemma pop_both_where_lookup cond d (d' : gmap Z B) k :
  (Py.pop_both_where cond d d').1 !! k = Py.pop_where cond d !! k
  ∧ (Py.pop_both_where cond d d').2 !! k =
      match d !! k with
      | Some v => if cond k v then None else d' !! k
      | None => d' !! k
      end.
Proof.
  unfold Py.pop_both_where, Py.pop_where.
  rewrite pop_both_pop_all, pop_where_pop_all. simpl. split; [done|].
  rewrite pop_all_lookup. destruct (decide _) as [Hin|Hnin].
  - apply popped_key in Hin as (v & -> & ->). done.
  - destruct (d !! k) as [v|] eqn:E; [|done].
    destruct (cond k v) eqn:Ec; [|done].
    exfalso. apply Hnin, popped_key. by exists v.
Qed.

Lemma keys_elem d k : k ∈ Py.keys d ↔ is_Some (d !! k).
Proof.
  unfold Py.keys. rewrite list_elem_of_fmap. split.
  - intros ([k' v] & -> & Hin). apply elem_of_map_to_list in Hin. by exists v.
  - intros [v Hv]. exists (k, v). split; [done|]. by apply elem_of_map_to_list.
Qed.

Lemma pop_all_keys d : Py.pop_all (Py.keys d) d = ∅.
Proof.
  apply map_eq. intros k. rewrite pop_all_lookup, lookup_empty.
  destruct (decide _) as [Hin|Hnin]; [done|].
  destruct (d !! k) as [v|] eqn:E; [|done].
  exfalso. apply Hnin, keys_elem. by exists v.
Qed.

End DictLoops.

(** ** Pending orders and time exits *)

Section PendingAndExits.

Import Chandelier.

Implicit Types (st : StrategyState).

(** the pending order is still at the terminal and younger than the time to
    live *)
Lemma manage_pending_orders_lookup mt5_orders now st t :
  let st' := manage_pending_orders mt5_orders now st in
  let keep c :=
    bool_decide (t ∈ active_tickets mt5_orders (magic (config st)))
    && (now - c <? timedelta_minutes Config.PENDING_ORDER_TIMEOUT_MIN) in
  pending_orders st' !! t =
    match pending_orders st !! t with
    | Some c => if keep c then Some c else None
    | None => None
    end
  ∧ pending_meta st' !! t =
      match pending_orders st !! t with
      | Some c => if keep c then pending_meta st !! t else None
      | None => pending_meta st !! t
      end.
Proof.
  cbv zeta. unfold manage_pending_orders.
  set (active := active_tickets mt5_orders (magic (config st))).
  destruct (bool_decide (pending_orders st = ∅)) eqn:E0.
  { apply bool_decide_eq_true in E0. by rewrite E0, lookup_empty. }
  destruct (pop_both_where_lookup
              (fun ticket (_ : datetime) => bool_decide (ticket ∉ active))
              (pending_orders st) (pending_meta st) t) as [H1 H2].
  rewrite pop_where_lookup in H1.
  set (pass1 := Py.pop_both_where _ (pending_orders st) (pending_meta st)) in *.
  destruct (bool_decide (pass1.1 = ∅)) eqn:E1.
  - apply bool_decide_eq_true in E1. cbn [pending_orders pending_meta set_pending].
    rewrite H2. rewrite E1, lookup_empty in H1 |- *.
    destruct (pending_orders st !! t) as [c|]; [|done].
    destruct (decide (t ∈ active)) as [Hin|Hnin].
    + rewrite bool_decide_false in H1 by (intros ?; done). done.
    + rewrite (bool_decide_true (t ∉ active)) by done.
      rewrite (bool_decide_false (t ∈ active)) by done. done.
  - destruct (pop_both_where_lookup
                (fun (_ : Z) created_at => ttl_reached now created_at)
                pass1.1 pass1.2 t) as [H3 H4].
    rewrite pop_where_lookup in H3.
    cbn [pending_orders pending_meta set_pending].
    rewrite H3, H4, H1, H2. unfold ttl_reached.
    destruct (pending_orders st !! t) as [c|]; [|done].
    destruct (decide (t ∈ active)) as [Hin|Hnin].
    + rewrite (bool_decide_false (t ∉ active)) by (intros ?; done).
      rewrite (bool_decide_true (t ∈ active)) by done. simpl.
      by destruct (now - c <? _).
    + rewrite (bool_decide_true (t ∉ active)) by done.
      rewrite (bool_decide_false (t ∈ active)) by done. done.
Qed.

(** after [manage_pending_orders] the local pending orders are exactly the
    earlier ones that are still pending at the terminal under the engine's
    magic number and younger than the time to live; the metadata of a
    dropped order is dropped with it, that of the others is kept; positions,
    detector and cooldown are not touched *)
Theorem manage_pending_orders_keeps_live mt5_orders now st :
  let st' := manage_pending_orders mt5_orders now st in
  (∀ t c,
     pending_orders st' !! t = Some c
     ↔ pending_orders st !! t = Some c
       ∧ t ∈ active_tickets mt5_orders (magic (config st))
       ∧ now - c < timedelta_minutes Config.PENDING_ORDER_TIMEOUT_MIN)
  ∧ (∀ t, is_Some (pending_orders st !! t) →
       pending_orders st' !! t = None → pending_meta st' !! t = None)
  ∧ (∀ t, pending_orders st' !! t = pending_orders st !! t →
       pending_meta st' !! t = pending_meta st !! t)
  ∧ open_positions st' = open_positions st
  ∧ cluster_engine st' = cluster_engine st
  ∧ cooldown_until_utc st' = cooldown_until_utc st.
Proof.
  cbv zeta. split; [|split; [|split]].
  - intros t c.
    destruct (manage_pending_orders_lookup mt5_orders now st t) as [-> _].
    destruct (pending_orders st !! t) as [c0|]; [|naive_solver].
    destruct (bool_decide _) eqn:Ea; simpl.
    + apply bool_decide_eq_true in Ea.
      destruct (Z.ltb_spec (now - c0)
                  (timedelta_minutes Config.PENDING_ORDER_TIMEOUT_MIN)).
      * split; [intros [= <-]; done | by intros [[= <-] _]].
      * split; [done | intros [[= <-] [_ ?]]; lia].
    + apply bool_decide_eq_false in Ea. split; [done | intros [_ [? _]]; done].
  - intros t [c Hc].
    destruct (manage_pending_orders_lookup mt5_orders now st t) as [-> ->].
    rewrite Hc. by destruct (_ && _).
  - intros t.
    destruct (manage_pending_orders_lookup mt5_orders now st t) as [-> ->].
    destruct (pending_orders st !! t) as [c|]; [|done].
    by destruct (_ && _).
  - unfold manage_pending_orders.
    destruct (bool_decide (pending_orders st = ∅)); [done|].
    by destruct (bool_decide (_ = ∅)).
Qed.

(** with time exits enabled, [manage_time_exits] leaves exactly the
    positions held for less than [hold_minutes], each unchanged; otherwise
    it leaves the state as it is *)
Theorem manage_time_exits_drops_old now st :
  let cfg := config st in
  let st' := manage_time_exits now st in
  (use_time_exit cfg = true → 0 < hold_minutes cfg →
   ∀ t p, open_positions st' !! t = Some p
          ↔ open_positions st !! t = Some p
            ∧ now - entry_time p < timedelta_minutes (hold_minutes cfg))
  ∧ (use_time_exit cfg = false ∨ hold_minutes cfg <= 0 → st' = st)
  ∧ pending_orders st' = pending_orders st
  ∧ pending_meta st' = pending_meta st
  ∧ cluster_engine st' = cluster_engine st.
Proof.
  cbv zeta. unfold manage_time_exits. split; [|split].
  - intros Hu Hh t p. rewrite Hu. simpl.
    destruct (Z.leb_spec (hold_minutes (config st)) 0); [lia|].
    simpl. rewrite pop_where_lookup. unfold held_long_enough.
    destruct (open_positions st !! t) as [p0|]; [|naive_solver].
    destruct (Z.leb_spec (timedelta_minutes (hold_minutes (config st)))
                (now - entry_time p0)).
    + split; [done | intros [[= <-] ?]; lia].
    + split; [intros [= <-]; done | by intros [[= <-] _]].
  - intros [Hu|Hh].
    + by rewrite Hu.
    + destruct (negb _); [done|].
      by destruct (Z.leb_spec (hold_minutes (config st)) 0); [|lia].
  - by destruct (_ || _).
Qed.

End PendingAndExits.

(** ** Synchronisation with the terminal *)

Section Refresh.

Implicit Types (st : StrategyState) (cfg : StrategyConfig)
  (poss : option (list MT5Position)).

Lemma get_positions_list_Some l cfg t info :
  get_positions_for_strategy (Some l) cfg !! t = Some info →
  ∃ p, p ∈ l ∧ pos_magic p = magic cfg
       ∧ pos_ticket p = t ∧ info = position_info p.
Proof.
  simpl. revert info.
  induction l as [|p l IH] using rev_ind; intros info.
  - simpl. by rewrite lookup_empty.
  - rewrite foldl_snoc.
    destruct (Z.eqb_spec (pos_magic p) (magic cfg)) as [Hm|Hm].
    + destruct (decide (pos_ticket p = t)) as [<-|Hne].
      * rewrite lookup_insert_eq. intros [= <-]. exists p.
        split; [|done]. apply elem_of_app. right. apply list_elem_of_here.
      * rewrite lookup_insert_ne by done. intros H.
        destruct (IH _ H) as (p' & ? & ?). exists p'.
        split; [|done]. apply elem_of_app. by left.
    + intros H. destruct (IH _ H) as (p' & ? & ?). exists p'.
      split; [|done]. apply elem_of_app. by left.
Qed.

Lemma get_positions_lookup_Some poss cfg t info :
  get_positions_for_strategy poss cfg !! t = Some info →
  ∃ l p, poss = Some l ∧ p ∈ l ∧ pos_magic p = magic cfg
         ∧ pos_ticket p = t ∧ info = position_info p.
Proof.
  destruct poss as [l|]; [|simpl; by rewrite lookup_empty].
  intros H. destruct (get_positions_list_Some _ _ _ _ H) as (p & ?).
  by exists l, p.
Qed.

Lemma get_positions_lookup_is_Some l cfg p :
  p ∈ l → pos_magic p = magic cfg →
  is_Some (get_positions_for_strategy (Some l) cfg !! pos_ticket p).
Proof.
  simpl. induction l as [|q l IH] using rev_ind; intros Hin Hm.
  - by apply elem_of_nil in Hin.
  - rewrite foldl_snoc. apply elem_of_app in Hin as [Hin|Hin].
    + destruct (pos_magic q =? magic cfg); [|by apply IH].
      destruct (decide (pos_ticket q = pos_ticket p)) as [->|Hne].
      * rewrite lookup_insert_eq. by eexists.
      * rewrite lookup_insert_ne by done. by apply IH.
    + apply list_elem_of_singleton in Hin as ->.
      apply Z.eqb_eq in Hm. rewrite Hm, lookup_insert_eq. by eexists.
Qed.

Lemma refresh_lookup poss now st t :
  open_positions (refresh_and_log_closes poss now st) !! t =
    (fun cur =>
       merge_info (open_positions st) t
         (fill_info (open_positions st) (pending_meta st) t cur))
      <$> get_positions_for_strategy poss (config st) !! t.
Proof.
  unfold refresh_and_log_closes. simpl. rewrite !map_lookup_imap.
  by destruct (get_positions_for_strategy poss (config st) !! t).
Qed.

(** after [refresh_and_log_closes] the tracked positions are exactly the
    terminal's positions with the engine's magic number, with the stop,
    target, entry and direction the terminal reports; a position that was
    tracked before keeps its initial stop, its trade mode and its breakeven
    flag *)
Theorem refresh_tracks_live poss now st :
  let st' := refresh_and_log_closes poss now st in
  (∀ t, is_Some (open_positions st' !! t)
        ↔ ∃ l p, poss = Some l ∧ p ∈ l
                 ∧ pos_magic p = magic (config st) ∧ pos_ticket p = t)
  ∧ (∀ t p', open_positions st' !! t = Some p' →
       ∃ cur, get_positions_for_strategy poss (config st) !! t = Some cur
              ∧ sl_price p' = sl_price cur ∧ tp_price p' = tp_price cur
              ∧ entry_price p' = entry_price cur
              ∧ entry_time p' = entry_time cur
              ∧ direction p' = direction cur)
  ∧ (∀ t p p', open_positions st !! t = Some p →
       open_positions st' !! t = Some p' →
       initial_sl_price p' = initial_sl_price p
       ∧ trade_mode p' = trade_mode p
       ∧ breakeven_hit p' = breakeven_hit p).
Proof.
  cbv zeta. split; [|split].
  - intros t. rewrite refresh_lookup, fmap_is_Some. split.
    + intros [info H].
      destruct (get_positions_lookup_Some _ _ _ _ H) as (l & p & ? & ? & ? & ? & _).
      by exists l, p.
    + intros (l & p & -> & Hin & Hm & <-).
      by apply get_positions_lookup_is_Some.
  - intros t p'. rewrite refresh_lookup.
    destruct (get_positions_for_strategy poss (config st) !! t) as [cur|];
      [|done].
    simpl. intros [= <-]. exists cur. split; [done|].
    unfold merge_info, fill_info.
    destruct (open_positions st !! t), (pending_meta st !! t); done.
  - intros t p p' Hp. rewrite refresh_lookup.
    destruct (get_positions_for_strategy poss (config st) !! t) as [cur|];
      [|done].
    simpl. intros [= <-]. unfold merge_info. by rewrite Hp.
Qed.

Lemma new_tickets_elem (prev curr : gmap Z BotPositionInfo) t :
  t ∈ filter (fun ticket => prev !! ticket = None) (Py.keys curr)
  ↔ is_Some (curr !! t) ∧ prev !! t = None.
Proof. rewrite list_elem_of_filter, keys_elem. tauto. Qed.

(** a live position that was not tracked before is taken up as a fill: its
    initial stop is the stop the terminal reports, its trade mode that of
    its pending order (inverse without one) and its breakeven flag is off;
    the local records of the pending order are dropped, the detector is
    reset and the cooldown restarts.  When every live position was already
    tracked, pending orders, detector and cooldown stay as they are. *)
Theorem refresh_takes_up_fills poss now st :
  let st' := refresh_and_log_closes poss now st in
  let curr := get_positions_for_strategy poss (config st) in
  (∀ t cur, curr !! t = Some cur → open_positions st !! t = None →
     (∃ p', open_positions st' !! t = Some p'
            ∧ initial_sl_price p' = sl_price cur
            ∧ breakeven_hit p' = false
            ∧ trade_mode p' =
                match pending_meta st !! t with
                | Some meta => meta_trade_mode meta
                | None => inverse
                end)
     ∧ pending_orders st' !! t = None
     ∧ pending_meta st' !! t = None
     ∧ cluster_engine st' = reset_cluster (cluster_engine st)
     ∧ cooldown_until_utc st' =
         Some (now + timedelta_seconds Config.TRADE_COOLDOWN_SECONDS))
  ∧ ((∀ t, is_Some (curr !! t) → is_Some (open_positions st !! t)) →
     pending_orders st' = pending_orders st
     ∧ pending_meta st' = pending_meta st
     ∧ cluster_engine st' = cluster_engine st
     ∧ cooldown_until_utc st' = cooldown_until_utc st).
Proof.
  cbv zeta. split.
  - intros t cur Hcur Hprev.
    assert (t ∈ filter (fun ticket => open_positions st !! ticket = None)
                  (Py.keys (get_positions_for_strategy poss (config st)))) as Hnew.
    { apply new_tickets_elem. split; [by eexists | done]. }
    split; [|split; [|split; [|split]]].
    + eexists. rewrite refresh_lookup, Hcur. simpl. split; [reflexivity|].
      unfold merge_info, fill_info. rewrite Hprev.
      destruct (get_positions_lookup_Some _ _ _ _ Hcur)
        as (l & p & _ & _ & _ & _ & ->).
      by destruct (pending_meta st !! t).
    + unfold refresh_and_log_closes. simpl.
      rewrite pop_all_lookup. by rewrite decide_True.
    + unfold refresh_and_log_closes. simpl.
      rewrite pop_all_lookup. by rewrite decide_True.
    + unfold refresh_and_log_closes. simpl.
      rewrite bool_decide_false; [done|]. intros E. rewrite E in Hnew.
      by apply elem_of_nil in Hnew.
    + unfold refresh_and_log_closes. simpl.
      rewrite bool_decide_false; [done|]. intros E. rewrite E in Hnew.
      by apply elem_of_nil in Hnew.
  - intros Hall.
    assert (filter (fun ticket => open_positions st !! ticket = None)
              (Py.keys (get_positions_for_strategy poss (config st))) = []) as E.
    { destruct (filter _ _) as [|t rest] eqn:E; [done|]. exfalso.
      assert (t ∈ t :: rest) as Hin by apply list_elem_of_here.
      rewrite <- E in Hin. apply new_tickets_elem in Hin as [H1 H2].
      apply Hall in H1 as [? H1]. congruence. }
    unfold refresh_and_log_closes. simpl. rewrite E. done.
Qed.

End Refresh.

(** ** Invariants of the order lifecycle *)

Section Lifecycle.

Import Chandelier Main.

Context {DF : Type}.

Implicit Types (st : StrategyState) (c : Call DF) (cs : list (Call DF)).

(** [entry_step] leaves the positions alone and either leaves the pending
    records alone or, from no pending order, records one new ticket in both *)
Lemma entry_step_pending (env : EntryEnv DF) st batch now :
  let st' := entry_step env st batch now in
  open_positions st' = open_positions st
  ∧ ((pending_orders st' = pending_orders st
      ∧ pending_meta st' = pending_meta st)
     ∨ (has_pending st = false
        ∧ ∃ ticket meta,
            pending_orders st' = <[ ticket := created_at_utc meta ]> (pending_orders st)
            ∧ pending_meta st' = <[ ticket := meta ]> (pending_meta st)
            ∧ cooldown_until_utc st' =
                Some (now + timedelta_seconds Config.TRADE_COOLDOWN_SECONDS))).
Proof.
  cbv zeta. unfold entry_step, _log_cooldown.
  destruct (at_capacity st); [by auto|].
  destruct (has_pending st) eqn:Ep; [by auto|].
  destruct (_in_cooldown st now); [by auto|].
  destruct (within_session env); [|by auto].
  simpl.
  destruct (ClusterEngine.add_events (cluster_engine st) batch) as [[s|] eng];
    simpl; [|by auto].
  destruct (decide_direction _ _ _) as [[e|[side mode]] l]; [by auto|].
  destruct (place_pending_entry env side mode) as [[ticket meta]|]; [|by auto].
  simpl. split; [done|]. right. split; [done|]. by exists ticket, meta.
Qed.

Lemma has_pending_false st : has_pending st = false → pending_orders st = ∅.
Proof.
  unfold has_pending. intros H. apply Z.ltb_ge in H.
  apply map_size_empty_iff. lia.
Qed.

Lemma pop_all_subseteq {C} (ks : list Z) (m : gmap Z C) : Py.pop_all ks m ⊆ m.
Proof.
  apply map_subseteq_spec. intros k v. rewrite pop_all_lookup.
  by destruct (decide _).
Qed.

Lemma pending_consistent_call st c :
  pending_consistent st → pending_consistent (call st c).
Proof.
  intros [Hdom Hsize]. destruct c as [poss now|orders now|env batch now|env|now|];
    simpl.
  - (* refresh *)
    unfold Execution.refresh_and_log_closes, pending_consistent. simpl. split.
    + apply set_eq. intros k. rewrite !elem_of_dom, !pop_all_lookup.
      destruct (decide _); [by split; intros [? ?]|].
      by rewrite <- !elem_of_dom, Hdom.
    + etrans; [|exact Hsize]. apply map_subseteq_size, pop_all_subseteq.
  - (* manage_pending_orders *)
    split.
    + apply set_eq. intros k. rewrite !elem_of_dom.
      destruct (manage_pending_orders_lookup orders now st k) as [-> ->].
      destruct (pending_orders st !! k) as [created|] eqn:E.
      * destruct (_ && _); [|by split; intros [? ?]].
        rewrite <- !elem_of_dom, Hdom, elem_of_dom, E.
        split; intros _; by eexists.
      * rewrite <- elem_of_dom, Hdom, elem_of_dom, E. by split; intros [? ?].
    + etrans; [|exact Hsize]. apply map_subseteq_size, map_subseteq_spec.
      intros k v.
      destruct (manage_pending_orders_lookup orders now st k) as [-> _].
      destruct (pending_orders st !! k); [|done]. by destruct (_ && _).
  - (* entry_step *)
    destruct (entry_step_pending env st batch now) as [_ [[Ho Hm]|(Hp & t & meta & Ho & Hm & _)]];
      unfold pending_consistent.
    + by rewrite Ho, Hm.
    + rewrite Ho, Hm. apply has_pending_false in Hp.
      rewrite Hp in Hdom |- *. apply dom_empty_inv_L in Hdom. rewrite Hdom.
      rewrite !insert_empty, !dom_singleton_L, map_size_singleton. done.
  - (* manage_trailing_stops *)
    unfold manage_trailing_stops, pending_consistent.
    destruct (_ || _); [done|]. by destruct (rates env).
  - (* manage_time_exits *)
    unfold manage_time_exits, pending_consistent. by destruct (_ || _).
  - (* flatten_all *)
    unfold flatten_engine, pending_consistent. simpl.
    rewrite (pop_all_keys (pending_orders st)). split; [|rewrite map_size_empty; lia].
    rewrite dom_empty_L. apply set_eq. intros k.
    rewrite elem_of_dom, pop_all_lookup.
    destruct (decide (k ∈ Py.keys (pending_orders st))) as [Hin|Hnin].
    + split; [by intros [? ?] | by intros ?%elem_of_empty].
    + rewrite <- elem_of_dom, Hdom, elem_of_dom, <- keys_elem.
      split; [done | by intros ?%elem_of_empty].
Qed.

(** through any sequence of the calls the main loop makes on an engine
    (refresh, pending management, entry step, trailing, time exits, flatten),
    the two local records of pending orders hold the same tickets and there
    is never more than one pending order *)
Theorem pending_records_consistent st cs :
  pending_consistent st → pending_consistent (calls st cs).
Proof.
  revert st. induction cs as [|c cs IH]; intros st H; [done|].
  simpl. by apply IH, pending_consistent_call.
Qed.

Lemma breakeven_keeps cfg sym open_R info :
  let info' := breakeven cfg sym open_R info in
  initial_sl_price info' = initial_sl_price info
  ∧ trade_mode info' = trade_mode info
  ∧ (breakeven_hit info = true → breakeven_hit info' = true).
Proof.
  cbv zeta. unfold breakeven.
  destruct (breakeven_trigger_R cfg); [|done].
  destruct (_ && _); [|done].
  by destruct (match direction info with buy => _ | sell => _ end).
Qed.

Lemma chandelier_trail_keeps cfg sym bars open_R info :
  let info' := chandelier_trail cfg sym bars open_R info in
  initial_sl_price info' = initial_sl_price info
  ∧ trade_mode info' = trade_mode info
  ∧ breakeven_hit info' = breakeven_hit info.
Proof.
  cbv zeta. unfold chandelier_trail.
  destruct (match trail_start_R cfg with Some _ => _ | None => _ end); [done|].
  destruct (match direction info with buy => _ || _ | sell => _ || _ end);
    [done|].
  by destruct (Py.Qltb _ _).
Qed.

Lemma trail_position_keeps cfg sym bars info :
  let info' := trail_position cfg sym bars info in
  initial_sl_price info' = initial_sl_price info
  ∧ trade_mode info' = trade_mode info
  ∧ (breakeven_hit info = true → breakeven_hit info' = true).
Proof.
  cbv zeta. unfold trail_position.
  destruct (_ <=? _); [done|]. destruct (Qle_bool _ 0); [done|].
  set (open_R := match direction info with buy => _ | sell => _ end).
  destruct (breakeven_keeps cfg sym open_R info) as (H1 & H2 & H3).
  destruct (chandelier_trail_keeps cfg sym bars open_R
              (breakeven cfg sym open_R info)) as (H4 & H5 & H6).
  rewrite H4, H5, H6. by split; [|split].
Qed.

Lemma call_keeps_position st c t p p' :
  open_positions st !! t = Some p →
  open_positions (call st c) !! t = Some p' →
  initial_sl_price p' = initial_sl_price p
  ∧ trade_mode p' = trade_mode p
  ∧ (breakeven_hit p = true → breakeven_hit p' = true).
Proof.
  intros Hp. destruct c as [poss now|orders now|env batch now|env|now|];
    cbn [call].
  - rewrite refresh_lookup.
    destruct (Execution.get_positions_for_strategy poss (config st) !! t);
      [|done].
    simpl. intros [= <-]. unfold Execution.merge_info. by rewrite Hp.
  - unfold manage_pending_orders.
    destruct (bool_decide (pending_orders st = ∅));
      [|destruct (bool_decide (_ = ∅))]; simpl; rewrite Hp; by intros [= <-].
  - destruct (entry_step_pending env st batch now) as [-> _].
    rewrite Hp. by intros [= <-].
  - unfold manage_trailing_stops.
    destruct (_ || _); [rewrite Hp; by intros [= <-]|].
    destruct (rates env) as [bars|]; [|rewrite Hp; by intros [= <-]].
    simpl. rewrite map_lookup_imap, Hp. simpl.
    destruct (position_live env t); [|done].
    intros [= <-]. apply trail_position_keeps.
  - unfold manage_time_exits.
    destruct (_ || _); [rewrite Hp; by intros [= <-]|].
    simpl. rewrite pop_where_lookup, Hp.
    destruct (held_long_enough _ _ _); [done | by intros [= <-]].
  - unfold flatten_engine. simpl. by rewrite pop_all_keys, lookup_empty.
Qed.

(** for a position that stays tracked through a sequence of calls, the
    initial stop and the trade mode never change, and the breakeven flag,
    once set, stays set *)
Theorem tracked_position_keeps_initial_stop st cs t p :
  open_positions st !! t = Some p →
  tracked_along t st cs →
  ∃ p', open_positions (calls st cs) !! t = Some p'
        ∧ initial_sl_price p' = initial_sl_price p
        ∧ trade_mode p' = trade_mode p
        ∧ (breakeven_hit p = true → breakeven_hit p' = true).
Proof.
  revert st p. induction cs as [|c cs IH]; intros st p Hp Htr.
  - exists p. by repeat split.
  - simpl in *. destruct Htr as [[p1 Hp1] Htr].
    destruct (call_keeps_position st c t p p1 Hp Hp1) as (H1 & H2 & H3).
    destruct (IH _ _ Hp1 Htr) as (p' & Hp' & H4 & H5 & H6).
    exists p'. split; [done|]. rewrite H4, H5. repeat split; try done.
    intros Hb. by apply H6, H3.
Qed.

End Lifecycle.

(** ** Placing the pending entry *)

Section Placing.

Implicit Types (env : PlaceEnv) (cfg : StrategyConfig).

(** an order is reported as placed only when the terminal answered the
    request with the return code DONE, and the ticket is the one of that
    answer.  The request carries the engine's magic number and a limit type
    matching the side; its price is the recorded pending price, which lies
    [offset_dollars] below the bid for a buy and above the ask for a sell, to
    within half a point; its volume is positive and, when the volume limits
    are ordered, within them.  The metadata records the side, the mode, the
    mid price of the quote and the time of placing. *)
Theorem place_pending_entry_offsets env side cfg offset mode ticket meta :
  point_is_last_digit (symbol env) →
  place_pending_entry env side cfg offset mode = Some (ticket, meta) →
  ∃ bid ask req,
    quote env = Some (bid, ask)
    ∧ order_send env req = Some (TRADE_RETCODE_DONE, ticket)
    ∧ req_price req = pending_price meta
    ∧ req_magic req = magic cfg
    ∧ req_type req =
        match side with
        | buy => ORDER_TYPE_BUY_LIMIT | sell => ORDER_TYPE_SELL_LIMIT
        end
    ∧ match side with
      | buy => (Qabs (pending_price meta - (bid - offset))
                <= point (symbol env) * (1 # 2))%Q
      | sell => (Qabs (pending_price meta - (ask + offset))
                 <= point (symbol env) * (1 # 2))%Q
      end
    ∧ (0 < req_volume req)%Q
    ∧ ((Risk.volume_min (volumes env) <= Risk.volume_max (volumes env))%Q →
       (Risk.volume_min (volumes env) <= req_volume req
        ∧ req_volume req <= Risk.volume_max (volumes env))%Q)
    ∧ market_price meta = ((bid + ask) / 2)%Q
    ∧ trade_side meta = side
    ∧ meta_trade_mode meta = mode
    ∧ created_at_utc meta = placed_at env.
Proof.
  intros Hp. unfold place_pending_entry.
  destruct (quote env) as [[bid ask]|]; [|done].
  destruct (calc_sl_tp _ _ _ _ _) as [sl tp].
  destruct (Qle_bool _ 0) eqn:El; [done|].
  destruct (enforce_stop_level _ _ _ _ _) as [sl' tp'].
  destruct (order_send env _) as [[retcode order]|] eqn:Es; [|done].
  destruct (Z.eqb_spec retcode TRADE_RETCODE_DONE) as [->|]; [|done].
  cbn [negb]. intros [= <- <-]. exists bid, ask. eexists.
  split; [done|]. split; [exact Es|].
  cbn [req_price req_magic req_type req_volume pending_price market_price
       trade_side meta_trade_mode created_at_utc].
  split; [done|]. split; [done|]. split; [by destruct side|].
  split; [destruct side; (apply round_price_near; [done | reflexivity])|].
  split; [by apply Qle_bool_false|].
  split; [apply calc_lot_size_range | done].
Qed.

End Placing.

(** ** The entry step *)

Section EntryMore.

Import ClusterEngine Chandelier.

Context {DF : Type}.

Implicit Types (env : EntryEnv DF) (st : StrategyState).

(** [entry_step] records a pending order only in a tick in which the four
    gates are open and the detector signals: then the ticket is the one
    returned by the placing for the decided side and mode, and the cooldown
    starts.  With a gate closed or without a signal, the pending records and
    the cooldown stay as they are; the open positions are never touched. *)
Theorem entry_step_places_only_on_signal env st batch now :
  let st' := entry_step env st batch now in
  let signal := (add_events (cluster_engine st) batch).1 in
  open_positions st' = open_positions st
  ∧ (gates_open env st now = false ∨ signal = None →
     pending_orders st' = pending_orders st
     ∧ pending_meta st' = pending_meta st
     ∧ cooldown_until_utc st' = cooldown_until_utc st)
  ∧ (pending_orders st' ≠ pending_orders st →
     gates_open env st now = true
     ∧ ∃ s side mode ticket meta,
         signal = Some s
         ∧ (decide_direction (feed env) s (config st)).1 = inr (side, mode)
         ∧ place_pending_entry env side mode = Some (ticket, meta)
         ∧ pending_orders st' = <[ ticket := created_at_utc meta ]> (pending_orders st)
         ∧ pending_meta st' = <[ ticket := meta ]> (pending_meta st)
         ∧ cooldown_until_utc st' =
             Some (now + timedelta_seconds Config.TRADE_COOLDOWN_SECONDS)).
Proof.
  cbv zeta. unfold gates_open, entry_step, _log_cooldown.
  destruct (at_capacity st); [by repeat split|].
  destruct (has_pending st); [by repeat split|].
  destruct (_in_cooldown st now); [by repeat split|].
  destruct (within_session env); [|by repeat split].
  simpl.
  destruct (add_events (cluster_engine st) batch) as [[s|] eng]; simpl;
    [|by repeat split].
  destruct (decide_direction _ _ _) as [[e|[side mode]] l] eqn:Ed;
    [split; [done|]; split; [by intros [?|?]| done]|].
  destruct (place_pending_entry env side mode) as [[ticket meta]|] eqn:Epl;
    [|split; [done|]; split; [by intros [?|?]| done]].
  simpl. split; [done|]. split; [by intros [?|?]|].
  intros _. split; [done|]. exists s, side, mode, ticket, meta.
  by rewrite Ed.
Qed.

End EntryMore.

(** ** One iteration of the main loop *)

Section Iteration.

Import Main.

Context {DF : Type}.

Implicit Types (env : TickEnv DF) (ls : LoopState).

Lemma flatten_engine_flat st : flat (flatten_engine st).
Proof.
  unfold flat, flatten_engine. simpl. by rewrite !pop_all_keys.
Qed.

Lemma flatten_all_flat sts : Forall flat (flatten_all sts).
Proof.
  unfold flatten_all. apply Forall_fmap, Forall_forall. intros st _.
  apply flatten_engine_flat.
Qed.

(** the loop stops exactly when the loss limits are breached outside a
    no-trade zone (inside a zone they are not evaluated).  On a breach, and
    on entering a zone, every engine is left flat: no position, no pending
    order, detector reset.  In both cases and on every later tick inside the
    zone, the feed is not read (the cache of seen orders is unchanged) and
    no entry step runs: the engines are as the synchronisation left them, or
    flat. *)
Theorem iteration_blocked env ls :
  connected env = true →
  let sts := sync env (strategies ls) in
  let r := iteration env ls in
  (r.1 = Break ↔ in_zone env = false ∧ breach env sts = true)
  ∧ (in_zone env = true →
     seen r.2 = seen ls ∧ ntz_active r.2 = true
     ∧ (ntz_active ls = true → strategies r.2 = sts)
     ∧ (ntz_active ls = false →
        strategies r.2 = flatten_all sts ∧ Forall flat (strategies r.2)))
  ∧ (in_zone env = false → breach env sts = true →
     seen r.2 = seen ls
     ∧ strategies r.2 = flatten_all sts ∧ Forall flat (strategies r.2))
  ∧ length (strategies r.2) = length (strategies ls).
Proof.
  intros Hc. cbv zeta. unfold iteration. rewrite Hc. simpl.
  assert (length (sync env (strategies ls)) = length (strategies ls)) as Hlen
    by (unfold sync; apply length_fmap).
  destruct (in_zone env) eqn:Ez.
  - simpl. split; [by split; [|intros [? _]]|].
    split; [|split; [done|]].
    + intros _. split; [done|]. split; [done|].
      split; intros ->; [done|]. split; [done | apply flatten_all_flat].
    + destruct (ntz_active ls); [done|].
      unfold flatten_all. by rewrite length_fmap.
  - destruct (breach env (sync env (strategies ls))) eqn:Eb.
    + simpl. split; [by split|]. split; [done|].
      split; [|unfold flatten_all; by rewrite length_fmap].
      intros _ _. split; [done|]. split; [done | apply flatten_all_flat].
    + destruct (SirixApi.build_new_events _ _ _ _) as [evs cache]. simpl.
      split; [by split; [|intros [_ ?]]|]. split; [done|]. split; [done|].
      unfold manage_positions, entry_steps. by rewrite !length_fmap.
Qed.

End Iteration.

(** ** More on the trailing stop *)

Section TrailingMore.

Import Chandelier.

Implicit Types (cfg : StrategyConfig) (sym : SymbolInfo) (bars : M1Bars)
  (info : BotPositionInfo) (st : StrategyState).

(** the chandelier step either leaves the position as it is or stores a new
    stop that differs from the old one by more than two points, lies on the
    losing side of the current price and is at least three points away
    from it *)
Theorem chandelier_trail_guard cfg sym bars open_R info :
  let info' := chandelier_trail cfg sym bars open_R info in
  info' = info
  ∨ (info' = set_sl info (sl_price info') (breakeven_hit info)
     ∧ (2 * point sym < Qabs (sl_price info' - sl_price info))%Q
     ∧ match direction info with
       | buy  => (sl_price info' < current_px bars
                  ∧ 3 * point sym <= current_px bars - sl_price info')%Q
       | sell => (current_px bars < sl_price info'
                  ∧ 3 * point sym <= sl_price info' - current_px bars)%Q
       end).
Proof.
  cbv zeta. unfold chandelier_trail.
  destruct (match trail_start_R cfg with Some _ => _ | None => _ end);
    [by left|].
  destruct (direction info) eqn:Ed.
  - destruct (Qle_bool _ _ || Py.Qltb _ _) eqn:Eg; [by left|].
    destruct (Py.Qltb (2 * point sym) _) eqn:Em; [|by left].
    right. apply orb_false_iff in Eg as [E1 E2].
    apply Qle_bool_false in E1. apply Qltb_ge in E2. apply Qltb_lt in Em.
    split; [reflexivity|]. cbn [sl_price set_sl]. split; [exact Em|].
    split; [|exact E2]. lra.
  - destruct (Qle_bool _ _ || Py.Qltb _ _) eqn:Eg; [by left|].
    destruct (Py.Qltb (2 * point sym) _) eqn:Em; [|by left].
    right. apply orb_false_iff in Eg as [E1 E2].
    apply Qle_bool_false in E1. apply Qltb_ge in E2. apply Qltb_lt in Em.
    split; [reflexivity|]. cbn [sl_price set_sl]. split; [exact Em|].
    split; [|exact E2]. lra.
Qed.

Lemma trail_position_frame cfg sym bars info :
  let info' := trail_position cfg sym bars info in
  ticket info' = ticket info ∧ direction info' = direction info
  ∧ entry_time info' = entry_time info ∧ entry_price info' = entry_price info
  ∧ tp_price info' = tp_price info.
Proof.
  cbv zeta. unfold trail_position.
  destruct (_ <=? _); [done|]. destruct (Qle_bool _ 0); [done|].
  set (open_R := match direction info with buy => _ | sell => _ end).
  clearbody open_R.
  assert (∀ i, let i' := chandelier_trail cfg sym bars open_R i in
               ticket i' = ticket i ∧ direction i' = direction i
               ∧ entry_time i' = entry_time i ∧ entry_price i' = entry_price i
               ∧ tp_price i' = tp_price i) as Hc.
  { intros i. cbv zeta. unfold chandelier_trail.
    destruct (match trail_start_R cfg with Some _ => _ | None => _ end); [done|].
    destruct (match direction i with buy => _ || _ | sell => _ || _ end);
      [done|].
    by destruct (Py.Qltb _ _). }
  assert (let i' := breakeven cfg sym open_R info in
          ticket i' = ticket info ∧ direction i' = direction info
          ∧ entry_time i' = entry_time info ∧ entry_price i' = entry_price info
          ∧ tp_price i' = tp_price info) as Hb.
  { cbv zeta. unfold breakeven. destruct (breakeven_trigger_R cfg); [|done].
    destruct (_ && _); [|done].
    destruct (match direction info with buy => _ | sell => _ end);
      repeat split; reflexivity. }
  cbv zeta in Hb. destruct Hb as (H1 & H2 & H3 & H4 & H5).
  destruct (Hc (breakeven cfg sym open_R info)) as (H6 & H7 & H8 & H9 & H10).
  by rewrite H6, H7, H8, H9, H10.
Qed.

(** [manage_trailing_stops] touches nothing but the positions; of a
    position it changes nothing but the stop and the breakeven flag, which
    it never clears; and it drops a position only when the terminal no
    longer reports it *)
Theorem manage_trailing_stops_frame env st :
  let st' := manage_trailing_stops env st in
  config st' = config st
  ∧ pending_orders st' = pending_orders st
  ∧ pending_meta st' = pending_meta st
  ∧ cluster_engine st' = cluster_engine st
  ∧ cooldown_until_utc st' = cooldown_until_utc st
  ∧ (∀ t p', open_positions st' !! t = Some p' →
       ∃ p, open_positions st !! t = Some p
            ∧ ticket p' = ticket p ∧ direction p' = direction p
            ∧ entry_time p' = entry_time p ∧ entry_price p' = entry_price p
            ∧ tp_price p' = tp_price p
            ∧ initial_sl_price p' = initial_sl_price p
            ∧ trade_mode p' = trade_mode p
            ∧ (breakeven_hit p = true → breakeven_hit p' = true))
  ∧ (∀ t p, open_positions st !! t = Some p →
       open_positions st' !! t = None → position_live env t = false).
Proof.
  cbv zeta. unfold manage_trailing_stops.
  destruct (_ || _).
  { repeat split; try done.
    - intros t p' H. exists p'. by repeat split.
    - intros t p H1 H2. congruence. }
  destruct (rates env) as [bars|].
  2:{ repeat split; try done.
      - intros t p' H. exists p'. by repeat split.
      - intros t p H1 H2. congruence. }
  simpl. repeat split; try done.
  - intros t p'. rewrite map_lookup_imap.
    destruct (open_positions st !! t) as [p|]; [|done]. simpl.
    destruct (position_live env t); [|done]. intros [= <-].
    exists p. split; [done|].
    destruct (trail_position_frame (config st) (SYMBOL_INFO env) bars p)
      as (H1 & H2 & H3 & H4 & H5).
    destruct (trail_position_keeps (config st) (SYMBOL_INFO env) bars p)
      as (H6 & H7 & H8).
    by repeat split.
  - intros t p Hp. rewrite map_lookup_imap, Hp. simpl.
    by destruct (position_live env t).
Qed.

End TrailingMore.

(** ** More on the direction decision and the daily P&L *)

Section DirectionMore.

Import Chandelier.

Context {DF : Type}.

(** in every mode and with every feed, the mode returned names the relation
    of the trade side to the cluster side: momentum goes with the cluster,
    inverse against it; the two fixed modes answer without reading the
    indicators and without logging *)
Theorem decide_direction_mode_matches_side (feed : IndicatorFeed DF) cs cfg :
  ∃ mode logs,
    decide_direction feed cs cfg
    = (inr (match mode with
            | momentum => cs
            | inverse => _inverse_side cs
            end, mode), logs)
    ∧ (direction_mode cfg = "inverse" → mode = inverse ∧ logs = [])
    ∧ (direction_mode cfg = "momentum" → mode = momentum ∧ logs = []).
Proof.
  unfold decide_direction.
  destruct (String.eqb_spec (direction_mode cfg) "inverse") as [Hi|Hi].
  { exists inverse, []. split; [done|]. split; [done|].
    rewrite Hi. by intros [=]. }
  destruct (String.eqb_spec (direction_mode cfg) "momentum") as [Hm|Hm].
  { exists momentum, []. by repeat split. }
  destruct (hybrid_indicators feed cfg) as [[e|[[rsi vwap] px]] l]; simpl.
  - eexists inverse, _. by repeat split.
  - destruct (if hybrid_require_both cfg then _ else _);
      [eexists momentum, _ | eexists inverse, _];
      (split; [reflexivity|]); by split.
Qed.

End DirectionMore.

Section DailyPnl.

Import Risk.

(** an engine's realized P&L of the day counts only the closing deals with
    its magic number, and its floating P&L only the open positions with its
    magic number: any other deal or position in the terminal's answer can be
    removed without changing the sums; without an answer both are zero *)
Theorem daily_pnl_by_magic magic :
  (∀ before d after,
     (deal_magic d ≠ magic ∨ closing d = false) →
     realized_pnl_today (Some (before ++ d :: after)) magic
     = realized_pnl_today (Some (before ++ after)) magic)
  ∧ (∀ before (p : Z * Q) after,
       p.1 ≠ magic →
       floating_pnl (Some (before ++ p :: after)) magic
       = floating_pnl (Some (before ++ after)) magic)
  ∧ realized_pnl_today None magic = 0%Q
  ∧ floating_pnl None magic = 0%Q.
Proof.
  split; [|split; [|done]].
  - intros before d after H. unfold realized_pnl_today.
    rewrite !foldl_app. simpl.
    destruct (Z.eqb_spec (deal_magic d) magic) as [Hm|Hm]; [|done].
    destruct H as [H|H]; [done | by rewrite H].
  - intros before p after H. unfold floating_pnl.
    rewrite !foldl_app. simpl.
    by destruct (Z.eqb_spec p.1 magic).
Qed.

End DailyPnl.

(** ** Instances of the properties above *)

Section LotSizingExamples.

Import Risk Scenario.

Lemma calc_lot_size_within_volume_limits_witness :
  (volume_min gold_volumes <= volume_max gold_volumes)%Q
  ∧ (volume_min gold_volumes
     <= calc_lot_size (Some 10000%Q) 4 percent_config gold_volumes
     ∧ calc_lot_size (Some 10000%Q) 4 percent_config gold_volumes
        <= volume_max gold_volumes)%Q.
Proof.
  assert (volume_min gold_volumes <= volume_max gold_volumes)%Q as H
    by (vm_compute; congruence).
  split; [exact H|].
  exact (calc_lot_size_within_volume_limits
           (Some 10000%Q) 4 percent_config gold_volumes H).
Defined.

(** risking 1 % of 10000 with a stop 4.00 away gives a quarter lot *)
Example calc_lot_size_quarter_lot :
  (calc_lot_size (Some 10000%Q) 4 percent_config gold_volumes == 1 # 4)%Q.
Proof. vm_compute. reflexivity. Qed.

Lemma round_lots_error_witness :
  (Qabs (_round_lots (37 # 1000) gold_volumes - (37 # 1000))
   <= Py.max (volume_step gold_volumes) (1 # 100) * (1 # 2) + (1 # 200))%Q.
Proof.
  apply (round_lots_error (37 # 1000) gold_volumes); vm_compute; congruence.
Defined.

End LotSizingExamples.

Section FilterExamples.

Import Filters Scenario.

Lemma within_session_overnight_witness :
  within_session true night_start night_end (hour 23) = true
  ↔ time_of_day night_start <= hour 23.
Proof.
  apply (within_session_overnight night_start night_end (hour 23)).
  - vm_compute; congruence.
  - vm_compute; congruence.
  - split; vm_compute; congruence.
Defined.

(** with the session from 22:00 to 06:00, 23:00 is inside it and 02:00 is
    not *)
Example within_session_after_midnight :
  within_session true night_start night_end (hour 23) = true
  ∧ within_session true night_start night_end (hour 2) = false.
Proof. split; reflexivity. Qed.

End FilterExamples.

Section InitialStopExamples.

Import Scenario.

Lemma gold_point_is_last_digit : point_is_last_digit gold.
Proof. vm_compute. reflexivity. Defined.

Lemma calc_sl_tp_distances_witness :
  point_is_last_digit gold
  ∧ (Qabs ((calc_sl_tp gold buy 2000 percent_config (Some 2%Q)).1
           - (2000 - widened gold (configured_sl_dist percent_config (Some 2%Q))))
     <= point gold * (1 # 2))%Q.
Proof.
  split; [exact gold_point_is_last_digit|].
  exact (proj1 (calc_sl_tp_distances gold buy 2000 percent_config (Some 2%Q)
                  gold_point_is_last_digit)).
Defined.

(** an ATR of 2 with multiple 2 puts the stop 4.00 below the entry and,
    with [tp_R_multiple] 2, the target 8.00 above it *)
Example calc_sl_tp_long :
  ∃ sl tp, calc_sl_tp gold buy 2000 percent_config (Some 2%Q) = (sl, Some tp)
           ∧ (sl == 1996)%Q ∧ (tp == 2008)%Q.
Proof. eexists _, _. split; [vm_compute; reflexivity|]. split; reflexivity. Qed.

End InitialStopExamples.

Section ClusterEngineMoreExamples.

Import ClusterEngine Scenario.

Lemma add_events_signal_sound_witness :
  (add_events detector three_buyers).1 = Some buy
  ∧ events (add_events detector three_buyers).2 ≠ []
  ∧ k_unique detector
    <= Z.of_nat (size (users_on buy (events (add_events detector three_buyers).2))).
Proof.
  assert ((add_events detector three_buyers).1 = Some buy) as H
    by (vm_compute; reflexivity).
  split; [exact H|].
  destruct (add_events_signal_sound detector three_buyers buy H) as (H1 & H2 & _).
  split; [exact H1 | exact H2].
Defined.

Lemma two_buyers_repeat :
  user_id second_order
  ∈ users_on (side second_order) (events (add_events detector two_buyers).2).
Proof. apply (bool_decide_unpack _). vm_compute. exact I. Defined.

(** a third order of the second of two buyers signals nothing *)
Lemma add_events_repeat_order_witness :
  (add_events (add_events detector two_buyers).2 [second_order]).1 = None.
Proof.
  destruct (add_events_repeat_order (add_events detector two_buyers).2
              second_order two_buyers_repeat) as (_ & _ & _ & H).
  apply H; vm_compute; reflexivity.
Defined.

End ClusterEngineMoreExamples.

Section EventBuildingExamples.

Import SeenOrdersCache SirixApi Scenario.

Lemma tick_clock_short : short_call tick_clock (_max_age cache_with_o1).
Proof.
  intros i j. unfold tick_clock. change (_max_age cache_with_o1) with 86400000000.
  lia.
Defined.

Lemma tick_clock_within_age (c : t) :
  _max_age c = 86400000000 → within_age tick_clock (_max_age c) (hour 1).
Proof.
  intros E n. rewrite E. unfold tick_clock.
  change (hour 2) with 7200000000. change (hour 1) with 3600000000. lia.
Defined.

Lemma build_new_events_dedup_witness :
  short_call tick_clock (_max_age cache_with_o1)
  ∧ NoDup (order_id <$> (build_new_events tick_clock raw_feed cache_with_o1 None).1).
Proof.
  split; [exact tick_clock_short|].
  exact (proj1 (build_new_events_dedup tick_clock raw_feed cache_with_o1 None
                  tick_clock_short)).
Defined.

(** of the response that lists "o5" twice and the seen "o1" again, the
    orders "o5" and "o6" give one event each *)
Example build_new_events_raw_feed :
  order_id <$> (build_new_events tick_clock raw_feed cache_with_o1 None).1
  = ["o5"; "o6"].
Proof. vm_compute. reflexivity. Qed.

Lemma build_new_events_skips_seen_witness :
  _store cache_with_o1 !! "o1" = Some (hour 1)
  ∧ ("o1" ∉ order_id <$> (build_new_events tick_clock raw_feed cache_with_o1 None).1)
  ∧ _store (build_new_events tick_clock raw_feed cache_with_o1 None).2 !! "o1"
    = Some (hour 1).
Proof.
  assert (_store cache_with_o1 !! "o1" = Some (hour 1)) as H
    by (vm_compute; reflexivity).
  split; [exact H|].
  exact (build_new_events_skips_seen tick_clock raw_feed cache_with_o1 None
           "o1" (hour 1) H (tick_clock_within_age cache_with_o1 eq_refl)).
Defined.

Lemma bootstrap_orders_ignored_witness :
  "o5" ∈ ["o5"; "o6"]
  ∧ "o5" ∉ (order_id <$>
             (build_new_events tick_clock raw_feed
                (bootstrap (hour 1) ["o5"; "o6"]
                   (init Config.SEEN_ORDERS_MAX_AGE_HOURS)) None).1).
Proof.
  assert ("o5" ∈ ["o5"; "o6"]) as H by constructor.
  split; [exact H|].
  exact (bootstrap_orders_ignored tick_clock (hour 1) ["o5"; "o6"] raw_feed
           (init Config.SEEN_ORDERS_MAX_AGE_HOURS) None "o5" H
           (tick_clock_within_age (init Config.SEEN_ORDERS_MAX_AGE_HOURS) eq_refl)).
Defined.

End EventBuildingExamples.

Section LifecycleExamples.

Import Chandelier Main Scenario.

Lemma engine_a_pending_consistent : pending_consistent engine_a.
Proof. split; [reflexivity|]. vm_compute. lia. Defined.

Lemma pending_records_consistent_witness :
  pending_consistent engine_a
  ∧ pending_consistent
      (calls engine_a
         [ Entry placing_env three_buyers (hour 2);
           Entry placing_env [second_order] (hour 3);
           ManagePending (Some [(555, 9001)]) (hour 3) ]).
Proof.
  split; [exact engine_a_pending_consistent|].
  exact (pending_records_consistent engine_a _ engine_a_pending_consistent).
Defined.

(** the first of these entry steps places the order with ticket 555 and
    starts the cooldown *)
Example entry_step_places_order :
  let st := entry_step placing_env engine_a three_buyers (hour 2) in
  pending_orders st !! 555 = Some (hour 2)
  ∧ cooldown_until_utc st
    = Some (hour 2 + timedelta_seconds Config.TRADE_COOLDOWN_SECONDS).
Proof. split; vm_compute; reflexivity. Qed.

Lemma tracked_position_keeps_initial_stop_witness :
  open_positions long_engine !! 7 = Some long_position
  ∧ ∃ p', open_positions (calls long_engine two_iterations) !! 7 = Some p'
          ∧ initial_sl_price p' = initial_sl_price long_position
          ∧ trade_mode p' = trade_mode long_position.
Proof.
  assert (open_positions long_engine !! 7 = Some long_position) as H
    by (vm_compute; reflexivity).
  split; [exact H|].
  assert (tracked_along 7 long_engine two_iterations) as Ht.
  { repeat split; vm_compute; eexists; reflexivity. }
  destruct (tracked_position_keeps_initial_stop long_engine two_iterations 7
              long_position H Ht) as (p' & H1 & H2 & H3 & _).
  exists p'. split; [exact H1|]. split; [exact H2 | exact H3].
Defined.

End LifecycleExamples.

Section PlacingExamples.

Import Scenario.

Lemma place_pending_entry_offsets_witness :
  place_pending_entry sell_env sell percent_config (1 # 2) inverse
  = Some (555, sell_meta)
  ∧ (Qabs (pending_price sell_meta - ((20002 # 10) + (1 # 2)))
     <= point gold * (1 # 2))%Q.
Proof.
  assert (place_pending_entry sell_env sell percent_config (1 # 2) inverse
          = Some (555, sell_meta)) as H by (vm_compute; reflexivity).
  split; [exact H|].
  destruct (place_pending_entry_offsets sell_env sell percent_config (1 # 2)
              inverse 555 sell_meta gold_point_is_last_digit H)
    as (bid & ask & req & Hq & _ & _ & _ & _ & Hp & _).
  injection Hq as <- <-. exact Hp.
Defined.

End PlacingExamples.

Section IterationExamples.

Import Main Scenario.

Lemma iteration_blocked_witness :
  connected news_tick = true
  ∧ in_zone news_tick = true
  ∧ Forall flat (strategies (iteration news_tick running).2).
Proof.
  split; [reflexivity|].
  assert (in_zone news_tick = true) as H by (vm_compute; reflexivity).
  split; [exact H|].
  destruct (iteration_blocked news_tick running eq_refl) as (_ & Hz & _).
  destruct (Hz H) as (_ & _ & _ & Hf).
  exact (proj2 (Hf eq_refl)).
Defined.

End IterationExamples.
